(** * The training launcher of the web UI: [swift/ui/llm_train/llm_train.py]

    A shallow embedding of [LLMTrain.train], [LLMTrain.train_studio] and
    [LLMTrain.train_local], followed by the properties of the argument
    resolver, the command builder and the process runner.

    Python values are an inductive type, dictionaries are association lists
    in insertion order, exceptions are a [result] type, and the effects
    (constructor calls, logging, cache writes, process spawns) are recorded
    in a trace of events.  Everything the class takes from other modules
    (the [BaseUI] attributes, [RLHFArguments], [json], [os], [re]) is a
    field of the record [Env].  The system calls of the runners are taken
    to succeed.

    The other file, [swift/megatron/model/gpt/__init__.py], is one call of
    [register_megatron_model] on a static list and is not modelled. *)

From Stdlib Require Import Bool Ascii String List ZArith Lia.
From Stdlib Require Import SpecFloat DecimalString.
From Stdlib Require DecimalZ.
Import ListNotations.

Local Open Scope Z_scope.
Local Open Scope list_scope.
Local Open Scope string_scope.

(** ** Python strings

    A [str] is modelled by a [string] whose characters are its code points;
    the model covers the code points below 256. *)

Module PyStr.

(** [str.isspace] on one character of that range. *)
Definition is_space (c : ascii) : bool :=
  let n := N_of_ascii c in
  ((9 <=? n) && (n <=? 13) || (28 <=? n) && (n <=? 32)
   || (n =? 133) || (n =? 160))%N.

Fixpoint lstrip (s : string) : string :=
  match s with
  | String c t => if is_space c then lstrip t else s
  | EmptyString => EmptyString
  end.

(** [rstrip] keeps a character when something that is not a space follows
    it or it is not a space itself. *)
Fixpoint rstrip (s : string) : string :=
  match s with
  | EmptyString => EmptyString
  | String c t =>
      match rstrip t with
      | EmptyString => if is_space c then EmptyString else String c EmptyString
      | r => String c r
      end
  end.

(** [s.strip()] *)
Definition strip (s : string) : string := rstrip (lstrip s).

Definition nonempty (s : string) : bool :=
  match s with EmptyString => false | String _ _ => true end.

(** [s.split(sep)] for a one-character separator: the fragment read so far
    is [cur]; every separator closes a fragment, the end closes the last. *)
Fixpoint split_acc (sep : ascii) (cur : string) (s : string) : list string :=
  match s with
  | EmptyString => [cur]
  | String c t =>
      if Ascii.eqb c sep then cur :: split_acc sep EmptyString t
      else split_acc sep (cur ++ String c EmptyString) t
  end.

Definition split (sep : ascii) (s : string) : list string :=
  split_acc sep EmptyString s.

(** [sep.join(l)] on a list of strings. *)
Definition join (sep : string) (l : list string) : string :=
  String.concat sep l.

Definition lower_char (c : ascii) : ascii :=
  let n := N_of_ascii c in
  if ((65 <=? n) && (n <=? 90))%N then ascii_of_N (n + 32) else c.

(** [s.lower()] on the letters A-Z.  The only use in the launcher is the
    test [value.lower() == 'true'], and no character outside A-Z
    lower-cases to one of t, r, u, e. *)
Fixpoint lower (s : string) : string :=
  match s with
  | EmptyString => EmptyString
  | String c t => String (lower_char c) (lower t)
  end.

Fixpoint is_prefix (p s : string) : bool :=
  match p, s with
  | EmptyString, _ => true
  | String a p', String b s' => Ascii.eqb a b && is_prefix p' s'
  | String _ _, EmptyString => false
  end.

(** [p in s] *)
Fixpoint contains (p s : string) : bool :=
  is_prefix p s ||
  match s with
  | EmptyString => false
  | String _ t => contains p t
  end.

(** The characters of a string, as [for c in s] visits them. *)
Fixpoint chars (s : string) : list string :=
  match s with
  | EmptyString => []
  | String c t => String c EmptyString :: chars t
  end.

Definition digit_of (c : ascii) : option Z :=
  let n := N_of_ascii c in
  if ((48 <=? n) && (n <=? 57))%N then Some (Z.of_N (n - 48)) else None.

(** The digits of [int(s)] after the sign: a digit first, then digits, each
    possibly preceded by one underscore. *)
Fixpoint digits_from (acc : Z) (s : string) : option Z :=
  match s with
  | EmptyString => Some acc
  | String c t =>
      match digit_of c with
      | Some d => digits_from (10 * acc + d) t
      | None =>
          if Ascii.eqb c "_"%char then
            match t with
            | String c' t' =>
                match digit_of c' with
                | Some d => digits_from (10 * acc + d) t'
                | None => None
                end
            | EmptyString => None
            end
          else None
      end
  end.

Definition unsigned_int (s : string) : option Z :=
  match s with
  | String c t =>
      match digit_of c with
      | Some d => digits_from d t
      | None => None
      end
  | EmptyString => None
  end.

(** [int(s)] in base 10: surrounding white space is dropped, one sign is
    allowed; [None] stands for [ValueError].  The bound that recent
    interpreters put on the number of digits (4300 unless configured) is
    left out. *)
Definition to_int (s : string) : option Z :=
  match strip s with
  | String "-"%char t => option_map Z.opp (unsigned_int t)
  | String "+"%char t => unsigned_int t
  | t => unsigned_int t
  end.

(** [str(z)] for an integer. *)
Definition of_int (z : Z) : string := NilZero.string_of_int (Z.to_int z).

End PyStr.

(** ** Python values

    Form values, defaults and decoded JSON: [None], booleans, integers,
    binary64 floats, strings, lists and dictionaries.  A dictionary keeps
    its items in insertion order. *)

#[warning="-register-all"]
Inductive pyval : Type :=
| VNone
| VBool (b : bool)
| VInt (z : Z)
| VFloat (f : spec_float)
| VStr (s : string)
| VList (l : list pyval)
| VDict (d : list (pyval * pyval)).

Definition Z_of_bool (b : bool) : Z := if b then 1 else 0.

(** [float == int], compared exactly. *)
Definition float_eq_int (f : spec_float) (z : Z) : bool :=
  match f with
  | S754_zero _ => (z =? 0)%Z
  | S754_finite s m e =>
      let sm := if s then Z.neg m else Z.pos m in
      if (0 <=? e)%Z then (z =? sm * 2 ^ e)%Z else (z * 2 ^ (- e) =? sm)%Z
  | S754_infinity _ | S754_nan => false
  end.

(** [a == b] *)
Fixpoint py_eq (a b : pyval) {struct a} : bool :=
  match a, b with
  | VNone, VNone => true
  | VBool x, VBool y => Bool.eqb x y
  | VBool x, VInt z => (Z_of_bool x =? z)%Z
  | VBool x, VFloat f => float_eq_int f (Z_of_bool x)
  | VInt z, VBool y => (z =? Z_of_bool y)%Z
  | VInt z, VInt z' => (z =? z')%Z
  | VInt z, VFloat f => float_eq_int f z
  | VFloat f, VBool y => float_eq_int f (Z_of_bool y)
  | VFloat f, VInt z => float_eq_int f z
  | VFloat f, VFloat f' => SFeqb f f'
  | VStr s, VStr s' => String.eqb s s'
  | VList l, VList l' =>
      (fix each (l l' : list pyval) : bool :=
         match l, l' with
         | [], [] => true
         | x :: t, y :: t' => py_eq x y && each t t'
         | _, _ => false
         end) l l'
  | VDict d, VDict d' =>
      (Nat.eqb (List.length d) (List.length d')) &&
      (fix every (d : list (pyval * pyval)) : bool :=
         match d with
         | [] => true
         | (k, v) :: t =>
             (fix find (d' : list (pyval * pyval)) : bool :=
                match d' with
                | [] => false
                | (k', v') :: t' => if py_eq k k' then py_eq v v' else find t'
                end) d' && every t
         end) d
  | _, _ => false
  end.

(** [a != b] *)
Definition py_neq (a b : pyval) : bool := negb (py_eq a b).

(** [bool(v)] *)
Definition truthy (v : pyval) : bool :=
  match v with
  | VNone => false
  | VBool b => b
  | VInt z => negb (z =? 0)%Z
  | VFloat (S754_zero _) => false
  | VFloat _ => true
  | VStr s => PyStr.nonempty s
  | VList l => match l with [] => false | _ => true end
  | VDict d => match d with [] => false | _ => true end
  end.

Definition is_list (v : pyval) : bool :=
  match v with VList _ => true | _ => false end.

Definition is_str (v : pyval) : bool :=
  match v with VStr _ => true | _ => false end.

(** Lists and dictionaries cannot be dictionary keys. *)
Definition hashable (v : pyval) : bool :=
  match v with VList _ | VDict _ => false | _ => true end.

(** ** Exceptions *)

(** An exception raised by a collaborator, with what [str(e)] gives. *)
Record foreign_exn : Type := { exn_class : string; exn_str : string }.

Inductive exn : Type :=
| GrError (msg : string)
| TypeError
| ValueError
| KeyError
| AttributeError
| AssertionError
| OverflowError
| UnicodeDecodeError
| Raised (e : foreign_exn).

Inductive result (A : Type) : Type :=
| Ok (a : A)
| Err (e : exn).
Arguments Ok {A} a.
Arguments Err {A} e.

Definition rbind {A B : Type} (r : result A) (k : A -> result B) : result B :=
  match r with
  | Ok a => k a
  | Err e => Err e
  end.

Declare Scope result_scope.
Delimit Scope result_scope with result.
Notation "x <- r ;; k" := (rbind r (fun x => k))
  (at level 61, r at next level, right associativity) : result_scope.
Notation "' p <- r ;; k" := (rbind r (fun p => k))
  (at level 61, p pattern, r at next level, right associativity)
  : result_scope.

(** ** Dictionaries in insertion order *)

Module PyDict.
Section Assoc.
Context {K V : Type}.
Variable eqb : K -> K -> bool.

Definition t : Type := list (K * V).

(** [d.get(k)] *)
Fixpoint get (k : K) (d : t) : option V :=
  match d with
  | [] => None
  | (j, v) :: r => if eqb k j then Some v else get k r
  end.

(** [k in d] *)
Definition mem (k : K) (d : t) : bool :=
  match get k d with Some _ => true | None => false end.

(** [d[k] = v]: an existing key keeps its place, a new one goes last. *)
Fixpoint set (k : K) (v : V) (d : t) : t :=
  match d with
  | [] => [(k, v)]
  | (j, w) :: r => if eqb k j then (j, v) :: r else (j, w) :: set k v r
  end.

(** The dictionary without [k]. *)
Fixpoint remove (k : K) (d : t) : t :=
  match d with
  | [] => []
  | (j, w) :: r => if eqb k j then r else (j, w) :: remove k r
  end.

(** [d.pop(k)]: the value and the remaining dictionary. *)
Definition pop (k : K) (d : t) : option (V * t) :=
  match get k d with
  | Some v => Some (v, remove k d)
  | None => None
  end.

(** [d.update(m)] for a mapping [m], item by item. *)
Definition merge (d m : t) : t :=
  fold_left (fun acc kv => set (fst kv) (snd kv) acc) m d.

End Assoc.
End PyDict.

(** Dictionaries keyed by strings: defaults, [kwargs_is_list],
    [other_kwargs]. *)
Definition sdict (V : Type) : Type := list (string * V).
Definition sget {V} (k : string) (d : sdict V) : option V :=
  PyDict.get String.eqb k d.
Definition smem {V} (k : string) (d : sdict V) : bool :=
  PyDict.mem String.eqb k d.
Definition sset {V} (k : string) (v : V) (d : sdict V) : sdict V :=
  PyDict.set String.eqb k v d.

(** [kwargs]: its keys are strings as long as the form fills it, and
    whatever the decoded JSON brings afterwards. *)
Definition kwdict : Type := list (pyval * pyval).
Definition kget (k : string) (d : kwdict) : option pyval :=
  PyDict.get py_eq (VStr k) d.
Definition kmem (k : string) (d : kwdict) : bool :=
  PyDict.mem py_eq (VStr k) d.
Definition kset (k : string) (v : pyval) (d : kwdict) : kwdict :=
  PyDict.set py_eq (VStr k) v d.
Definition kremove (k : string) (d : kwdict) : kwdict :=
  PyDict.remove py_eq (VStr k) d.
Definition kpop (k : string) (d : kwdict) : option (pyval * kwdict) :=
  PyDict.pop py_eq (VStr k) d.

(** One element of the sequence given to [dict.update] must itself have
    two elements. *)
Definition pair_of (v : pyval) : result (pyval * pyval) :=
  match v with
  | VList [a; b] => Ok (a, b)
  | VList _ => Err ValueError
  | VStr s =>
      match PyStr.chars s with
      | [a; b] => Ok (VStr a, VStr b)
      | _ => Err ValueError
      end
  | VDict [(a, _); (b, _)] => Ok (a, b)
  | VDict _ => Err ValueError
  | VNone | VBool _ | VInt _ | VFloat _ => Err TypeError
  end.

Fixpoint update_pairs (d : kwdict) (l : list pyval) : result kwdict :=
  match l with
  | [] => Ok d
  | x :: r =>
      match pair_of x with
      | Ok (k, v) =>
          if hashable k then update_pairs (PyDict.set py_eq k v d) r
          else Err TypeError
      | Err e => Err e
      end
  end.

(** [d.update(m)] for any value [m]: a mapping is merged, another iterable
    is read as a sequence of pairs, anything else is a [TypeError]. *)
Definition dict_update (d : kwdict) (m : pyval) : result kwdict :=
  match m with
  | VDict kv => Ok (PyDict.merge py_eq d kv)
  | VList l => update_pairs d l
  | VStr s => update_pairs d (map VStr (PyStr.chars s))
  | VNone | VBool _ | VInt _ | VFloat _ => Err TypeError
  end.

(** ** The collaborators

    What the call of [RLHFArguments] gives back: the launcher reads three
    attributes of it. *)
Record sft_args : Type := {
  output_dir : string;
  logging_dir : string;
  model : pyval
}.

(** One cell of what [train_studio] yields: the log text or the command, a
    [None] placeholder, or a plot of [Runtime.plot]. *)
Inductive cell : Type :=
| CStr (s : string)
| CNone
| CPlot (id : nat).

(** Everything [LLMTrain] takes from outside this file. *)
Record Env : Type := {
  (** [BaseUI]: [re.fullmatch(cls.int_regex, s)] succeeds, and the same for
      the float and the boolean pattern *)
  int_regex : string -> bool;
  float_regex : string -> bool;
  bool_regex : string -> bool;
  (** [cls.quote], [cls.group], [cls.valid_element_keys()] *)
  quote : string;
  group : string;
  valid_element_keys : list string;
  (** [getattr(cls.element(key), 'is_list', False)] *)
  element_is_list : string -> bool;
  (** [cls.get_default_value_from_dataclass(RLHFArguments)] *)
  default_args : sdict pyval;
  (** [cls.locale(key, cls.lang)['value']] *)
  locale_value : string -> string;
  (** [cls.save_cache(model, record)] returns or raises *)
  save_cache : pyval -> sdict pyval -> option foreign_exn;
  (** [RLHFArguments] called on keyword arguments returns or raises *)
  RLHFArguments : sdict pyval -> foreign_exn + sft_args;
  (** [Runtime.plot(cmd)] and [len(Runtime.sft_plot)] *)
  runtime_plot : string -> list cell;
  sft_plot_count : nat;
  (** the interpreter: [float(s)] ([None] is [ValueError]), [repr] of a
      float and of a string, [json.loads(s)] ([None] is [JSONDecodeError]),
      [bytes.decode('utf-8')] ([None] is [UnicodeDecodeError]) *)
  py_float : string -> option spec_float;
  float_repr : spec_float -> string;
  str_repr : string -> string;
  json_loads : string -> option pyval;
  utf8_decode : string -> option string;
  (** the platform: [sys.platform == 'win32'], [os.path.exists] on a path
      and on a file descriptor, [os.path.join], [os.environ.get],
      [is_torch_npu_available()], [is_torch_cuda_available()], and what the
      process started with a command writes to its output *)
  win32 : bool;
  path_exists : string -> bool;
  fd_exists : Z -> bool;
  path_join : string -> string -> string;
  environ_get : string -> option string;
  npu_available : bool;
  cuda_available : bool;
  process_output : string -> string
}.

(** ** Formatting: [str(v)] and [repr(v)] *)

Section Format.
Variable env : Env.

Fixpoint py_repr (v : pyval) : string :=
  match v with
  | VNone => "None"
  | VBool b => if b then "True" else "False"
  | VInt z => PyStr.of_int z
  | VFloat f => float_repr env f
  | VStr s => str_repr env s
  | VList l =>
      "[" ++ PyStr.join ", " (map py_repr l) ++ "]"
  | VDict d =>
      "{" ++ PyStr.join ", "
               (map (fun kv => py_repr (fst kv) ++ ": " ++ py_repr (snd kv)) d)
          ++ "}"
  end.

(** What an f-string puts for [{v}]. *)
Definition py_str (v : pyval) : string :=
  match v with
  | VStr s => s
  | _ => py_repr v
  end.
End Format.

(** ** Effects

    The calls that reach outside the function are recorded in order. *)
Inductive event : Type :=
| EvConstruct (kw : sdict pyval)
| EvLog (msg : string)
| EvSaveCache (model : pyval) (record : sdict pyval)
| EvPopen (cmd : string)
| EvMakedirs (dir : string)
| EvSystem (cmd : string)
| EvSleep
| EvInfo (msg : string).

(** A computation gives the events it caused and its result or the
    exception that ended it. *)
Definition M (A : Type) : Type := (list event * result A)%type.

Definition ret {A : Type} (a : A) : M A := ([], Ok a).
Definition raise {A : Type} (e : exn) : M A := ([], Err e).
Definition emit (ev : event) : M unit := ([ev], Ok tt).
Definition lift {A : Type} (r : result A) : M A := ([], r).

Definition bind {A B : Type} (m : M A) (k : A -> M B) : M B :=
  match snd m with
  | Ok a => ((fst m ++ fst (k a))%list, snd (k a))
  | Err e => (fst m, Err e)
  end.

Declare Scope effect_scope.
Delimit Scope effect_scope with M.
Notation "x <- m ;; k" := (bind m (fun x => k))
  (at level 61, m at next level, right associativity) : effect_scope.
Notation "' p <- m ;; k" := (bind m (fun p => k))
  (at level 61, p pattern, m at next level, right associativity)
  : effect_scope.
Notation "m ;;; k" := (bind m (fun _ => k))
  (at level 61, right associativity) : effect_scope.

(** ** The argument resolver: [LLMTrain.train], up to the constructor *)

Definition ignore_elements : list string :=
  ["logging_dir"; "more_params"; "train_stage"; "envs"].

(** The local variables the loop over the form fields fills. *)
Record state : Type := {
  kwargs : kwdict;
  kwargs_is_list : sdict bool;
  other_kwargs : sdict pyval;
  more_params : pyval;
  more_params_cmd : string;
  train_stage : pyval
}.

Definition with_explicit (st : state) (k : string) (v : pyval) (l : bool)
  : state :=
  {| kwargs := kset k v (kwargs st);
     kwargs_is_list := sset k l (kwargs_is_list st);
     other_kwargs := other_kwargs st;
     more_params := more_params st;
     more_params_cmd := more_params_cmd st;
     train_stage := train_stage st |}.

Definition with_other (st : state) (k : string) (v : pyval) : state :=
  {| kwargs := kwargs st;
     kwargs_is_list := kwargs_is_list st;
     other_kwargs := sset k v (other_kwargs st);
     more_params := more_params st;
     more_params_cmd := more_params_cmd st;
     train_stage := train_stage st |}.

Definition with_more_params (st : state) (j : pyval) : state :=
  {| kwargs := kwargs st;
     kwargs_is_list := kwargs_is_list st;
     other_kwargs := other_kwargs st;
     more_params := j;
     more_params_cmd := more_params_cmd st;
     train_stage := train_stage st |}.

Definition with_more_params_cmd (st : state) (s : string) : state :=
  {| kwargs := kwargs st;
     kwargs_is_list := kwargs_is_list st;
     other_kwargs := other_kwargs st;
     more_params := more_params st;
     more_params_cmd := s;
     train_stage := train_stage st |}.

Definition with_train_stage (st : state) (v : pyval) : state :=
  {| kwargs := kwargs st;
     kwargs_is_list := kwargs_is_list st;
     other_kwargs := other_kwargs st;
     more_params := more_params st;
     more_params_cmd := more_params_cmd st;
     train_stage := v |}.

(** The strings of a list, if all its elements are strings: what
    [sep.join] needs. *)
Fixpoint strs_of (l : list pyval) : option (list string) :=
  match l with
  | [] => Some []
  | VStr s :: r => option_map (cons s) (strs_of r)
  | _ :: _ => None
  end.

Section Resolver.
Variable env : Env.

Definition init_state : state :=
  {| kwargs := [];
     kwargs_is_list := [];
     other_kwargs := [];
     more_params := VDict [];
     more_params_cmd := "";
     train_stage :=
       VStr (if group env =? "llm_grpo" then "rlhf" else "sft") |}.

(** Lines 293-298: the type of a form value is read off its text. *)
Definition coerce (value : pyval) : result pyval :=
  match value with
  | VStr s =>
      if int_regex env s then
        match PyStr.to_int s with
        | Some z => Ok (VInt z)
        | None => Err ValueError
        end
      else if float_regex env s then
        match py_float env s with
        | Some f => Ok (VFloat f)
        | None => Err ValueError
        end
      else if bool_regex env s then
        Ok (VBool (PyStr.lower s =? "true"))
      else Ok value
  | _ => Ok value
  end.

(** Line 299: the test that makes a field an explicit override. *)
Definition is_override (key : string) (value : pyval) : bool :=
  let compare_value :=
    match sget key (default_args env) with
    | Some d => d
    | None => VNone
    end in
  negb (existsb (String.eqb key) ignore_elements)
  && smem key (default_args env)
  && py_neq compare_value value
  && truthy value.

(** Line 300: a list is stored joined by spaces. *)
Definition stored (value : pyval) : result pyval :=
  match value with
  | VList l =>
      match strs_of l with
      | Some ss => Ok (VStr (PyStr.join " " ss))
      | None => Err TypeError
      end
  | _ => Ok value
  end.

(** Lines 299-303: the field goes to [kwargs] or to [other_kwargs]. *)
Definition bucket (st : state) (key : string) (value : pyval)
  : result state :=
  if is_override key value then
    (v <- stored value ;;
     Ok (with_explicit st key v
           (is_list value || element_is_list env key)))%result
  else Ok (with_other st key value).

(** Lines 304-308: the free-form field.  [json.loads] takes a string and
    raises [TypeError] on anything else; the handler catches
    [JSONDecodeError] alone, which is what the expression
    [JSONDecodeError or TypeError] evaluates to. *)
Definition parse_more_params (st : state) (key : string) (value : pyval)
  : result state :=
  if (key =? "more_params") && truthy value then
    match value with
    | VStr s =>
        match json_loads env s with
        | Some j => Ok (with_more_params st j)
        | None => Ok (with_more_params_cmd st s)
        end
    | _ => Err TypeError
    end
  else Ok st.

(** One turn of the loop of lines 291-311. *)
Definition step (st : state) (kv : string * pyval) : result state :=
  (let key := fst kv in
   value <- coerce (snd kv) ;;
   st1 <- bucket st key value ;;
   st2 <- parse_more_params st1 key value ;;
   Ok (if key =? "train_stage" then with_train_stage st2 value
       else st2))%result.

Fixpoint run_loop (st : state) (l : list (string * pyval)) : result state :=
  match l with
  | [] => Ok st
  | kv :: r => (st' <- step st kv ;; run_loop st' r)%result
  end.

(** [zip(keys, args)] *)
Definition fields (args : list pyval) : list (string * pyval) :=
  combine (valid_element_keys env) args.

Definition collect (args : list pyval) : result state :=
  run_loop init_state (fields args).

(** Line 313: the overrides after [kwargs.update(more_params)]. *)
Definition merged_overrides (args : list pyval) : result kwdict :=
  (st <- collect args ;; dict_update (kwargs st) (more_params st))%result.

(** Lines 314-315. *)
Definition check_dataset (kw : kwdict) : result unit :=
  if negb (kmem "dataset" kw) && negb (kmem "custom_train_dataset_path" kw)
  then Err (GrError (locale_value env "dataset_alert"))
  else Ok tt.

(** [os.path.exists(p)]: a string is a path, an integer a file
    descriptor, which has to fit a C [int], anything else a [TypeError]. *)
Definition os_path_exists (p : pyval) : result bool :=
  match p with
  | VStr s => Ok (path_exists env s)
  | VInt z =>
      if ((- 2 ^ 31 <=? z) && (z <? 2 ^ 31))%Z then Ok (fd_exists env z)
      else Err OverflowError
  | VBool b => Ok (fd_exists env (Z_of_bool b))
  | VNone | VFloat _ | VList _ | VDict _ => Err TypeError
  end.

(** [os.path.join(p, name)] *)
Definition os_path_join (p : pyval) (name : string) : result string :=
  match p with
  | VStr s => Ok (path_join env s name)
  | _ => Err TypeError
  end.

(** [kwargs.get('model')] *)
Definition get_model (kw : kwdict) : pyval :=
  match kget "model" kw with
  | Some v => v
  | None => VNone
  end.

(** Lines 317-319: a model directory that holds [args.json] is a
    checkpoint to resume from. *)
Definition detect_checkpoint (kw : kwdict) : result kwdict :=
  (let model := get_model kw in
   here <- os_path_exists model ;;
   ckpt <- (if here then
              (p <- os_path_join model "args.json" ;;
               os_path_exists (VStr p))
            else Ok false) ;;
   if ckpt then
     match kpop "model" kw with
     | Some (v, rest) => Ok (kset "resume_from_checkpoint" v rest)
     | None => Err KeyError
     end
   else Ok kw)%result.

(** Lines 322-323: [deepspeed] leaves the overrides for the suffix. *)
Definition route_deepspeed (kw : kwdict) (suffix : string)
  : kwdict * string :=
  match kget "deepspeed" kw with
  | Some v =>
      if truthy v then
        (kremove "deepspeed" kw,
         suffix ++ " --deepspeed " ++ py_str env v ++ " ")
      else (kw, suffix)
  | None => (kw, suffix)
  end.

(** [kwargs_is_list.get(key, False)] for a key of [kwargs]. *)
Definition flagged (il : sdict bool) (key : pyval) : bool :=
  match key with
  | VStr k =>
      match sget k il with
      | Some b => b
      | None => false
      end
  | _ => false
  end.

(** The dictionary comprehension of lines 326-329. *)
Definition ctor_items (il : sdict bool) (kw : kwdict) : kwdict :=
  map (fun kv =>
         (fst kv,
          match snd kv with
          | VStr s =>
              if flagged il (fst kv)
              then VList (map VStr (PyStr.split " " s))
              else snd kv
          | v => v
          end)) kw.

(** Keyword arguments must have string names. *)
Fixpoint keywords (items : kwdict) : option (sdict pyval) :=
  match items with
  | [] => Some []
  | (VStr k, v) :: r => option_map (cons (k, v)) (keywords r)
  | _ :: _ => None
  end.

(** One call of the constructor. *)
Definition call_ctor (il : sdict bool) (kw : kwdict) : M sft_args :=
  match keywords (ctor_items il kw) with
  | Some args =>
      (emit (EvConstruct args) ;;;
       match RLHFArguments env args with
       | inr a => ret a
       | inl e => raise (Raised e)
       end)%M
  | None => raise TypeError
  end.

(** [str(e)] holds the text the handler looks for.  Besides what the
    constructor raises, the block can only raise the [TypeError] of a
    keyword that is not a string, whose message has no such text. *)
Definition model_not_set (e : exn) : bool :=
  match e with
  | Raised fe => PyStr.contains "Please set --model" (exn_str fe)
  | _ => false
  end.

(** Lines 324-339: the constructor, and the retry on the model signal.
    The overrides come back as the handler left them. *)
Definition construct (il : sdict bool) (kw : kwdict)
  : M (sft_args * kwdict) :=
  let first := call_ctor il kw in
  match snd first with
  | Ok a => (fst first, Ok (a, kw))
  | Err e =>
      if model_not_set e then
        match kpop "resume_from_checkpoint" kw with
        | Some (v, rest) =>
            let kw' := kset "model" v rest in
            (_ <- (fst first, Ok tt) ;;
             a <- call_ctor il kw' ;;
             ret (a, kw'))%M
        | None => (fst first, Err KeyError)
        end
      else (fst first, Err e)
  end.
End Resolver.

(** The local variables that are alive at line 340. *)
Record resolved : Type := {
  r_state : state;
  r_kwargs : kwdict;
  r_suffix : string;
  r_args : sft_args;
  r_model : pyval
}.

(** ** The command builder: [LLMTrain.train], from line 340 on *)

Section Builder.
Variable env : Env.

(** [d[k]] on [other_kwargs] *)
Definition getitem (k : string) (d : sdict pyval) : result pyval :=
  match sget k d with
  | Some v => Ok v
  | None => Err KeyError
  end.

(** Line 350: the fragments of a space-joined text that are not blank. *)
Definition resplit (s : string) : list string :=
  filter (fun arg => PyStr.nonempty (PyStr.strip arg)) (PyStr.split " " s).

(** One turn of the loop of lines 346-353, for the key [e]. *)
Definition render (il : sdict bool) (e : pyval) (v : pyval)
  : result string :=
  let q := quote env in
  let sep := q ++ " " ++ q in
  match v with
  | VList l =>
      match strs_of l with
      | Some ss =>
          Ok ("--" ++ py_str env e ++ " " ++ q ++ PyStr.join sep ss ++ q
              ++ " ")
      | None => Err TypeError
      end
  | _ =>
      if flagged il e then
        match v with
        | VStr s =>
            Ok ("--" ++ py_str env e ++ " " ++ q
                ++ PyStr.join sep (resplit s) ++ q ++ " ")
        | _ => Err AttributeError
        end
      else
        Ok ("--" ++ py_str env e ++ " " ++ q ++ py_str env v ++ q ++ " ")
  end.

Fixpoint render_all (il : sdict bool) (kw : kwdict) (params : string)
  : result string :=
  match kw with
  | [] => Ok params
  | (e, v) :: r =>
      (piece <- render il e v ;; render_all il r (params ++ piece))%result
  end.

(** Lines 340-356. *)
Definition build_params (il : sdict bool) (kw : kwdict) (suffix : string)
  (a : sft_args) : result string :=
  (let q := quote env in
   let params0 :=
     if (group env =? "llm_grpo") && negb (win32 env)
     then "--rlhf_type " ++ q ++ "grpo" ++ q ++ " " else "" in
   params <- render_all il kw params0 ;;
   Ok (params ++ (suffix ++ " ")
       ++ ("--add_version False --output_dir " ++ output_dir a
           ++ " --logging_dir " ++ logging_dir a
           ++ " --ignore_args_error True")))%result.

(** What [for d in devices] visits. *)
Definition iterate (v : pyval) : result (list pyval) :=
  match v with
  | VList l => Ok l
  | VStr s => Ok (map VStr (PyStr.chars s))
  | VDict d => Ok (map fst d)
  | VNone | VBool _ | VInt _ | VFloat _ => Err TypeError
  end.

(** Line 361. *)
Definition selected (devices : pyval) : result (list pyval) :=
  (l <- iterate devices ;; Ok (filter truthy l))%result.

(** [int(float)]: towards zero. *)
Definition trunc (f : spec_float) : result Z :=
  match f with
  | S754_zero _ => Ok 0%Z
  | S754_finite s m e =>
      let a := (if (0 <=? e)%Z then Z.pos m * 2 ^ e
                else Z.pos m / 2 ^ (- e))%Z in
      Ok (if s then (- a)%Z else a)
  | S754_infinity _ => Err OverflowError
  | S754_nan => Err ValueError
  end.

(** [int(v)] *)
Definition py_int (v : pyval) : result Z :=
  match v with
  | VInt z => Ok z
  | VBool b => Ok (Z_of_bool b)
  | VFloat f => trunc f
  | VStr s =>
      match PyStr.to_int s with
      | Some z => Ok z
      | None => Err ValueError
      end
  | VNone | VList _ | VDict _ => Err TypeError
  end.

(** Lines 362-364. *)
Definition ddp_prefix (other : sdict pyval) : result string :=
  (use_ddp <- getitem "use_ddp" other ;;
   if truthy use_ddp then
     (n <- (num <- getitem "ddp_num" other ;; py_int num) ;;
      if (0 <? n)%Z then
        (n' <- (num <- getitem "ddp_num" other ;; py_int num) ;;
         Ok ("NPROC_PER_NODE=" ++ PyStr.of_int n'))
      else Err AssertionError)
   else Ok "")%result.

(** ['cpu' in devices] *)
Definition has_cpu (devices : list pyval) : bool :=
  existsb (py_eq (VStr "cpu")) devices.

(** Line 365. *)
Definition check_devices (devices : list pyval) : result unit :=
  if Nat.eqb (List.length devices) 1 || negb (has_cpu devices)
  then Ok tt else Err AssertionError.

(** Lines 367-374. *)
Definition visibility (gpus : string) : string :=
  if negb (gpus =? "cpu") then
    if npu_available env then "ASCEND_RT_VISIBLE_DEVICES=" ++ gpus
    else if cuda_available env then "CUDA_VISIBLE_DEVICES=" ++ gpus
    else ""
  else "".

(** Lines 378-387: on Windows every assignment gets its own [set]. *)
Definition set_clause (assignment : string) : string :=
  if PyStr.nonempty assignment then "set " ++ assignment ++ " && "
  else assignment.

Definition set_clauses (envs : string) : string :=
  if PyStr.nonempty envs then
    String.concat ""
      (map (fun e => "set " ++ e ++ " && ")
           (map PyStr.strip (resplit envs)))
  else envs.

(** Lines 357-390. *)
Definition build_command (stage : pyval) (params : string) (a : sft_args)
  (other : sdict pyval) : result string :=
  (devices <- getitem "gpu_id" other ;;
   envs <- getitem "envs" other ;;
   envs <- (match (if truthy envs then envs else VStr "") with
            | VStr s => Ok (PyStr.strip s)
            | _ => Err AttributeError
            end) ;;
   devices <- selected devices ;;
   ddp_param <- ddp_prefix other ;;
   _ <- check_devices devices ;;
   gpus <- (match strs_of devices with
            | Some ss => Ok (PyStr.join "," ss)
            | None => Err TypeError
            end) ;;
   let cuda_param := visibility gpus in
   let log_file := path_join env (logging_dir a) "run.log" in
   Ok (if win32 env then
         set_clause cuda_param ++ set_clause ddp_param ++ set_clauses envs
         ++ "start /b swift sft " ++ params ++ " > " ++ log_file ++ " 2>&1"
       else
         cuda_param ++ " " ++ ddp_param ++ " " ++ envs ++ " nohup swift "
         ++ py_str env stage ++ " " ++ params ++ " > " ++ log_file
         ++ " 2>&1 &"))%result.

(** Lines 393-396: what goes to the cache of the model. *)
Definition recorded (key : string) : bool :=
  smem key (default_args env)
  || existsb (String.eqb key)
       ["more_params"; "train_stage"; "use_ddp"; "ddp_num"; "gpu_id";
        "envs"].

Definition cache_record (l : list (string * pyval)) : sdict pyval :=
  fold_left
    (fun record kv =>
       if recorded (fst kv)
       then sset (fst kv) (if truthy (snd kv) then snd kv else VNone) record
       else record)
    l [].

(** Lines 392-397. *)
Definition remember (model : pyval) (args : list pyval) : M unit :=
  if truthy model then
    let record := cache_record (fields env args) in
    (emit (EvSaveCache model record) ;;;
     match save_cache env model record with
     | None => ret tt
     | Some e => raise (Raised e)
     end)%M
  else ret tt.

(** Lines 279-339: what the resolver hands to the command builder. *)
Definition resolve (args : list pyval) : M resolved :=
  (st <- lift (collect env args) ;;
   kw <- lift (dict_update (kwargs st) (more_params st)) ;;
   lift (check_dataset env kw) ;;;
   let model := get_model kw in
   kw <- lift (detect_checkpoint env kw) ;;
   let routed := route_deepspeed env kw (more_params_cmd st) in
   ' (a, kw) <- construct env (kwargs_is_list st) (fst routed) ;;
   ret {| r_state := st; r_kwargs := kw; r_suffix := snd routed;
          r_args := a; r_model := model |})%M.

(** [LLMTrain.train] *)
Definition train (args : list pyval)
  : M (string * sft_args * sdict pyval) :=
  (r <- resolve args ;;
   let st := r_state r in
   let cmd := train_stage st in
   params <- lift (build_params (kwargs_is_list st) (r_kwargs r)
                     (r_suffix r) (r_args r)) ;;
   run_command <- lift (build_command cmd params (r_args r)
                          (other_kwargs st)) ;;
   emit (EvLog ("Run training: " ++ run_command)) ;;;
   remember (r_model r) args ;;;
   ret (run_command, r_args r, other_kwargs st))%M.
End Builder.

(** ** The process runner: [train_studio] and [train_local] *)

(** The newline character and the one-character string of it. *)
Definition nl_char : ascii := ascii_of_N 10.
Definition nl : string := String nl_char EmptyString.

(** What [readline] returns call after call until the end of the output:
    every line with its terminator, the last one possibly without. *)
Fixpoint readlines_acc (cur : string) (s : string) : list string :=
  match s with
  | EmptyString => if PyStr.nonempty cur then [cur] else []
  | String c t =>
      if Ascii.eqb c nl_char
      then (cur ++ nl) :: readlines_acc EmptyString t
      else readlines_acc (cur ++ String c EmptyString) t
  end.

Definition readlines (s : string) : list string :=
  readlines_acc EmptyString s.

(** [lines.append(line)] on a [deque] of bounded length: the oldest line
    leaves when there is no room. *)
Definition deque_append (maxlen : nat) (lines : list string) (line : string)
  : list string :=
  let l := (lines ++ [line])%list in
  if Nat.leb (List.length l) maxlen then l else tl l.

(** A generator run to its end: what it yielded, and the exception that
    ended it if one did. *)
Record stream : Type := {
  yields : list (list cell);
  failure : option exn
}.

(** The third, fourth and fifth component of what [train_local] returns. *)
Inductive ui_update : Type :=
| UiOpen
| UiTasks (output_dir : string)
| UiChoices (model : pyval).

Section Runner.
Variable env : Env.

Definition dry_run_notice : string :=
  "Current is dryrun mode so you can only view the training cmd, please duplicate this space to do training or use with inference.".

(** Line 404: the length of the buffer. *)
Definition max_log_lines : result nat :=
  (n <- (match environ_get env "MAX_LOG_LINES" with
         | Some s => py_int (VStr s)
         | None => py_int (VInt 50)
         end) ;;
   if (n <? 0)%Z then Err ValueError else Ok (Z.to_nat n))%result.

(** Line 410: one update is the log text, the plots and the command. *)
Definition update (run_command text : string) : list cell :=
  ([CStr text] ++ runtime_plot env run_command ++ [CStr run_command])%list.

(** Lines 407-410: one update per line read. *)
Fixpoint pump (run_command : string) (maxlen : nat) (lines : list string)
  (input : list string) : stream :=
  match input with
  | [] => {| yields := []; failure := None |}
  | raw :: rest =>
      match utf8_decode env raw with
      | None => {| yields := []; failure := Some UnicodeDecodeError |}
      | Some line =>
          let lines' := deque_append maxlen lines line in
          let later := pump run_command maxlen lines' rest in
          {| yields :=
               update run_command (PyStr.join nl lines') :: yields later;
             failure := failure later |}
      end
  end.

(** [LLMTrain.train_studio], consumed to the end. *)
Definition train_studio (args : list pyval) : list event * stream :=
  let t := train env args in
  match snd t with
  | Err e => (fst t, {| yields := []; failure := Some e |})
  | Ok (run_command, _, other_kwargs) =>
      match getitem "dry_run" other_kwargs with
      | Err e => (fst t, {| yields := []; failure := Some e |})
      | Ok dry =>
          if negb (truthy dry) then
            match max_log_lines with
            | Err e => (fst t, {| yields := []; failure := Some e |})
            | Ok maxlen =>
                ((fst t ++ [EvPopen run_command])%list,
                 pump run_command maxlen []
                   (readlines (process_output env run_command)))
            end
          else
            (fst t,
             {| yields :=
                  [([CStr dry_run_notice]
                    ++ repeat CNone (sft_plot_count env)
                    ++ [CStr run_command])%list];
                failure := None |})
      end
  end.

(** [LLMTrain.train_local] *)
Definition train_local (args : list pyval)
  : M (string * string * ui_update * ui_update * ui_update) :=
  (' (run_command, a, other_kwargs) <- train env args ;;
   dry <- lift (getitem "dry_run" other_kwargs) ;;
   (if negb (truthy dry) then
      emit (EvMakedirs (logging_dir a)) ;;;
      emit (EvSystem run_command) ;;;
      emit EvSleep ;;;
      emit (EvInfo (locale_value env "submit_alert"))
    else ret tt) ;;;
   ret (run_command, logging_dir a, UiOpen, UiTasks (output_dir a),
        UiChoices (model a)))%M.
End Runner.

(** ** The device dropdown of [do_build_ui]

    Lines 208-211: the device that is selected when the page opens. *)
Definition default_device (device_count : Z) : string :=
  if (0 <? device_count)%Z then "0" else "cpu".

(** Line 232: the choices, [str(i)] for [i] in [range(device_count)] and
    then [cpu]. *)
Definition gpu_choices (device_count : Z) : list string :=
  (map (fun i => PyStr.of_int (Z.of_nat i)) (seq 0 (Z.to_nat device_count))
   ++ ["cpu"])%list.

(** ** A concrete environment

    The closed examples below run the launcher in this environment. *)

Module Sample.

Definition is_digit (c : ascii) : bool :=
  match PyStr.digit_of c with Some _ => true | None => false end.

Fixpoint all_digits (s : string) : bool :=
  match s with
  | EmptyString => true
  | String c t => is_digit c && all_digits t
  end.

Definition unsign (s : string) : string :=
  match s with
  | String "-"%char t => t
  | String "+"%char t => t
  | _ => s
  end.

Definition negative (s : string) : bool :=
  match s with
  | String "-"%char _ => true
  | _ => false
  end.

(** The digits before and after the first dot, if there is a dot. *)
Fixpoint cut_dot (s : string) : option (string * string) :=
  match s with
  | EmptyString => None
  | String c t =>
      if Ascii.eqb c "."%char then Some (EmptyString, t)
      else option_map (fun p => (String c (fst p), snd p)) (cut_dot t)
  end.

(** Modelled from the spec: the integer pattern of [BaseUI], which this
    file takes from its base class; a string fully matches when it is an
    optional sign followed by one or more digits. *)
Definition int_pattern (s : string) : bool :=
  PyStr.nonempty (unsign s) && all_digits (unsign s).

(** What is left of a text after the digits, and after the dots, it
    begins with. *)
Fixpoint skip_digits (s : string) : string :=
  match s with
  | String c t => if is_digit c then skip_digits t else s
  | EmptyString => EmptyString
  end.

Fixpoint skip_dots (s : string) : string :=
  match s with
  | String c t => if Ascii.eqb c "."%char then skip_dots t else s
  | EmptyString => EmptyString
  end.

(** The float pattern of the sample environment.  The pattern of the
    launcher is an attribute of [BaseUI], which is not among the sources;
    line 295 does no more than call [re.fullmatch] on it.  Here a string
    fully matches when it is an optional sign, digits, any number of dots
    and one or more digits.  The pattern does not count the dots, so it
    also matches texts that [float] rejects, 1..5 for one. *)
Definition float_pattern (s : string) : bool :=
  let u := unsign s in
  (PyStr.nonempty u && all_digits u)
  || (let r := skip_dots (skip_digits u) in
      PyStr.nonempty r && all_digits r).

(** The boolean pattern of the sample environment, again an attribute of
    [BaseUI]: a string fully matches when it is one of the words true and
    false with a small or a capital first letter, and in no other
    spelling.  Line 297 calls [re.fullmatch] without a flag, so the
    launcher folds no case when it matches; [lower] on line 298 only tells
    which boolean a matched text becomes. *)
Definition bool_pattern (s : string) : bool :=
  existsb (String.eqb s) ["True"; "true"; "False"; "false"].

Fixpoint digits_value (acc : Z) (s : string) : Z :=
  match s with
  | EmptyString => acc
  | String c t =>
      match PyStr.digit_of c with
      | Some d => digits_value (10 * acc + d) t
      | None => acc
      end
  end.

(** [float(s)] on the texts that reach it in the sample environment, which
    the float pattern matches and the integer pattern does not, so that
    they have a dot in them.  With one dot the result is the binary64
    number nearest to the decimal, by one correctly rounded division; with
    more than one dot [float] raises [ValueError], which is [None] here. *)
Definition float_of_text (s : string) : option spec_float :=
  match cut_dot (unsign s) with
  | Some (a, b) =>
      if all_digits a && PyStr.nonempty b && all_digits b then
        match digits_value 0 (a ++ b) with
        | Z.pos m =>
            Some (SFdiv 53 1024 (S754_finite (negative s) m 0)
                    (S754_finite false (Pos.pow 10 (Pos.of_nat (String.length b))) 0))
        | _ => Some (S754_zero (negative s))
        end
      else None
  | None => None
  end.

Fixpoint pad_left (n : nat) (s : string) : string :=
  if Nat.leb n (String.length s) then s
  else match n with
       | O => s
       | S n' => pad_left n' ("0" ++ s)
       end.

(** The text without the zeros at its end. *)
Fixpoint trim_zeros (s : string) : string :=
  match s with
  | EmptyString => EmptyString
  | String c t =>
      match trim_zeros t with
      | EmptyString => if Ascii.eqb c "0"%char then EmptyString
                       else String c EmptyString
      | r => String c r
      end
  end.

(** [repr(f)] as the exact decimal expansion of [f]: this is what Python
    prints for the floats whose expansion has at most 15 significant
    digits and lies between 1e-4 and 1e16, such as 3.5 or 0.25. *)
Definition repr_float (f : spec_float) : string :=
  match f with
  | S754_zero s => if s then "-0.0" else "0.0"
  | S754_infinity s => if s then "-inf" else "inf"
  | S754_nan => "nan"
  | S754_finite s m e =>
      let sign := if s then "-" else "" in
      if (0 <=? e)%Z then sign ++ PyStr.of_int (Z.pos m * 2 ^ e) ++ ".0"
      else
        let k := Z.to_nat (- e) in
        let whole := (Z.pos m / 2 ^ (- e))%Z in
        let part := ((Z.pos m mod 2 ^ (- e)) * 5 ^ (- e))%Z in
        let digits := trim_zeros (pad_left k (PyStr.of_int part)) in
        sign ++ PyStr.of_int whole ++ "."
        ++ (if PyStr.nonempty digits then digits else "0")
  end.

Definition has_char (c : ascii) (s : string) : bool :=
  existsb (fun x => x =? String c EmptyString) (PyStr.chars s).

Definition hex_digit (n : N) : string :=
  String (ascii_of_N (if (n <? 10)%N then 48 + n else 87 + n)) EmptyString.

Definition dq_char : ascii := ascii_of_N 34.

(** [repr(s)] of a string: the quote that needs the fewer escapes, a
    backslash before the quote and the backslash, the usual escapes for
    the characters that do not print. *)
Definition escape_char (q : ascii) (c : ascii) : string :=
  let n := N_of_ascii c in
  if Ascii.eqb c q then String "\"%char (String c EmptyString)
  else if Ascii.eqb c "\"%char then "\\"
  else if (n =? 9)%N then "\t"
  else if (n =? 10)%N then "\n"
  else if (n =? 13)%N then "\r"
  else if ((n <? 32) || (n =? 127) || ((128 <=? n) && (n <=? 160))
           || (n =? 173))%N
  then "\x" ++ hex_digit (n / 16) ++ hex_digit (n mod 16)
  else String c EmptyString.

Definition repr_str (s : string) : string :=
  let q := if has_char "'"%char s && negb (has_char dq_char s)
           then dq_char else "'"%char in
  String q (String.concat "" (map (fun c => match c with
                                           | String a _ => escape_char q a
                                           | EmptyString => EmptyString
                                           end) (PyStr.chars s)))
  ++ String q EmptyString.

(** A reader for the JSON texts of the examples: objects, arrays, strings
    without escapes, integers, decimals, [true], [false] and [null].  It
    gives [None] on everything else. *)
Fixpoint skip_ws (s : string) : string :=
  match s with
  | String c t =>
      let n := N_of_ascii c in
      if ((n =? 32) || (n =? 9) || (n =? 10) || (n =? 13))%N
      then skip_ws t else s
  | EmptyString => EmptyString
  end.

(** The text up to the closing quote, and what follows the quote. *)
Fixpoint until_quote (s : string) : option (string * string) :=
  match s with
  | EmptyString => None
  | String c t =>
      if Ascii.eqb c dq_char then Some (EmptyString, t)
      else if Ascii.eqb c "\"%char || (N_of_ascii c <? 32)%N then None
      else option_map (fun p => (String c (fst p), snd p)) (until_quote t)
  end.

(** The longest prefix made of the characters of a number. *)
Fixpoint number_text (s : string) : string * string :=
  match s with
  | String c t =>
      if is_digit c || Ascii.eqb c "-"%char || Ascii.eqb c "."%char
      then (String c (fst (number_text t)), snd (number_text t))
      else (EmptyString, s)
  | EmptyString => (EmptyString, EmptyString)
  end.

Definition no_leading_zero (digits : string) : bool :=
  match digits with
  | String "0"%char (String _ _) => false
  | _ => true
  end.

Definition number (text : string) : option pyval :=
  let body := match text with String "-"%char t => t | _ => text end in
  if PyStr.nonempty body && all_digits body && no_leading_zero body then
    option_map VInt (PyStr.to_int text)
  else
    match cut_dot body with
    | Some (a, b) =>
        if PyStr.nonempty a && all_digits a && no_leading_zero a
           && PyStr.nonempty b && all_digits b
        then option_map VFloat (float_of_text text)
        else None
    | None => None
    end.

Fixpoint json_value (fuel : nat) (s : string) : option (pyval * string) :=
  match fuel with
  | O => None
  | S n =>
      match skip_ws s with
      | String c t =>
          if Ascii.eqb c "{"%char then
            match skip_ws t with
            | String "}"%char r => Some (VDict [], r)
            | r => json_members n [] r
            end
          else if Ascii.eqb c "["%char then
            match skip_ws t with
            | String "]"%char r => Some (VList [], r)
            | r => json_elements n [] r
            end
          else if Ascii.eqb c dq_char then
            option_map (fun p => (VStr (fst p), snd p)) (until_quote t)
          else if PyStr.is_prefix "true" (String c t) then
            Some (VBool true, String.substring 4 (String.length t) (String c t))
          else if PyStr.is_prefix "false" (String c t) then
            Some (VBool false, String.substring 5 (String.length t) (String c t))
          else if PyStr.is_prefix "null" (String c t) then
            Some (VNone, String.substring 4 (String.length t) (String c t))
          else
            match number (fst (number_text (String c t))) with
            | Some v => Some (v, snd (number_text (String c t)))
            | None => None
            end
      | EmptyString => None
      end
  end
with json_elements (fuel : nat) (acc : list pyval) (s : string)
  : option (pyval * string) :=
  match fuel with
  | O => None
  | S n =>
      match json_value n s with
      | Some (v, r) =>
          match skip_ws r with
          | String ","%char r' => json_elements n (acc ++ [v])%list r'
          | String "]"%char r' => Some (VList (acc ++ [v])%list, r')
          | _ => None
          end
      | None => None
      end
  end
with json_members (fuel : nat) (acc : kwdict) (s : string)
  : option (pyval * string) :=
  match fuel with
  | O => None
  | S n =>
      match skip_ws s with
      | String c t =>
          if Ascii.eqb c dq_char then
            match until_quote t with
            | Some (k, r) =>
                match skip_ws r with
                | String ":"%char r' =>
                    match json_value n r' with
                    | Some (v, r2) =>
                        let acc' := PyDict.set py_eq (VStr k) v acc in
                        match skip_ws r2 with
                        | String ","%char r3 => json_members n acc' r3
                        | String "}"%char r3 => Some (VDict acc', r3)
                        | _ => None
                        end
                    | None => None
                    end
                | _ => None
                end
            | None => None
            end
          else None
      | EmptyString => None
      end
  end.

(** [json.loads(s)]: one value and nothing but white space after it. *)
Definition loads (s : string) : option pyval :=
  match json_value (2 * String.length s + 2) s with
  | Some (v, r) =>
      match skip_ws r with
      | EmptyString => Some v
      | _ => None
      end
  | None => None
  end.

(** [decode('utf-8')] on the bytes below 128, which are their own
    characters; other bytes are outside the examples. *)
Fixpoint decode (s : string) : option string :=
  match s with
  | EmptyString => Some EmptyString
  | String c t =>
      if (N_of_ascii c <? 128)%N then option_map (String c) (decode t)
      else None
  end.

(** [posixpath.join] of a directory and a relative name. *)
Definition join_path (dir name : string) : string :=
  if negb (PyStr.nonempty dir) || PyStr.is_prefix "/" (String.string_of_list_ascii (rev (String.list_ascii_of_string dir)))
  then dir ++ name else dir ++ "/" ++ name.

(** A constructor in the manner of [RLHFArguments]: it wants a model, and
    places the logs under the output directory. *)
Definition constructor (kw : sdict pyval) : foreign_exn + sft_args :=
  match sget "model" kw with
  | Some m =>
      let out := match sget "output_dir" kw with
                 | Some (VStr o) => o
                 | _ => "output"
                 end in
      inr {| output_dir := out;
             logging_dir := join_path out "runs";
             model := m |}
  | None =>
      inl {| exn_class := "ValueError";
             exn_str := "Please set --model <model_id_or_path>" |}
  end.

Definition env : Env := {|
  int_regex := int_pattern;
  float_regex := float_pattern;
  bool_regex := bool_pattern;
  quote := "'";
  group := "llm_train";
  valid_element_keys :=
    ["model"; "dataset"; "train_stage"; "more_params"; "logging_dir";
     "envs"; "gpu_id"; "use_ddp"; "ddp_num"; "dry_run"; "deepspeed";
     "target_modules"; "seed"];
  element_is_list :=
    fun k => (k =? "dataset") || (k =? "target_modules");
  default_args :=
    [("model", VNone); ("dataset", VList []); ("logging_dir", VNone);
     ("deepspeed", VNone); ("target_modules", VList [VStr "all-linear"]);
     ("seed", VInt 42); ("output_dir", VNone)];
  locale_value :=
    fun k => if k =? "dataset_alert" then "Please input or select a dataset"
             else if k =? "submit_alert"
             then "Task started, please check the tensorboard or log file, closing this page does not affect training"
             else "";
  save_cache := fun _ _ => None;
  RLHFArguments := constructor;
  runtime_plot := fun _ => [CPlot 0; CPlot 1];
  sft_plot_count := 2;
  py_float := float_of_text;
  float_repr := repr_float;
  str_repr := repr_str;
  json_loads := loads;
  utf8_decode := decode;
  win32 := false;
  path_exists := fun p => (p =? "/ckpt") || (p =? "/ckpt/args.json");
  fd_exists := fun _ => false;
  path_join := join_path;
  environ_get := fun k => if k =? "MAX_LOG_LINES" then Some "2" else None;
  npu_available := false;
  cuda_available := true;
  process_output := fun _ => "a" ++ nl ++ "b" ++ nl ++ "c" ++ nl
|}.

(** The same surroundings with another [MAX_LOG_LINES] and another
    process output. *)
Definition env_of (lines : option string) (output : string) : Env := {|
  int_regex := int_regex env;
  float_regex := float_regex env;
  bool_regex := bool_regex env;
  quote := quote env;
  group := group env;
  valid_element_keys := valid_element_keys env;
  element_is_list := element_is_list env;
  default_args := default_args env;
  locale_value := locale_value env;
  save_cache := save_cache env;
  RLHFArguments := RLHFArguments env;
  runtime_plot := runtime_plot env;
  sft_plot_count := sft_plot_count env;
  py_float := py_float env;
  float_repr := float_repr env;
  str_repr := str_repr env;
  json_loads := json_loads env;
  utf8_decode := utf8_decode env;
  win32 := win32 env;
  path_exists := path_exists env;
  fd_exists := fd_exists env;
  path_join := path_join env;
  environ_get := fun k => if k =? "MAX_LOG_LINES" then lines else None;
  npu_available := npu_available env;
  cuda_available := cuda_available env;
  process_output := fun _ => output
|}.

(** A byte that is no UTF-8 text by itself. *)
Definition stray_byte : string := String (ascii_of_N 255) EmptyString.

(** A submission, field by field in the order of the keys. *)
Definition form (model dataset more_params gpu_id dry_run : pyval)
  : list pyval :=
  [model; dataset; VStr "sft"; more_params; VStr ""; VStr ""; gpu_id;
   VBool false; VStr "2"; dry_run; VStr ""; VList [VStr "all-linear"];
   VStr "42"].

End Sample.


(** ** The vocabulary of the properties *)

(** [s] occurs in [t] as a contiguous piece. *)
Definition occurs (s t : string) : Prop :=
  exists a b, t = a ++ s ++ b.

(** An exception that is no [gr.Error]. *)
Definition not_gr {A : Type} (r : result A) : Prop :=
  forall msg, r <> Err (GrError msg).

(** How often a string key occurs in the overrides. *)
Definition key_count (k : string) (d : kwdict) : nat :=
  List.length (filter (fun kv => py_eq (VStr k) (fst kv)) d).


(** No space in the text. *)
Fixpoint space_free (s : string) : bool :=
  match s with
  | EmptyString => true
  | String c t => negb (Ascii.eqb c " "%char) && space_free t
  end.

(** A token that survives line 350: no space in it, and not blank. *)
Definition solid (t : string) : Prop :=
  space_free t = true /\ PyStr.nonempty (PyStr.strip t) = true.

(** The tab character as a token. *)
Definition tab : string := String (ascii_of_N 9) EmptyString.

(** The last [n] elements of a list. *)
Definition window (n : nat) (l : list string) : list string :=
  skipn (List.length l - n) l.

(** The events that start something on the machine. *)
Definition is_launch (ev : event) : bool :=
  match ev with
  | EvPopen _ | EvMakedirs _ | EvSystem _ | EvSleep | EvInfo _ => true
  | EvConstruct _ | EvLog _ | EvSaveCache _ _ => false
  end.

Definition is_construct (ev : event) : bool :=
  match ev with
  | EvConstruct _ => true
  | _ => false
  end.

(** The trailing flags of lines 355-356. *)
Definition mandatory_flags (a : sft_args) : string :=
  "--add_version False --output_dir " ++ output_dir a
  ++ " --logging_dir " ++ logging_dir a ++ " --ignore_args_error True".

(** What stands before the parameters in the command of lines 388-390,
    and what stands after them. *)
Definition launch_prefix (env : Env) (stage : pyval) (gpus ddp envs : string)
  : string :=
  if win32 env then
    set_clause (visibility env gpus) ++ set_clause ddp ++ set_clauses envs
    ++ "start /b swift sft "
  else
    visibility env gpus ++ " " ++ ddp ++ " " ++ envs ++ " nohup swift "
    ++ py_str env stage ++ " ".

Definition redirection (env : Env) (a : sft_args) : string :=
  " > " ++ path_join env (logging_dir a) "run.log"
  ++ (if win32 env then " 2>&1" else " 2>&1 &").

(** A text without white space, and an assignment of the [envs] field:
    such a text that is not empty. *)
Fixpoint blank_free (s : string) : bool :=
  match s with
  | EmptyString => true
  | String c t => negb (PyStr.is_space c) && blank_free t
  end.

Definition assignment (t : string) : Prop :=
  PyStr.nonempty t = true /\ blank_free t = true.

(** * Properties *)

(** ** Strings *)

Lemma sapp_assoc (a b c : string) : (a ++ b) ++ c = a ++ (b ++ c).
Proof.
  induction a as [|x a IH]; simpl; [reflexivity | now rewrite IH].
Qed.

Lemma sapp_nil_r (a : string) : a ++ "" = a.
Proof.
  induction a as [|x a IH]; simpl; [reflexivity | now rewrite IH].
Qed.


Lemma occurs_app_l (s t u : string) : occurs s t -> occurs s (u ++ t).
Proof.
  intros (a & b & ->). exists (u ++ a), b. now rewrite sapp_assoc.
Qed.

Lemma occurs_app_r (s t u : string) : occurs s t -> occurs s (t ++ u).
Proof.
  intros (a & b & ->). exists a, (b ++ u). now rewrite !sapp_assoc.
Qed.


(** ** The two monads *)

Lemma Ok_inj {A} (a b : A) : Ok a = Ok b -> a = b.
Proof. now intros [= ->]. Qed.

Lemma rbind_ok {A B} (r : result A) (k : A -> result B) (b : B) :
  rbind r k = Ok b -> exists a, r = Ok a /\ k a = Ok b.
Proof.
  destruct r as [a|e]; simpl; intros H; [now exists a | discriminate].
Qed.

Lemma bind_err {A B} (m : M A) (k : A -> M B) (e : exn) :
  snd m = Err e -> bind m k = (fst m, Err e).
Proof. unfold bind. now intros ->. Qed.

Lemma bind_step {A B} (m : M A) (k : A -> M B) (a : A) :
  snd m = Ok a -> bind m k = ((fst m ++ fst (k a))%list, snd (k a)).
Proof. unfold bind. now intros ->. Qed.

Lemma bind_lift_ok {A B} (a : A) (k : A -> M B) :
  bind (lift (Ok a)) k = k a.
Proof. unfold bind, lift. simpl. now destruct (k a). Qed.

(** ** Equality with a string, and dictionaries read at a string key *)

Lemma py_eq_str_l (k : string) (j : pyval) :
  py_eq (VStr k) j = true <-> j = VStr k.
Proof.
  destruct j; simpl; split; try discriminate; intros H.
  - apply String.eqb_eq in H. now subst.
  - injection H as ->. apply String.eqb_refl.
Qed.

Lemma py_eq_str_r (k : string) (j : pyval) :
  py_eq j (VStr k) = true <-> j = VStr k.
Proof.
  destruct j; simpl; split; try discriminate; intros H.
  - apply String.eqb_eq in H. now subst.
  - injection H as ->. apply String.eqb_refl.
Qed.

Lemma py_eq_str (a b : string) : py_eq (VStr a) (VStr b) = (a =? b).
Proof. reflexivity. Qed.

#[local] Arguments py_eq : simpl never.

Lemma get_set (k : string) (k' v : pyval) (d : kwdict) :
  PyDict.get py_eq (VStr k) (PyDict.set py_eq k' v d)
  = if py_eq (VStr k) k' then Some v else PyDict.get py_eq (VStr k) d.
Proof.
  induction d as [|[j w] d IH]; simpl.
  - reflexivity.
  - destruct (py_eq k' j) eqn:Ej; simpl.
    + destruct (py_eq (VStr k) j) eqn:Ek.
      * apply py_eq_str_l in Ek. subst j.
        apply py_eq_str_r in Ej. subst k'.
        now rewrite py_eq_str, String.eqb_refl.
      * destruct (py_eq (VStr k) k') eqn:Ek'; [|reflexivity].
        apply py_eq_str_l in Ek'. subst k'.
        apply py_eq_str_l in Ej. subst j.
        now rewrite py_eq_str, String.eqb_refl in Ek.
    + destruct (py_eq (VStr k) j) eqn:Ek; [|exact IH].
      destruct (py_eq (VStr k) k') eqn:Ek'; [|reflexivity].
      apply py_eq_str_l in Ek'. subst k'. congruence.
Qed.

Lemma kget_kset (k k' : string) (v : pyval) (d : kwdict) :
  kget k (kset k' v d) = if k =? k' then Some v else kget k d.
Proof. unfold kget, kset. now rewrite get_set, py_eq_str. Qed.

Lemma kmem_kset (k k' : string) (v : pyval) (d : kwdict) :
  kmem k (kset k' v d) = (k =? k') || kmem k d.
Proof.
  unfold kmem, PyDict.mem. fold (kget k (kset k' v d)). fold (kget k d).
  rewrite kget_kset. now destruct (k =? k').
Qed.

Lemma get_remove (k : string) (k' : pyval) (d : kwdict) :
  py_eq (VStr k) k' = false ->
  PyDict.get py_eq (VStr k) (PyDict.remove py_eq k' d)
  = PyDict.get py_eq (VStr k) d.
Proof.
  intros Hk. induction d as [|[j w] d IH]; simpl; [reflexivity|].
  destruct (py_eq k' j) eqn:Ej; simpl.
  - destruct (py_eq (VStr k) j) eqn:Ek; [|reflexivity].
    apply py_eq_str_l in Ek. subst j.
    apply py_eq_str_r in Ej. subst k'.
    now rewrite py_eq_str, String.eqb_refl in Hk.
  - now rewrite IH.
Qed.

Lemma kget_kremove (k k' : string) (d : kwdict) :
  (k =? k') = false -> kget k (kremove k' d) = kget k d.
Proof. intros H. apply get_remove. now rewrite py_eq_str. Qed.

Lemma kmem_kget (k : string) (d : kwdict) :
  kmem k d = match kget k d with Some _ => true | None => false end.
Proof. reflexivity. Qed.

Lemma sget_sset {V} (k k' : string) (v : V) (d : sdict V) :
  sget k (sset k' v d) = if k =? k' then Some v else sget k d.
Proof.
  unfold sget, sset. induction d as [|[j w] d IH]; simpl.
  - reflexivity.
  - destruct (k' =? j) eqn:Ej; simpl.
    + apply String.eqb_eq in Ej. subst j.
      destruct (k =? k'); reflexivity.
    + destruct (k =? j) eqn:Ek; [|exact IH].
      apply String.eqb_eq in Ek. subst j.
      destruct (k =? k') eqn:Ek'; [|reflexivity].
      apply String.eqb_eq in Ek'. subst k'.
      now rewrite String.eqb_refl in Ej.
Qed.


(** ** The loop over the form fields *)

Section Loop.
Variable env : Env.

Lemma is_override_iff (key : string) (value : pyval) :
  is_override env key value = true <->
  ~ In key ignore_elements
  /\ (exists d, sget key (default_args env) = Some d
                /\ py_eq d value = false)
  /\ truthy value = true.
Proof.
  unfold is_override, smem, PyDict.mem, py_neq.
  fold (sget key (default_args env)).
  rewrite !andb_true_iff, negb_true_iff.
  split.
  - intros [[[Hi Hd] Hn] Ht]. repeat split; trivial.
    + intros Hin.
      assert (existsb (String.eqb key) ignore_elements = true) as E.
      { apply existsb_exists. exists key. split; trivial.
        apply String.eqb_refl. }
      congruence.
    + destruct (sget key (default_args env)) as [d|]; [|discriminate].
      exists d. split; trivial. now apply negb_true_iff.
  - intros (Hi & (d & Hd & Hn) & Ht). rewrite Hd.
    repeat split; trivial.
    + destruct (existsb (String.eqb key) ignore_elements) eqn:E; trivial.
      apply existsb_exists in E as (x & Hx & Ex).
      apply String.eqb_eq in Ex. subst x. contradiction.
    + now apply negb_true_iff.
Qed.

(** What one turn does to the two buckets at its own key. *)
Lemma step_own (st st' : state) (key : string) (raw : pyval) :
  step env st (key, raw) = Ok st' ->
  exists value, coerce env raw = Ok value /\
    if is_override env key value
    then exists v, stored value = Ok v
                   /\ kget key (kwargs st') = Some v
                   /\ sget key (other_kwargs st') = sget key (other_kwargs st)
    else kget key (kwargs st') = kget key (kwargs st)
         /\ sget key (other_kwargs st') = Some value.
Proof.
  unfold step. simpl fst. simpl snd. intros H.
  apply rbind_ok in H as (value & Hc & H). exists value. split; trivial.
  apply rbind_ok in H as (st1 & Hb & H).
  apply rbind_ok in H as (st2 & Hp & H).
  assert (kwargs st' = kwargs st1 /\ other_kwargs st' = other_kwargs st1)
    as [-> ->].
  { injection H as <-.
    assert (kwargs st2 = kwargs st1 /\ other_kwargs st2 = other_kwargs st1)
      as [E1 E2].
    { unfold parse_more_params in Hp.
      destruct ((key =? "more_params") && truthy value).
      - destruct value; try discriminate.
        destruct (json_loads env s); injection Hp as <-; now split.
      - injection Hp as <-. now split. }
    destruct (key =? "train_stage"); simpl; now rewrite ?E1, ?E2. }
  unfold bucket in Hb. destruct (is_override env key value).
  - apply rbind_ok in Hb as (v & Hs & Hb). injection Hb as <-.
    exists v. simpl. rewrite kget_kset, String.eqb_refl. now repeat split.
  - injection Hb as <-. simpl. now rewrite sget_sset, String.eqb_refl.
Qed.

(** A turn leaves the other keys of the two buckets alone. *)
Lemma step_frame (st st' : state) (key : string) (raw : pyval) (k : string) :
  step env st (key, raw) = Ok st' -> k <> key ->
  kget k (kwargs st') = kget k (kwargs st)
  /\ sget k (other_kwargs st') = sget k (other_kwargs st).
Proof.
  intros H Hk. apply String.eqb_neq in Hk.
  unfold step in H. simpl fst in H. simpl snd in H.
  apply rbind_ok in H as (value & Hc & H).
  apply rbind_ok in H as (st1 & Hb & H).
  apply rbind_ok in H as (st2 & Hp & H).
  assert (kwargs st' = kwargs st1 /\ other_kwargs st' = other_kwargs st1)
    as [-> ->].
  { injection H as <-.
    assert (kwargs st2 = kwargs st1 /\ other_kwargs st2 = other_kwargs st1)
      as [E1 E2].
    { unfold parse_more_params in Hp.
      destruct ((key =? "more_params") && truthy value).
      - destruct value; try discriminate.
        destruct (json_loads env s); injection Hp as <-; now split.
      - injection Hp as <-. now split. }
    destruct (key =? "train_stage"); simpl; now rewrite ?E1, ?E2. }
  unfold bucket in Hb. destruct (is_override env key value).
  - apply rbind_ok in Hb as (v & Hs & Hb). injection Hb as <-.
    simpl. now rewrite kget_kset, Hk.
  - injection Hb as <-. simpl. now rewrite sget_sset, Hk.
Qed.

Lemma loop_frame (l : list (string * pyval)) (st st' : state) (k : string) :
  run_loop env st l = Ok st' -> ~ In k (map fst l) ->
  kget k (kwargs st') = kget k (kwargs st)
  /\ sget k (other_kwargs st') = sget k (other_kwargs st).
Proof.
  revert st. induction l as [|[key raw] l IH]; simpl; intros st H Hk.
  - injection H as <-. now split.
  - apply rbind_ok in H as (st1 & Hs & H).
    destruct (IH _ H) as [E1 E2]; [tauto|].
    destruct (step_frame _ _ _ _ k Hs) as [F1 F2]; [intros ->; tauto|].
    split; congruence.
Qed.

(** Where the loop leaves each field it has read. *)
Lemma loop_buckets (l : list (string * pyval)) (st st' : state) :
  run_loop env st l = Ok st' -> NoDup (map fst l) ->
  forall key raw, In (key, raw) l ->
  exists value, coerce env raw = Ok value /\
    if is_override env key value
    then exists v, stored value = Ok v
                   /\ kget key (kwargs st') = Some v
                   /\ sget key (other_kwargs st') = sget key (other_kwargs st)
    else kget key (kwargs st') = kget key (kwargs st)
         /\ sget key (other_kwargs st') = Some value.
Proof.
  revert st. induction l as [|[k r] l IH]; simpl; intros st H Hn key raw Hin.
  - contradiction.
  - apply rbind_ok in H as (st1 & Hs & H).
    inversion Hn as [|? ? Hk Hn']; subst.
    destruct Hin as [E|Hin].
    + injection E as -> ->.
      destruct (step_own _ _ _ _ Hs) as (value & Hc & Hv).
      destruct (loop_frame _ _ _ key H Hk) as [F1 F2].
      exists value. split; trivial.
      destruct (is_override env key value).
      * destruct Hv as (v & Hv1 & Hv2 & Hv3). exists v.
        repeat split; congruence.
      * destruct Hv as [Hv1 Hv2]. split; congruence.
    + assert (key <> k) as Hne.
      { intros ->. apply Hk. now apply (in_map fst) in Hin. }
      destruct (IH _ H Hn' key raw Hin) as (value & Hc & Hv).
      destruct (step_frame _ _ _ _ key Hs Hne) as [F1 F2].
      exists value. split; trivial.
      destruct (is_override env key value).
      * destruct Hv as (v & Hv1 & Hv2 & Hv3). exists v.
        repeat split; congruence.
      * destruct Hv as [Hv1 Hv2]. split; congruence.
Qed.

Lemma fields_nodup (args : list pyval) :
  NoDup (valid_element_keys env) -> NoDup (map fst (fields env args)).
Proof.
  unfold fields. generalize (valid_element_keys env) as keys.
  intros keys Hn. revert args.
  induction Hn as [|k keys Hk Hn IH]; intros [|a args]; simpl;
    try constructor.
  - intros Hin. apply Hk. apply in_map_iff in Hin as ([k' a'] & <- & Hin).
    now apply in_combine_l in Hin.
  - apply IH.
Qed.
End Loop.

(** ** Type coercion of the form values *)

Section Coercion.
Variable env : Env.

End Coercion.





(** ** Explicit overrides and the other parameters *)

(** C4: with keys that are pairwise different, as the keys of the element
    dictionary are, a field that the loop has read is among the explicit
    overrides if and only if its key is not one of the four ignored keys,
    the defaults have the key, the coerced value differs from the default
    and the coerced value is truthy; it is among the other parameters,
    with its coerced value, exactly when it is not an explicit override,
    which is so in particular when the coerced value equals the default. *)
Theorem override_iff (env : Env) (args : list pyval) (st : state)
  (key : string) (raw : pyval) :
  NoDup (valid_element_keys env) ->
  collect env args = Ok st ->
  In (key, raw) (fields env args) ->
  exists value, coerce env raw = Ok value
    /\ (kmem key (kwargs st) = true <->
        ~ In key ignore_elements
        /\ (exists d, sget key (default_args env) = Some d
                      /\ py_eq d value = false)
        /\ truthy value = true)
    /\ (kmem key (kwargs st) = true ->
        exists v, stored value = Ok v /\ kget key (kwargs st) = Some v)
    /\ (smem key (other_kwargs st) = true <-> kmem key (kwargs st) = false)
    /\ (kmem key (kwargs st) = false ->
        sget key (other_kwargs st) = Some value)
    /\ (forall d, sget key (default_args env) = Some d ->
                  py_eq d value = true ->
                  kmem key (kwargs st) = false
                  /\ sget key (other_kwargs st) = Some value).
Proof.
  intros Hn Hc Hin.
  destruct (loop_buckets env _ _ _ Hc (fields_nodup env args Hn) key raw Hin)
    as (value & Hv & Hb).
  exists value. split; trivial.
  rewrite <- is_override_iff.
  unfold smem, PyDict.mem. fold (sget key (other_kwargs st)).
  rewrite kmem_kget.
  assert (is_override env key value = false ->
          kget key (kwargs st) = None
          /\ sget key (other_kwargs st) = Some value) as Hoff.
  { intros E. rewrite E in Hb. destruct Hb as [-> ->]. now split. }
  destruct (is_override env key value) eqn:E.
  - destruct Hb as (v & Hs & -> & ->).
    split; [tauto|]. split; [intros _; now exists v|].
    split; [split; discriminate|]. split; [discriminate|].
    intros d0 Hd He. exfalso.
    apply is_override_iff in E as (_ & (d' & Hd' & Hne) & _). congruence.
  - destruct (Hoff eq_refl) as [-> ->].
    split; [split; [discriminate | intros F; now rewrite F in E]|].
    split; [discriminate|]. split; [tauto|]. split; [trivial|].
    intros d0 _ _. now split.
Qed.

Lemma override_iff_witness :
  exists value, coerce Sample.env (VStr "42") = Ok value
    /\ kmem "seed" [(VStr "model", VStr "qwen");
                    (VStr "dataset", VStr "alpaca")] = false
    /\ value = VInt 42.
Proof.
  destruct (override_iff Sample.env
              (Sample.form (VStr "qwen") (VList [VStr "alpaca"]) (VStr "")
                 (VList [VStr "0"]) (VBool false))
              {| kwargs := [(VStr "model", VStr "qwen");
                            (VStr "dataset", VStr "alpaca")];
                 kwargs_is_list := [("model", false); ("dataset", true)];
                 other_kwargs :=
                   [("train_stage", VStr "sft"); ("more_params", VStr "");
                    ("logging_dir", VStr ""); ("envs", VStr "");
                    ("gpu_id", VList [VStr "0"]); ("use_ddp", VBool false);
                    ("ddp_num", VInt 2); ("dry_run", VBool false);
                    ("deepspeed", VStr "");
                    ("target_modules", VList [VStr "all-linear"]);
                    ("seed", VInt 42)];
                 more_params := VDict [];
                 more_params_cmd := "";
                 train_stage := VStr "sft" |}
              "seed" (VStr "42"))
    as (value & Hc & _ & _ & _ & _ & Hd).
  - repeat constructor; simpl; intuition discriminate.
  - reflexivity.
  - simpl. tauto.
  - exists value. split; [exact Hc|].
    assert (value = VInt 42) as -> by (vm_compute in Hc; now injection Hc).
    split; [exact (proj1 (Hd (VInt 42) eq_refl eq_refl)) | reflexivity].
Defined.

(** ** The resolver, step by step *)

Section ResolveCases.
Variable env : Env.

(** [resolve] as nested case distinctions. *)
Lemma resolve_cases (args : list pyval) :
  resolve env args =
  match collect env args with
  | Err e => ([], Err e)
  | Ok st =>
      match dict_update (kwargs st) (more_params st) with
      | Err e => ([], Err e)
      | Ok kw =>
          match check_dataset env kw with
          | Err e => ([], Err e)
          | Ok _ =>
              match detect_checkpoint env kw with
              | Err e => ([], Err e)
              | Ok kw1 =>
                  let routed := route_deepspeed env kw1 (more_params_cmd st) in
                  let c := construct env (kwargs_is_list st) (fst routed) in
                  (fst c,
                   match snd c with
                   | Err e => Err e
                   | Ok (a, kw2) =>
                       Ok {| r_state := st; r_kwargs := kw2;
                             r_suffix := snd routed; r_args := a;
                             r_model := get_model kw |}
                   end)
              end
          end
      end
  end.
Proof.
  unfold resolve.
  destruct (collect env args) as [st|e]; [|reflexivity].
  rewrite bind_lift_ok.
  destruct (dict_update (kwargs st) (more_params st)) as [kw|e];
    [|reflexivity].
  rewrite bind_lift_ok.
  destruct (check_dataset env kw) as [[]|e]; [|reflexivity].
  rewrite bind_lift_ok.
  destruct (detect_checkpoint env kw) as [kw1|e]; [|reflexivity].
  rewrite bind_lift_ok. cbv zeta.
  unfold bind.
  destruct (snd (construct env (kwargs_is_list st)
                   (fst (route_deepspeed env kw1 (more_params_cmd st)))))
    as [[a kw2]|e]; simpl; [|reflexivity].
  now rewrite app_nil_r.
Qed.

(** [train] as nested case distinctions. *)
Lemma train_cases (args : list pyval) :
  train env args =
  let r := resolve env args in
  match snd r with
  | Err e => (fst r, Err e)
  | Ok r' =>
      let st := r_state r' in
      match build_params env (kwargs_is_list st) (r_kwargs r')
              (r_suffix r') (r_args r') with
      | Err e => (fst r, Err e)
      | Ok params =>
          match build_command env (train_stage st) params (r_args r')
                  (other_kwargs st) with
          | Err e => (fst r, Err e)
          | Ok run_command =>
              let m := remember env (r_model r') args in
              ((fst r ++ EvLog ("Run training: " ++ run_command) :: fst m)%list,
               match snd m with
               | Err e => Err e
               | Ok _ => Ok (run_command, r_args r', other_kwargs st)
               end)
          end
      end
  end.
Proof.
  unfold train. cbv zeta.
  destruct (snd (resolve env args)) as [r'|e] eqn:Er.
  - rewrite (bind_step _ _ _ Er).
    destruct (build_params env (kwargs_is_list (r_state r')) (r_kwargs r')
                (r_suffix r') (r_args r')) as [params|e].
    + rewrite bind_lift_ok.
      destruct (build_command env (train_stage (r_state r')) params
                  (r_args r') (other_kwargs (r_state r'))) as [cmd|e].
      * rewrite bind_lift_ok. unfold bind at 2 3. simpl.
        unfold bind.
        destruct (snd (remember env (r_model r') args)) as [[]|e]; simpl.
        -- now rewrite app_nil_r.
        -- reflexivity.
      * simpl. now rewrite app_nil_r.
    + simpl. now rewrite app_nil_r.
  - now rewrite (bind_err _ _ _ Er).
Qed.


Lemma detect_checkpoint_not_gr (kw : kwdict) :
  not_gr (detect_checkpoint env kw).
Proof.
  intros msg. unfold detect_checkpoint, os_path_exists, os_path_join.
  destruct (get_model kw); simpl; try discriminate;
    repeat match goal with
      | |- context [if ?b then _ else _] => destruct b; simpl
      | |- context [match kpop ?a ?b with _ => _ end] =>
          destruct (kpop a b) as [[? ?]|]; simpl
      end; discriminate.
Qed.

Lemma call_ctor_not_gr (il : sdict bool) (kw : kwdict) :
  not_gr (snd (call_ctor env il kw)).
Proof.
  intros msg. unfold call_ctor.
  destruct (keywords (ctor_items il kw)) as [kwa|]; simpl; [|discriminate].
  unfold bind. simpl. destruct (RLHFArguments env kwa); simpl; discriminate.
Qed.

Lemma construct_not_gr (il : sdict bool) (kw : kwdict) :
  not_gr (snd (construct env il kw)).
Proof.
  intros msg. unfold construct.
  destruct (snd (call_ctor env il kw)) as [a|e] eqn:E; simpl; [discriminate|].
  destruct (model_not_set e) eqn:Em.
  - destruct (kpop "resume_from_checkpoint" kw) as [[v rest]|]; simpl;
      [|discriminate].
    unfold bind. simpl.
    pose proof (call_ctor_not_gr il (kset "model" v rest) msg) as Hn.
    destruct (snd (call_ctor env il (kset "model" v rest))); simpl;
      [discriminate|congruence].
  - simpl. pose proof (call_ctor_not_gr il kw msg) as Hn. congruence.
Qed.

Lemma render_not_gr (il : sdict bool) (e v : pyval) :
  not_gr (render env il e v).
Proof.
  intros msg. unfold render.
  destruct v; simpl;
    repeat match goal with
      | |- context [if ?b then _ else _] => destruct b; simpl
      | |- context [match strs_of ?l with _ => _ end] =>
          destruct (strs_of l); simpl
      end; discriminate.
Qed.

Lemma render_all_not_gr (il : sdict bool) (kw : kwdict) (params : string) :
  not_gr (render_all env il kw params).
Proof.
  revert params. induction kw as [|[e v] kw IH]; intros params msg; simpl.
  - discriminate.
  - pose proof (render_not_gr il e v msg) as Hn.
    destruct (render env il e v); simpl; [apply IH | exact Hn].
Qed.

Lemma build_params_not_gr (il : sdict bool) (kw : kwdict) (suffix : string)
  (a : sft_args) : not_gr (build_params env il kw suffix a).
Proof.
  intros msg. unfold build_params. cbv zeta.
  match goal with
  | |- context [render_all env il kw ?p] =>
      pose proof (render_all_not_gr il kw p msg) as Hn;
      destruct (render_all env il kw p)
  end; simpl; [discriminate | exact Hn].
Qed.

Lemma py_int_not_gr (v : pyval) : not_gr (py_int v).
Proof.
  intros msg. destruct v; simpl; try discriminate.
  - destruct f; simpl; discriminate.
  - destruct (PyStr.to_int s); discriminate.
Qed.

Lemma getitem_not_gr (k : string) (d : sdict pyval) : not_gr (getitem k d).
Proof. intros msg. unfold getitem. destruct (sget k d); discriminate. Qed.

Lemma rbind_not_gr {A B} (r : result A) (k : A -> result B) :
  not_gr r -> (forall a, not_gr (k a)) -> not_gr (rbind r k).
Proof.
  intros Hr Hk msg. destruct r as [a|e]; simpl; [apply Hk|].
  specialize (Hr msg). congruence.
Qed.

Lemma ddp_prefix_not_gr (other : sdict pyval) : not_gr (ddp_prefix other).
Proof.
  unfold ddp_prefix.
  apply rbind_not_gr; [apply getitem_not_gr|]. intros use_ddp.
  destruct (truthy use_ddp); [|intros msg; discriminate].
  apply rbind_not_gr.
  { apply rbind_not_gr; [apply getitem_not_gr | intros; apply py_int_not_gr]. }
  intros n. destruct (0 <? n)%Z; [|intros msg; discriminate].
  apply rbind_not_gr.
  { apply rbind_not_gr; [apply getitem_not_gr | intros; apply py_int_not_gr]. }
  intros n' msg. discriminate.
Qed.

Lemma build_command_not_gr (stage : pyval) (params : string) (a : sft_args)
  (other : sdict pyval) : not_gr (build_command env stage params a other).
Proof.
  unfold build_command.
  apply rbind_not_gr; [apply getitem_not_gr|]. intros devices.
  apply rbind_not_gr; [apply getitem_not_gr|]. intros envs.
  apply rbind_not_gr.
  { intros msg. destruct (truthy envs); [destruct envs|]; discriminate. }
  intros envs'.
  apply rbind_not_gr.
  { unfold selected, iterate. intros msg. destruct devices; discriminate. }
  intros devs.
  apply rbind_not_gr; [apply ddp_prefix_not_gr|]. intros ddp.
  apply rbind_not_gr.
  { unfold check_devices. intros msg.
    destruct (Nat.eqb (List.length devs) 1 || negb (has_cpu devs));
      discriminate. }
  intros _.
  apply rbind_not_gr.
  { intros msg. destruct (strs_of devs); discriminate. }
  intros gpus msg. discriminate.
Qed.

Lemma remember_not_gr (model : pyval) (args : list pyval) :
  not_gr (snd (remember env model args)).
Proof.
  intros msg. unfold remember. destruct (truthy model); [|discriminate].
  unfold bind. simpl.
  destruct (save_cache env model (cache_record env (fields env args)));
    discriminate.
Qed.
End ResolveCases.

(** ** The dataset and the model *)

Lemma merged_overrides_ok (env : Env) (args : list pyval) (kw : kwdict) :
  merged_overrides env args = Ok kw ->
  exists st, collect env args = Ok st
             /\ dict_update (kwargs st) (more_params st) = Ok kw.
Proof. unfold merged_overrides. apply rbind_ok. Qed.

Lemma train_of_failed_resolve (env : Env) (args : list pyval) (e : exn) :
  resolve env args = ([], Err e) ->
  train env args = ([], Err e)
  /\ train_studio env args = ([], {| yields := []; failure := Some e |})
  /\ train_local env args = ([], Err e).
Proof.
  intros Hr.
  assert (train env args = ([], Err e)) as Ht.
  { rewrite train_cases. cbv zeta. now rewrite Hr. }
  split; [exact Ht|]. split.
  - unfold train_studio. now rewrite Ht.
  - unfold train_local. now rewrite Ht.
Qed.

(** C1: when the merged overrides hold neither [dataset] nor
    [custom_train_dataset_path], [train] raises the [gr.Error] with the
    dataset alert before any event: no constructor call, no command, no
    log line; [train_studio] and [train_local] end with the same error
    without starting anything.  When one of the two keys is there, [train]
    raises no [gr.Error]. *)
Theorem dataset_required (env : Env) (args : list pyval) (kw : kwdict) :
  merged_overrides env args = Ok kw ->
  (kmem "dataset" kw = false ->
   kmem "custom_train_dataset_path" kw = false ->
   train env args
   = ([], Err (GrError (locale_value env "dataset_alert")))
   /\ train_studio env args
      = ([], {| yields := [];
                failure :=
                  Some (GrError (locale_value env "dataset_alert")) |})
   /\ train_local env args
      = ([], Err (GrError (locale_value env "dataset_alert"))))
  /\ (kmem "dataset" kw || kmem "custom_train_dataset_path" kw = true ->
      forall msg, snd (train env args) <> Err (GrError msg)).
Proof.
  intros Hm. apply merged_overrides_ok in Hm as (st & Hc & Hu). split.
  - intros Hd Hp. apply train_of_failed_resolve.
    rewrite resolve_cases, Hc, Hu. unfold check_dataset.
    now rewrite Hd, Hp.
  - intros Hk msg. rewrite train_cases. cbv zeta.
    rewrite resolve_cases, Hc, Hu. unfold check_dataset.
    apply orb_true_iff in Hk.
    assert (negb (kmem "dataset" kw)
            && negb (kmem "custom_train_dataset_path" kw) = false) as ->.
    { destruct Hk as [-> | ->]; simpl; trivial. apply andb_false_r. }
    pose proof (detect_checkpoint_not_gr env kw msg) as H1.
    destruct (detect_checkpoint env kw) as [kw1|e1]; simpl; [|congruence].
    pose proof (construct_not_gr env (kwargs_is_list st)
                  (fst (route_deepspeed env kw1 (more_params_cmd st))) msg)
      as H2.
    destruct (snd (construct env (kwargs_is_list st)
                     (fst (route_deepspeed env kw1 (more_params_cmd st)))))
      as [[a kw2]|e2]; simpl; [|congruence].
    match goal with
    | |- context [build_params env ?il ?k ?s ?a] =>
        pose proof (build_params_not_gr env il k s a msg) as H3;
        destruct (build_params env il k s a) as [params|e3]
    end; simpl; [|congruence].
    match goal with
    | |- context [build_command env ?g ?p ?a ?o] =>
        pose proof (build_command_not_gr env g p a o msg) as H4;
        destruct (build_command env g p a o) as [cmd|e4]
    end; simpl; [|congruence].
    match goal with
    | |- context [remember env ?m ?l] =>
        pose proof (remember_not_gr env m l msg) as H5;
        destruct (snd (remember env m l)) as [u|e5]
    end; simpl; [discriminate|congruence].
Qed.

Lemma dataset_required_witness :
  train Sample.env
    (Sample.form (VStr "qwen") (VList []) (VStr "") (VList [VStr "0"])
       (VBool false))
  = ([], Err (GrError "Please input or select a dataset")).
Proof.
  apply (proj1 (dataset_required Sample.env
                  (Sample.form (VStr "qwen") (VList []) (VStr "")
                     (VList [VStr "0"]) (VBool false))
                  [(VStr "model", VStr "qwen")] eq_refl));
    reflexivity.
Defined.

(** C9: when the merged overrides hold a dataset key and no [model] key,
    [kwargs.get('model')] is [None], [os.path.exists] raises [TypeError] on
    it, and that is how [train] ends: before any event, and not with the
    [gr.Error] of a validation. *)
Theorem model_is_required (env : Env) (args : list pyval) (kw : kwdict) :
  merged_overrides env args = Ok kw ->
  kmem "dataset" kw || kmem "custom_train_dataset_path" kw = true ->
  kmem "model" kw = false ->
  get_model kw = VNone
  /\ os_path_exists env (get_model kw) = Err TypeError
  /\ train env args = ([], Err TypeError).
Proof.
  intros Hm Hk Hmodel.
  apply merged_overrides_ok in Hm as (st & Hc & Hu).
  assert (get_model kw = VNone) as Hg.
  { unfold get_model. rewrite kmem_kget in Hmodel.
    destruct (kget "model" kw); [discriminate | reflexivity]. }
  split; [exact Hg|]. split; [now rewrite Hg|].
  apply train_of_failed_resolve.
  rewrite resolve_cases, Hc, Hu. unfold check_dataset.
  apply orb_true_iff in Hk.
  assert (negb (kmem "dataset" kw)
          && negb (kmem "custom_train_dataset_path" kw) = false) as ->.
  { destruct Hk as [-> | ->]; simpl; trivial. apply andb_false_r. }
  unfold detect_checkpoint. now rewrite Hg.
Qed.

Lemma model_is_required_witness :
  train Sample.env
    (Sample.form (VStr "") (VList [VStr "alpaca"]) (VStr "")
       (VList [VStr "0"]) (VBool false))
  = ([], Err TypeError).
Proof.
  apply (model_is_required Sample.env
           (Sample.form (VStr "") (VList [VStr "alpaca"]) (VStr "")
              (VList [VStr "0"]) (VBool false))
           [(VStr "dataset", VStr "alpaca")] eq_refl); reflexivity.
Defined.

(** ** How often a key occurs in the overrides *)


Lemma kget_none_count (k : string) (d : kwdict) :
  kget k d = None <-> key_count k d = 0%nat.
Proof.
  unfold kget, key_count. induction d as [|[j w] d IH]; simpl.
  - tauto.
  - destruct (py_eq (VStr k) j); simpl; [split; discriminate | exact IH].
Qed.

Lemma count_set_other (k : string) (k' v : pyval) (d : kwdict) :
  py_eq (VStr k) k' = false ->
  key_count k (PyDict.set py_eq k' v d) = key_count k d.
Proof.
  intros Hk. unfold key_count. induction d as [|[j w] d IH]; simpl.
  - now rewrite Hk.
  - destruct (py_eq k' j) eqn:Ej; simpl.
    + now destruct (py_eq (VStr k) j).
    + destruct (py_eq (VStr k) j); simpl; now rewrite IH.
Qed.

Lemma count_set_same (k : string) (v : pyval) (d : kwdict) :
  key_count k (PyDict.set py_eq (VStr k) v d) = Nat.max 1 (key_count k d).
Proof.
  unfold key_count. induction d as [|[j w] d IH]; simpl.
  - now rewrite py_eq_str, String.eqb_refl.
  - destruct (py_eq (VStr k) j) eqn:Ej; simpl; rewrite Ej; simpl.
    + reflexivity.
    + exact IH.
Qed.

Lemma count_set (k : string) (k' v : pyval) (d : kwdict) :
  (key_count k d <= 1)%nat ->
  (key_count k (PyDict.set py_eq k' v d) <= 1)%nat.
Proof.
  intros H. destruct (py_eq (VStr k) k') eqn:E.
  - apply py_eq_str_l in E. subst k'. rewrite count_set_same. lia.
  - now rewrite count_set_other.
Qed.


Lemma count_remove_same (k : string) (d : kwdict) :
  key_count k (kremove k d) = Nat.pred (key_count k d).
Proof.
  unfold kremove, key_count. induction d as [|[j w] d IH]; simpl.
  - reflexivity.
  - destruct (py_eq (VStr k) j) eqn:Ej; simpl; [reflexivity|].
    rewrite Ej. exact IH.
Qed.

(** After the removal of a key that occurred at most once, it is gone. *)
Lemma kmem_kremove (k : string) (d : kwdict) :
  (key_count k d <= 1)%nat -> kmem k (kremove k d) = false.
Proof.
  intros H. rewrite kmem_kget.
  assert (kget k (kremove k d) = None) as ->; [|reflexivity].
  apply kget_none_count. rewrite count_remove_same. lia.
Qed.

Lemma count_merge (k : string) (m d : kwdict) :
  (key_count k d <= 1)%nat ->
  (key_count k (PyDict.merge py_eq d m) <= 1)%nat.
Proof.
  unfold PyDict.merge. revert d.
  induction m as [|[j w] m IH]; simpl; intros d H; [exact H|].
  apply IH. now apply count_set.
Qed.

Lemma count_update_pairs (k : string) (l : list pyval) (d d' : kwdict) :
  update_pairs d l = Ok d' ->
  (key_count k d <= 1)%nat -> (key_count k d' <= 1)%nat.
Proof.
  revert d. induction l as [|x l IH]; simpl; intros d H Hc.
  - now injection H as <-.
  - destruct (pair_of x) as [[a b]|]; [|discriminate].
    destruct (hashable a); [|discriminate].
    apply (IH _ H). now apply count_set.
Qed.

Lemma count_dict_update (k : string) (m : pyval) (d d' : kwdict) :
  dict_update d m = Ok d' ->
  (key_count k d <= 1)%nat -> (key_count k d' <= 1)%nat.
Proof.
  destruct m; simpl; try discriminate; intros H Hc.
  - now apply (count_update_pairs k _ _ _ H).
  - now apply (count_update_pairs k _ _ _ H).
  - injection H as <-. now apply count_merge.
Qed.

Section Counting.
Variable env : Env.

Lemma count_step (k : string) (st st' : state) (kv : string * pyval) :
  step env st kv = Ok st' ->
  (key_count k (kwargs st) <= 1)%nat -> (key_count k (kwargs st') <= 1)%nat.
Proof.
  unfold step. intros H Hc.
  apply rbind_ok in H as (value & _ & H).
  apply rbind_ok in H as (st1 & Hb & H).
  apply rbind_ok in H as (st2 & Hp & H).
  assert (kwargs st' = kwargs st1) as ->.
  { injection H as <-.
    assert (kwargs st2 = kwargs st1) as E.
    { unfold parse_more_params in Hp.
      destruct ((fst kv =? "more_params") && truthy value).
      - destruct value; try discriminate.
        destruct (json_loads env s); now injection Hp as <-.
      - now injection Hp as <-. }
    destruct (fst kv =? "train_stage"); simpl; now rewrite ?E. }
  unfold bucket in Hb. destruct (is_override env (fst kv) value).
  - apply rbind_ok in Hb as (v & _ & Hb). injection Hb as <-. simpl.
    now apply count_set.
  - now injection Hb as <-.
Qed.

Lemma count_loop (k : string) (l : list (string * pyval)) (st st' : state) :
  run_loop env st l = Ok st' ->
  (key_count k (kwargs st) <= 1)%nat -> (key_count k (kwargs st') <= 1)%nat.
Proof.
  revert st. induction l as [|kv l IH]; simpl; intros st H Hc.
  - now injection H as <-.
  - apply rbind_ok in H as (st1 & Hs & H).
    apply (IH _ H). now apply (count_step k _ _ _ Hs).
Qed.

Lemma count_merged (k : string) (args : list pyval) (kw : kwdict) :
  merged_overrides env args = Ok kw -> (key_count k kw <= 1)%nat.
Proof.
  intros H. apply merged_overrides_ok in H as (st & Hc & Hu).
  apply (count_dict_update k _ _ _ Hu).
  apply (count_loop k _ _ _ Hc). unfold key_count, init_state. simpl. lia.
Qed.


End Counting.

(** ** The constructor call *)





(** ** From the result of [train] back to its steps *)

Section Inversion.
Variable env : Env.

Lemma resolve_ok (args : list pyval) (r : resolved) :
  snd (resolve env args) = Ok r ->
  exists st kw kw1,
    collect env args = Ok st
    /\ dict_update (kwargs st) (more_params st) = Ok kw
    /\ check_dataset env kw = Ok tt
    /\ detect_checkpoint env kw = Ok kw1
    /\ snd (construct env (kwargs_is_list st)
              (fst (route_deepspeed env kw1 (more_params_cmd st))))
       = Ok (r_args r, r_kwargs r)
    /\ r_state r = st
    /\ r_suffix r = snd (route_deepspeed env kw1 (more_params_cmd st))
    /\ r_model r = get_model kw.
Proof.
  rewrite resolve_cases.
  destruct (collect env args) as [st|]; [|discriminate].
  destruct (dict_update (kwargs st) (more_params st)) as [kw|] eqn:Eu;
    [|discriminate].
  destruct (check_dataset env kw) as [[]|] eqn:Ed; [|discriminate].
  destruct (detect_checkpoint env kw) as [kw1|] eqn:Ek; [|discriminate].
  cbv zeta. simpl.
  destruct (snd (construct env (kwargs_is_list st)
                   (fst (route_deepspeed env kw1 (more_params_cmd st)))))
    as [[a kw2]|] eqn:Ec; [|discriminate].
  intros H. injection H as <-. exists st, kw, kw1. simpl. now repeat split.
Qed.


Lemma train_ok (args : list pyval) (cmd : string) (a : sft_args)
  (other : sdict pyval) :
  snd (train env args) = Ok (cmd, a, other) ->
  exists r params,
    snd (resolve env args) = Ok r
    /\ build_params env (kwargs_is_list (r_state r)) (r_kwargs r)
         (r_suffix r) (r_args r) = Ok params
    /\ build_command env (train_stage (r_state r)) params (r_args r)
         (other_kwargs (r_state r)) = Ok cmd
    /\ a = r_args r
    /\ other = other_kwargs (r_state r).
Proof.
  rewrite train_cases. cbv zeta.
  destruct (snd (resolve env args)) as [r|]; [|discriminate].
  destruct (build_params env (kwargs_is_list (r_state r)) (r_kwargs r)
              (r_suffix r) (r_args r)) as [params|] eqn:Ep; [|discriminate].
  destruct (build_command env (train_stage (r_state r)) params (r_args r)
              (other_kwargs (r_state r))) as [c|] eqn:Ec; [|discriminate].
  simpl.
  destruct (snd (remember env (r_model r) args)) as [[]|]; [|discriminate].
  intros H. injection H as <- <- <-. exists r, params. now repeat split.
Qed.

(** The constructor calls of [train] are those of [resolve]. *)
Lemma train_constructs (args : list pyval) (kwa : sdict pyval) :
  In (EvConstruct kwa) (fst (train env args)) ->
  In (EvConstruct kwa) (fst (resolve env args)).
Proof.
  rewrite train_cases. cbv zeta.
  destruct (snd (resolve env args)) as [r|]; [|trivial].
  destruct (build_params env (kwargs_is_list (r_state r)) (r_kwargs r)
              (r_suffix r) (r_args r)) as [params|]; [|trivial].
  destruct (build_command env (train_stage (r_state r)) params (r_args r)
              (other_kwargs (r_state r))) as [c|]; [|trivial].
  simpl. intros H. apply in_app_or in H as [H|H]; [exact H|].
  destruct H as [H|H]; [discriminate|].
  unfold remember in H. destruct (truthy (r_model r)); [|contradiction].
  unfold bind in H. simpl in H.
  destruct (save_cache env (r_model r) (cache_record env (fields env args)));
    simpl in H; destruct H as [H|[]]; discriminate.
Qed.



End Inversion.

(** ** The [deepspeed] override *)




(** ** The retry of the constructor *)






Lemma call_ctor_cases (env : Env) (il : sdict bool) (kw : kwdict)
  (kwa : sdict pyval) :
  keywords (ctor_items il kw) = Some kwa ->
  call_ctor env il kw
  = ([EvConstruct kwa],
     match RLHFArguments env kwa with
     | inr a => Ok a
     | inl e => Err (Raised e)
     end).
Proof.
  unfold call_ctor. intros ->. unfold bind. simpl.
  now destruct (RLHFArguments env kwa).
Qed.



(** ** The selected devices *)

Lemma strs_of_some (l : list pyval) (ss : list string) :
  strs_of l = Some ss -> l = map VStr ss.
Proof.
  revert ss. induction l as [|x l IH]; simpl; intros ss H.
  - now injection H as <-.
  - destruct x; try discriminate.
    destruct (strs_of l) as [r|]; [|discriminate].
    injection H as <-. simpl. now rewrite (IH r eq_refl).
Qed.

Lemma has_cpu_strings (ss : list string) :
  has_cpu (map VStr ss) = true <-> In "cpu" ss.
Proof.
  unfold has_cpu. rewrite existsb_exists. split.
  - intros (x & Hin & He). apply py_eq_str_l in He. subst x.
    apply in_map_iff in Hin as (s & [= ->] & Hs). exact Hs.
  - intros H. exists (VStr "cpu"). split; [now apply in_map | reflexivity].
Qed.

Lemma check_devices_ok (devices : list pyval) :
  check_devices devices = Ok tt <->
  List.length devices = 1%nat \/ has_cpu devices = false.
Proof.
  unfold check_devices.
  destruct (Nat.eqb (List.length devices) 1) eqn:El; simpl.
  - apply Nat.eqb_eq in El. tauto.
  - apply Nat.eqb_neq in El. destruct (has_cpu devices); simpl.
    + split; [discriminate | intros [?|?]; [contradiction|discriminate]].
    + tauto.
Qed.

(** What a built command says about the devices. *)
Lemma build_command_devices (env : Env) (stage : pyval) (params : string)
  (a : sft_args) (other : sdict pyval) (cmd : string) :
  build_command env stage params a other = Ok cmd ->
  exists gpu_id devs,
    sget "gpu_id" other = Some gpu_id
    /\ selected gpu_id = Ok (map VStr devs)
    /\ check_devices (map VStr devs) = Ok tt
    /\ exists rest,
         cmd = (if win32 env
                then set_clause (visibility env (PyStr.join "," devs))
                else visibility env (PyStr.join "," devs)) ++ rest.
Proof.
  unfold build_command. intros H.
  apply rbind_ok in H as (gpu_id & Hg & H).
  apply rbind_ok in H as (envs0 & _ & H).
  apply rbind_ok in H as (envs & _ & H).
  apply rbind_ok in H as (devices & Hsel & H).
  apply rbind_ok in H as (ddp & _ & H).
  apply rbind_ok in H as ([] & Hchk & H).
  apply rbind_ok in H as (gpus & Hgpus & H).
  destruct (strs_of devices) as [devs|] eqn:Es; [|discriminate].
  apply strs_of_some in Es. subst devices.
  apply Ok_inj in Hgpus. subst gpus.
  apply Ok_inj in H. subst cmd.
  exists gpu_id, devs. unfold getitem in Hg.
  destruct (sget "gpu_id" other) as [g|]; [|discriminate].
  apply Ok_inj in Hg. subst g. repeat split; trivial.
  destruct (win32 env); eexists; reflexivity.
Qed.

(** C5: in every submission for which [train] builds a command, the
    devices that are left after the empty entries are dropped are strings,
    and either there is exactly one of them or [cpu] is not among them; the
    device-visibility variable at the head of the command lists these
    devices, so that [cpu] stands there with no other entry, and in fact
    with [cpu] selected no such variable is set.  A selection that holds
    [cpu] and is not a single device fails the assertion of line 365, and
    [build_command] ends with the [AssertionError] if nothing before the
    assertion has raised. *)
Theorem cpu_is_selected_alone (env : Env) :
  (forall args cmd a other,
      snd (train env args) = Ok (cmd, a, other) ->
      exists gpu_id devs,
        sget "gpu_id" other = Some gpu_id
        /\ selected gpu_id = Ok (map VStr devs)
        /\ (List.length devs = 1%nat \/ ~ In "cpu" devs)
        /\ (In "cpu" devs ->
            devs = ["cpu"] /\ visibility env (PyStr.join "," devs) = "")
        /\ exists rest,
             cmd = (if win32 env
                    then set_clause (visibility env (PyStr.join "," devs))
                    else visibility env (PyStr.join "," devs)) ++ rest)
  /\ (forall devices,
         List.length devices <> 1%nat -> has_cpu devices = true ->
         check_devices devices = Err AssertionError)
  /\ (forall stage params a other gpu_id devices envs text ddp,
         sget "gpu_id" other = Some gpu_id ->
         selected gpu_id = Ok devices ->
         List.length devices <> 1%nat -> has_cpu devices = true ->
         sget "envs" other = Some envs ->
         (if truthy envs then envs else VStr "") = VStr text ->
         ddp_prefix other = Ok ddp ->
         build_command env stage params a other = Err AssertionError).
Proof.
  split; [|split].
  - intros args cmd a other Hok.
    apply train_ok in Hok as (r & params & _ & _ & Hb & _ & ->).
    apply build_command_devices in Hb
      as (gpu_id & devs & Hg & Hsel & Hchk & rest & Hcmd).
    exists gpu_id, devs. split; [exact Hg|]. split; [exact Hsel|].
    apply check_devices_ok in Hchk. rewrite length_map in Hchk.
    assert (List.length devs = 1%nat \/ ~ In "cpu" devs) as Hor.
    { destruct Hchk as [Hl|Hc]; [now left | right].
      intros Hin. apply has_cpu_strings in Hin. congruence. }
    split; [exact Hor|]. split; [|now exists rest].
    intros Hin. destruct Hor as [Hl|Hn]; [|contradiction].
    destruct devs as [|d [|d' devs]]; try discriminate.
    destruct Hin as [->|[]]. now split.
  - intros devices Hl Hc. unfold check_devices. rewrite Hc.
    apply Nat.eqb_neq in Hl. now rewrite Hl.
  - intros stage params a other gpu_id devices envs text ddp
           Hg Hsel Hl Hc He Ht Hd.
    unfold build_command, getitem. rewrite Hg, He. simpl.
    rewrite Ht. simpl. rewrite Hsel. simpl. rewrite Hd. simpl.
    unfold check_devices. rewrite Hc. apply Nat.eqb_neq in Hl.
    now rewrite Hl.
Qed.

Lemma cpu_is_selected_alone_witness :
  match snd (train Sample.env
               (Sample.form (VStr "qwen") (VList [VStr "alpaca"]) (VStr "")
                  (VList [VStr "0"; VStr ""; VStr "1"]) (VBool false))) with
  | Ok (cmd, a, other) =>
      exists gpu_id devs,
        sget "gpu_id" other = Some gpu_id
        /\ selected gpu_id = Ok (map VStr devs)
        /\ (List.length devs = 1%nat \/ ~ In "cpu" devs)
  | Err _ => False
  end
  /\ build_command Sample.env (VStr "sft") "--model 'qwen' "
       {| output_dir := "output"; logging_dir := "output/runs";
          model := VStr "qwen" |}
       [("envs", VStr ""); ("gpu_id", VList [VStr "cpu"; VStr "0"]);
        ("use_ddp", VBool false)]
     = Err AssertionError.
Proof.
  split.
  - destruct (snd (train Sample.env
               (Sample.form (VStr "qwen") (VList [VStr "alpaca"]) (VStr "")
                  (VList [VStr "0"; VStr ""; VStr "1"]) (VBool false))))
      as [[[cmd a] other]|e] eqn:E.
    + destruct (proj1 (cpu_is_selected_alone Sample.env) _ _ _ _ E)
        as (g & d & H1 & H2 & H3 & _).
      exists g, d. exact (conj H1 (conj H2 H3)).
    + vm_compute in E. discriminate E.
  - apply (proj2 (proj2 (cpu_is_selected_alone Sample.env))
             (VStr "sft") "--model 'qwen' " _ _
             (VList [VStr "cpu"; VStr "0"]) [VStr "cpu"; VStr "0"]
             (VStr "") "" "");
      try reflexivity.
    simpl. lia.
Defined.

(** ** List-valued fields: joined by spaces and split again *)


Lemma split_acc_app (cur t rest : string) :
  space_free t = true ->
  PyStr.split_acc " "%char cur (t ++ rest)
  = PyStr.split_acc " "%char (cur ++ t) rest.
Proof.
  revert cur. induction t as [|c t IH]; simpl; intros cur H.
  - now rewrite sapp_nil_r.
  - apply andb_true_iff in H as [Hc Ht]. apply negb_true_iff in Hc.
    rewrite Hc, (IH _ Ht), sapp_assoc. reflexivity.
Qed.

Lemma split_acc_free (cur t : string) :
  space_free t = true -> PyStr.split_acc " "%char cur t = [cur ++ t].
Proof.
  intros H. rewrite <- (sapp_nil_r t) at 1.
  now rewrite split_acc_app.
Qed.

Lemma split_join (tokens : list string) :
  Forall (fun t => space_free t = true) tokens -> tokens <> [] ->
  PyStr.split " "%char (PyStr.join " " tokens) = tokens.
Proof.
  unfold PyStr.split, PyStr.join.
  induction 1 as [|t l Ht Hl IH]; intros Hne; [contradiction|].
  destruct l as [|t' l].
  - simpl. now rewrite split_acc_free.
  - change (String.concat " " (t :: t' :: l))
      with (t ++ String " "%char (String.concat " " (t' :: l))).
    rewrite split_acc_app by exact Ht. simpl. f_equal.
    apply IH. discriminate.
Qed.

Lemma filter_all {A} (f : A -> bool) (l : list A) :
  Forall (fun x => f x = true) l -> filter f l = l.
Proof.
  induction 1 as [|x l Hx Hl IH]; simpl; [reflexivity|].
  now rewrite Hx, IH.
Qed.

Lemma resplit_join (tokens : list string) :
  Forall solid tokens -> resplit (PyStr.join " " tokens) = tokens.
Proof.
  intros H. unfold resplit. destruct tokens as [|t l]; [reflexivity|].
  rewrite split_join.
  - apply filter_all. eapply Forall_impl; [|exact H]. now intros x [_ Hx].
  - eapply Forall_impl; [|exact H]. now intros x [Hx _].
  - discriminate.
Qed.

Lemma strs_of_strings (ss : list string) : strs_of (map VStr ss) = Some ss.
Proof.
  induction ss as [|s ss IH]; simpl; [reflexivity | now rewrite IH].
Qed.


(** C8, as the claim states it, fails: a token that is not empty and has
    no space in it, but is blank, is lost between line 300 and line 350. *)
Lemma blank_token_is_dropped :
  Forall (fun t => PyStr.nonempty t = true /\ space_free t = true)
    ["q_proj"; tab]
  /\ stored (VList [VStr "q_proj"; VStr tab])
     = Ok (VStr (PyStr.join " " ["q_proj"; tab]))
  /\ resplit (PyStr.join " " ["q_proj"; tab]) = ["q_proj"]
  /\ resplit (PyStr.join " " ["q_proj"; tab]) <> ["q_proj"; tab]
  /\ render Sample.env [("target_modules", true)] (VStr "target_modules")
       (VStr (PyStr.join " " ["q_proj"; tab]))
     = Ok "--target_modules 'q_proj' ".
Proof.
  split; [repeat constructor|].
  split; [reflexivity|]. split; [reflexivity|].
  split; [discriminate | reflexivity].
Qed.

(** C8, amended: a list of tokens that have no space in them and are not
    blank is stored as the tokens joined by spaces (line 300); splitting
    that text on spaces and dropping the blank fragments (line 350) gives
    the same tokens in the same order, the constructor gets the same
    tokens (line 327), and for a key flagged as a list the builder writes
    them joined by the quoting separator. *)
Theorem resplit_roundtrip (env : Env) (il : sdict bool) (key : string)
  (tokens : list string) :
  Forall solid tokens ->
  stored (VList (map VStr tokens)) = Ok (VStr (PyStr.join " " tokens))
  /\ resplit (PyStr.join " " tokens) = tokens
  /\ (tokens <> [] ->
      PyStr.split " "%char (PyStr.join " " tokens) = tokens)
  /\ (sget key il = Some true ->
      ctor_items il [(VStr key, VStr (PyStr.join " " tokens))]
      = [(VStr key,
          VList (map VStr (PyStr.split " "%char (PyStr.join " " tokens))))]
      /\ render env il (VStr key) (VStr (PyStr.join " " tokens))
         = Ok ("--" ++ key ++ " " ++ quote env
               ++ PyStr.join (quote env ++ " " ++ quote env) tokens
               ++ quote env ++ " ")).
Proof.
  intros H. split; [|split; [|split]].
  - unfold stored. now rewrite strs_of_strings.
  - now apply resplit_join.
  - intros Hne. apply split_join; trivial.
    eapply Forall_impl; [|exact H]. now intros x [Hx _].
  - intros Hk. split.
    + unfold ctor_items, flagged. simpl. now rewrite Hk.
    + unfold render, flagged. rewrite Hk. now rewrite resplit_join.
Qed.

Lemma resplit_roundtrip_witness :
  resplit (PyStr.join " " ["q_proj"; "k_proj"; "v_proj"])
  = ["q_proj"; "k_proj"; "v_proj"]
  /\ render Sample.env [("target_modules", true)] (VStr "target_modules")
       (VStr (PyStr.join " " ["q_proj"; "k_proj"; "v_proj"]))
     = Ok "--target_modules 'q_proj' 'k_proj' 'v_proj' ".
Proof.
  assert (Forall solid ["q_proj"; "k_proj"; "v_proj"]) as H
    by (repeat constructor).
  split.
  - exact (proj1 (proj2 (resplit_roundtrip Sample.env
                           [("target_modules", true)] "target_modules"
                           ["q_proj"; "k_proj"; "v_proj"] H))).
  - exact (proj2 (proj2 (proj2 (proj2 (resplit_roundtrip Sample.env
                           [("target_modules", true)] "target_modules"
                           ["q_proj"; "k_proj"; "v_proj"] H)))
                    eq_refl)).
Defined.

(** ** The free-form overrides *)



Section FreeForm.
Variable env : Env.

Lemma step_more_params_frame (st st' : state) (key : string) (raw : pyval) :
  step env st (key, raw) = Ok st' -> key <> "more_params" ->
  more_params st' = more_params st
  /\ more_params_cmd st' = more_params_cmd st.
Proof.
  unfold step. simpl fst. simpl snd. intros H Hk.
  apply String.eqb_neq in Hk.
  apply rbind_ok in H as (value & _ & H).
  apply rbind_ok in H as (st1 & Hb & H).
  apply rbind_ok in H as (st2 & Hp & H).
  unfold parse_more_params in Hp. rewrite Hk in Hp. simpl in Hp.
  apply Ok_inj in Hp. subst st2.
  assert (more_params st1 = more_params st
          /\ more_params_cmd st1 = more_params_cmd st) as [E1 E2].
  { unfold bucket in Hb. destruct (is_override env key value).
    - apply rbind_ok in Hb as (v & _ & Hb). apply Ok_inj in Hb. subst st1.
      now split.
    - apply Ok_inj in Hb. subst st1. now split. }
  apply Ok_inj in H. subst st'.
  destruct (key =? "train_stage"); simpl; now split.
Qed.

Lemma loop_more_params_frame (l : list (string * pyval)) (st st' : state) :
  run_loop env st l = Ok st' -> ~ In "more_params" (map fst l) ->
  more_params st' = more_params st
  /\ more_params_cmd st' = more_params_cmd st.
Proof.
  revert st. induction l as [|[key raw] l IH]; simpl; intros st H Hk.
  - apply Ok_inj in H. subst st'. now split.
  - apply rbind_ok in H as (st1 & Hs & H).
    destruct (IH _ H) as [E1 E2]; [tauto|].
    destruct (step_more_params_frame _ _ _ _ Hs) as [F1 F2];
      [intros ->; tauto|].
    split; congruence.
Qed.

(** The turn of the loop that reads a free-form text which is still a
    string after the coercion. *)
Lemma step_more_params (st st' : state) (s : string) :
  step env st ("more_params", VStr s) = Ok st' ->
  s <> "" -> coerce env (VStr s) = Ok (VStr s) ->
  match json_loads env s with
  | Some j => more_params st' = j /\ more_params_cmd st' = more_params_cmd st
  | None => more_params st' = more_params st /\ more_params_cmd st' = s
  end.
Proof.
  unfold step. simpl fst. simpl snd. intros H Hs Hc. rewrite Hc in H.
  simpl in H.
  apply rbind_ok in H as (st2 & Hp & H).
  apply Ok_inj in H. subst st'.
  unfold parse_more_params in Hp. simpl in Hp.
  assert (PyStr.nonempty s = true) as Hn by (destruct s; [congruence|trivial]).
  rewrite Hn in Hp.
  destruct (json_loads env s); apply Ok_inj in Hp; subst st2; simpl;
    now split.
Qed.

Lemma loop_more_params (l : list (string * pyval)) (st st' : state)
  (s : string) :
  run_loop env st l = Ok st' -> NoDup (map fst l) ->
  In ("more_params", VStr s) l ->
  s <> "" -> coerce env (VStr s) = Ok (VStr s) ->
  match json_loads env s with
  | Some j => more_params st' = j /\ more_params_cmd st' = more_params_cmd st
  | None => more_params st' = more_params st /\ more_params_cmd st' = s
  end.
Proof.
  revert st. induction l as [|[key raw] l IH]; simpl;
    intros st H Hn Hin Hs Hc; [contradiction|].
  apply rbind_ok in H as (st1 & Hst & H).
  inversion Hn as [|? ? Hk Hn']; subst.
  destruct Hin as [E|Hin].
  - injection E as -> ->.
    pose proof (step_more_params _ _ _ Hst Hs Hc) as Hstep.
    destruct (loop_more_params_frame _ _ _ H Hk) as [F1 F2].
    destruct (json_loads env s); destruct Hstep as [G1 G2];
      split; congruence.
  - assert (key <> "more_params") as Hne.
    { intros ->. apply Hk. now apply (in_map fst) in Hin. }
    destruct (step_more_params_frame _ _ _ _ Hst Hne) as [F1 F2].
    specialize (IH _ H Hn' Hin Hs Hc).
    destruct (json_loads env s); destruct IH as [G1 G2]; split; congruence.
Qed.


End FreeForm.





Lemma sample_keys_nodup : NoDup (valid_element_keys Sample.env).
Proof. repeat constructor; simpl; intuition discriminate. Qed.


(** ** The log buffer of the streaming runner *)


Lemma deque_append_window (n : nat) (l : list string) (x : string) :
  deque_append n (window n l) x = window n (l ++ [x])%list.
Proof.
  unfold deque_append, window.
  rewrite !length_app, length_skipn. simpl List.length.
  destruct (Nat.leb (List.length l - (List.length l - n) + 1) n) eqn:E.
  - apply Nat.leb_le in E.
    replace (List.length l - n)%nat with 0%nat by lia.
    replace (List.length l + 1 - n)%nat with 0%nat by lia.
    reflexivity.
  - apply Nat.leb_gt in E.
    replace (List.length l + 1 - n)%nat
      with (1 + (List.length l - n))%nat by lia.
    rewrite <- skipn_skipn. rewrite skipn_app.
    replace (List.length l - n - List.length l)%nat with 0%nat by lia.
    reflexivity.
Qed.

Section Pump.
Variable env : Env.


(** When every line decodes, there is one update per line, and the update
    after the [k]-th line shows the last [maxlen] of the lines read so far,
    joined by newlines. *)
Lemma pump_shows_last_lines (run_command : string) (maxlen : nat)
  (input decoded : list string) :
  Forall2 (fun raw line => utf8_decode env raw = Some line) input decoded ->
  forall seen,
    pump env run_command maxlen (window maxlen seen) input
    = {| yields :=
           map (fun k =>
                  update env run_command
                    (PyStr.join nl
                       (window maxlen (seen ++ firstn k decoded)%list)))
               (seq 1 (List.length decoded));
         failure := None |}.
Proof.
  induction 1 as [|raw line input decoded Hd Hrest IH]; intros seen.
  - reflexivity.
  - simpl pump. rewrite Hd. rewrite deque_append_window.
    rewrite (IH (seen ++ [line])%list). simpl yields. simpl failure.
    simpl List.length. simpl seq. simpl map. f_equal. f_equal.
    rewrite <- (seq_shift (List.length decoded) 1), map_map.
    apply map_ext. intros k.
    now rewrite <- app_assoc.
Qed.
End Pump.

(** C2, as the claim states it, fails: with a buffer of two lines and a
    child that writes the lines a, b and c, there are three updates, but
    the last one shows the two lines with their own terminators and a
    newline between them. *)
Lemma lines_keep_their_terminators :
  environ_get Sample.env "MAX_LOG_LINES" = Some "2"
  /\ (forall cmd, readlines (process_output Sample.env cmd)
                  = ["a" ++ nl; "b" ++ nl; "c" ++ nl])
  /\ exists u1 u2 text rest,
       yields (snd (train_studio Sample.env
                      (Sample.form (VStr "qwen") (VList [VStr "alpaca"])
                         (VStr "") (VList [VStr "0"]) (VBool false))))
       = [u1; u2; CStr text :: rest]
       /\ text = "b" ++ nl ++ nl ++ "c" ++ nl
       /\ text <> "b" ++ nl ++ "c".
Proof.
  split; [reflexivity|]. split; [reflexivity|].
  do 4 eexists. split; [vm_compute; reflexivity|].
  split; [reflexivity | discriminate].
Qed.

(** C2, amended: in streaming mode (no dry run), with [MAX_LOG_LINES] set
    to 2 and a child whose output is read as the three lines a, b and c,
    each with its line terminator, [train_studio] starts the process and
    yields exactly three updates, one after each line; each shows the last
    two lines read so far joined by a newline, with the terminators the
    lines came with, so the last one shows b, two newlines, c and a
    newline. *)
Theorem streaming_three_lines (env : Env) (args : list pyval)
  (run_command : string) (a : sft_args) (other : sdict pyval) (dry : pyval) :
  snd (train env args) = Ok (run_command, a, other) ->
  sget "dry_run" other = Some dry ->
  truthy dry = false ->
  environ_get env "MAX_LOG_LINES" = Some "2" ->
  process_output env run_command = "a" ++ nl ++ "b" ++ nl ++ "c" ++ nl ->
  utf8_decode env ("a" ++ nl) = Some ("a" ++ nl) ->
  utf8_decode env ("b" ++ nl) = Some ("b" ++ nl) ->
  utf8_decode env ("c" ++ nl) = Some ("c" ++ nl) ->
  train_studio env args
  = ((fst (train env args) ++ [EvPopen run_command])%list,
     {| yields :=
          [update env run_command ("a" ++ nl);
           update env run_command ("a" ++ nl ++ nl ++ "b" ++ nl);
           update env run_command ("b" ++ nl ++ nl ++ "c" ++ nl)];
        failure := None |}).
Proof.
  intros Ht Hd Hdry Hn Hout Ha Hb Hc.
  unfold train_studio. rewrite Ht. unfold getitem. rewrite Hd, Hdry.
  simpl negb. cbv iota.
  unfold max_log_lines. rewrite Hn.
  change (py_int (VStr "2")) with (Ok 2%Z). simpl rbind.
  rewrite Hout.
  change (readlines ("a" ++ nl ++ "b" ++ nl ++ "c" ++ nl))
    with ["a" ++ nl; "b" ++ nl; "c" ++ nl].
  change (Z.to_nat 2) with 2%nat.
  unfold pump. rewrite Ha, Hb, Hc. reflexivity.
Qed.

Lemma streaming_three_lines_witness :
  List.length
    (yields (snd (train_studio Sample.env
                    (Sample.form (VStr "qwen") (VList [VStr "alpaca"])
                       (VStr "") (VList [VStr "0"]) (VBool false)))))
  = 3%nat.
Proof.
  destruct (snd (train Sample.env
                   (Sample.form (VStr "qwen") (VList [VStr "alpaca"])
                      (VStr "") (VList [VStr "0"]) (VBool false))))
    as [[[cmd a] other]|e] eqn:Et; [|vm_compute in Et; discriminate Et].
  rewrite (streaming_three_lines Sample.env _ cmd a other (VBool false) Et).
  - reflexivity.
  - vm_compute in Et. injection Et as _ _ <-. reflexivity.
  - reflexivity.
  - reflexivity.
  - reflexivity.
  - reflexivity.
  - reflexivity.
  - reflexivity.
Defined.

(** * Further properties of the launcher *)

(** ** The shape of the command *)

Section Shape.
Variable env : Env.

Lemma command_assoc (stage : pyval) (gpus ddp envs params : string)
  (a : sft_args) :
  (if win32 env then
     set_clause (visibility env gpus) ++ set_clause ddp ++ set_clauses envs
     ++ "start /b swift sft " ++ params ++ " > "
     ++ path_join env (logging_dir a) "run.log" ++ " 2>&1"
   else
     visibility env gpus ++ " " ++ ddp ++ " " ++ envs ++ " nohup swift "
     ++ py_str env stage ++ " " ++ params ++ " > "
     ++ path_join env (logging_dir a) "run.log" ++ " 2>&1 &")
  = launch_prefix env stage gpus ddp envs ++ params ++ redirection env a.
Proof.
  unfold launch_prefix, redirection.
  destruct (win32 env); rewrite !sapp_assoc; reflexivity.
Qed.

(** Everything [build_command] has read when it returns a command. *)
Lemma build_command_ok (stage : pyval) (params : string) (a : sft_args)
  (other : sdict pyval) (cmd : string) :
  build_command env stage params a other = Ok cmd ->
  exists gpu_id envs text devs ddp,
    sget "gpu_id" other = Some gpu_id
    /\ sget "envs" other = Some envs
    /\ (if truthy envs then envs else VStr "") = VStr text
    /\ selected gpu_id = Ok (map VStr devs)
    /\ ddp_prefix other = Ok ddp
    /\ check_devices (map VStr devs) = Ok tt
    /\ cmd = launch_prefix env stage (PyStr.join "," devs) ddp
               (PyStr.strip text)
             ++ params ++ redirection env a.
Proof.
  unfold build_command. intros H.
  apply rbind_ok in H as (gpu_id & Hg & H).
  apply rbind_ok in H as (envs0 & He & H).
  apply rbind_ok in H as (envs & Ht & H).
  apply rbind_ok in H as (devices & Hsel & H).
  apply rbind_ok in H as (ddp & Hd & H).
  apply rbind_ok in H as ([] & Hchk & H).
  apply rbind_ok in H as (gpus & Hgpus & H).
  destruct (strs_of devices) as [devs|] eqn:Es; [|discriminate].
  apply strs_of_some in Es. subst devices.
  apply Ok_inj in Hgpus. subst gpus.
  apply Ok_inj in H. subst cmd.
  unfold getitem in Hg, He.
  destruct (sget "gpu_id" other) as [g|]; [|discriminate].
  apply Ok_inj in Hg. subst g.
  destruct (sget "envs" other) as [e0|]; [|discriminate].
  apply Ok_inj in He. subst e0.
  destruct (if truthy envs0 then envs0 else VStr "") as [| | | |text| |] eqn:Et;
    try discriminate.
  apply Ok_inj in Ht. subst envs.
  exists gpu_id, envs0, text, devs, ddp.
  split; [reflexivity|]. split; [reflexivity|]. split; [exact Et|].
  split; [exact Hsel|]. split; [exact Hd|]. split; [exact Hchk|].
  apply command_assoc.
Qed.

Lemma build_params_ok (il : sdict bool) (kw : kwdict) (suffix : string)
  (a : sft_args) (params : string) :
  build_params env il kw suffix a = Ok params ->
  exists flags,
    render_all env il kw
      (if (group env =? "llm_grpo") && negb (win32 env)
       then "--rlhf_type " ++ quote env ++ "grpo" ++ quote env ++ " "
       else "") = Ok flags
    /\ params = flags ++ (suffix ++ " ") ++ mandatory_flags a.
Proof.
  unfold build_params. cbv zeta. intros H.
  apply rbind_ok in H as (flags & Hf & H). apply Ok_inj in H. subst params.
  exists flags. split; [exact Hf | reflexivity].
Qed.

(** The command of a run that succeeds, piece by piece. *)
Lemma train_shape (args : list pyval) (cmd : string) (a : sft_args)
  (other : sdict pyval) :
  snd (train env args) = Ok (cmd, a, other) ->
  exists r flags gpu_id envs text devs ddp,
    snd (resolve env args) = Ok r
    /\ a = r_args r
    /\ other = other_kwargs (r_state r)
    /\ render_all env (kwargs_is_list (r_state r)) (r_kwargs r)
         (if (group env =? "llm_grpo") && negb (win32 env)
          then "--rlhf_type " ++ quote env ++ "grpo" ++ quote env ++ " "
          else "") = Ok flags
    /\ sget "gpu_id" other = Some gpu_id
    /\ sget "envs" other = Some envs
    /\ (if truthy envs then envs else VStr "") = VStr text
    /\ selected gpu_id = Ok (map VStr devs)
    /\ ddp_prefix other = Ok ddp
    /\ cmd = launch_prefix env (train_stage (r_state r))
               (PyStr.join "," devs) ddp (PyStr.strip text)
             ++ (flags ++ (r_suffix r ++ " ") ++ mandatory_flags a)
             ++ redirection env a.
Proof.
  intros Hok.
  apply train_ok in Hok as (r & params & Hr & Hp & Hb & -> & ->).
  apply build_params_ok in Hp as (flags & Hf & ->).
  apply build_command_ok in Hb
    as (gpu_id & envs & text & devs & ddp & H1 & H2 & H3 & H4 & H5 & _ & ->).
  exists r, flags, gpu_id, envs, text, devs, ddp.
  split; [exact Hr|]. split; [reflexivity|]. split; [reflexivity|].
  split; [exact Hf|]. split; [exact H1|]. split; [exact H2|].
  split; [exact H3|]. split; [exact H4|]. split; [exact H5|]. reflexivity.
Qed.
End Shape.

Lemma tail_assoc (pre flags sfx m post : string) :
  pre ++ (flags ++ sfx ++ m) ++ post = (pre ++ flags ++ sfx) ++ m ++ post.
Proof. rewrite !sapp_assoc. reflexivity. Qed.

(** X1: every command that [train] builds ends with the four mandatory
    flags, with the directories of the validated arguments, followed by
    the redirection to [run.log] in the logging directory; on POSIX the
    command is put in the background. *)
Theorem command_tail (env : Env) (args : list pyval) (cmd : string)
  (a : sft_args) (other : sdict pyval) :
  snd (train env args) = Ok (cmd, a, other) ->
  exists head,
    cmd = head
          ++ ("--add_version False --output_dir " ++ output_dir a
              ++ " --logging_dir " ++ logging_dir a
              ++ " --ignore_args_error True")
          ++ " > " ++ path_join env (logging_dir a) "run.log"
          ++ (if win32 env then " 2>&1" else " 2>&1 &").
Proof.
  intros Hok.
  apply train_shape in Hok
    as (r & flags & gpu_id & envs & text & devs & ddp
        & _ & _ & _ & _ & _ & _ & _ & _ & _ & ->).
  eexists. apply tail_assoc.
Qed.

Lemma command_tail_witness :
  match snd (train Sample.env
               (Sample.form (VStr "qwen") (VList [VStr "alpaca"]) (VStr "")
                  (VList [VStr "0"]) (VBool false))) with
  | Ok (cmd, a, _) =>
      exists head,
        cmd = head
              ++ ("--add_version False --output_dir " ++ output_dir a
                  ++ " --logging_dir " ++ logging_dir a
                  ++ " --ignore_args_error True")
              ++ " > " ++ path_join Sample.env (logging_dir a) "run.log"
              ++ (if win32 Sample.env then " 2>&1" else " 2>&1 &")
  | Err _ => False
  end.
Proof.
  destruct (snd (train Sample.env
               (Sample.form (VStr "qwen") (VList [VStr "alpaca"]) (VStr "")
                  (VList [VStr "0"]) (VBool false))))
    as [[[cmd a] other]|e] eqn:E.
  - exact (command_tail Sample.env _ cmd a other E).
  - vm_compute in E. discriminate E.
Defined.

(** ** The distributed launch *)

Lemma ddp_prefix_ok (other : sdict pyval) (ddp : string) :
  ddp_prefix other = Ok ddp ->
  exists use_ddp,
    sget "use_ddp" other = Some use_ddp
    /\ (truthy use_ddp = false -> ddp = "")
    /\ (truthy use_ddp = true ->
        exists num n,
          sget "ddp_num" other = Some num
          /\ py_int num = Ok n
          /\ (0 < n)%Z
          /\ ddp = "NPROC_PER_NODE=" ++ PyStr.of_int n).
Proof.
  unfold ddp_prefix, getitem. intros H.
  destruct (sget "use_ddp" other) as [use_ddp|]; [|discriminate].
  simpl in H. exists use_ddp. split; [reflexivity|].
  destruct (truthy use_ddp).
  - split; [discriminate|]. intros _.
    destruct (sget "ddp_num" other) as [num|]; [|discriminate].
    simpl in H. destruct (py_int num) as [n|] eqn:Hi; [|discriminate].
    simpl in H. destruct (0 <? n)%Z eqn:Hn; [|discriminate].
    apply Ok_inj in H. subst ddp. exists num, n.
    apply Z.ltb_lt in Hn.
    exact (conj eq_refl (conj Hi (conj Hn eq_refl))).
  - apply Ok_inj in H. subst ddp. split; [reflexivity | discriminate].
Qed.

(** X2: a command is built only with a usable shard count.  When
    [use_ddp] is falsy there is no distributed prefix; when it is truthy,
    [ddp_num] converts to an integer above zero and the prefix, which
    follows the device variable, is [NPROC_PER_NODE] with that integer.
    With [use_ddp] truthy and a shard count of zero or less, line 363
    raises [AssertionError] and no command is built. *)
Theorem shard_count_is_positive (env : Env) :
  (forall args cmd a other,
      snd (train env args) = Ok (cmd, a, other) ->
      exists use_ddp ddp,
        sget "use_ddp" other = Some use_ddp
        /\ (truthy use_ddp = false -> ddp = "")
        /\ (truthy use_ddp = true ->
            exists num n,
              sget "ddp_num" other = Some num
              /\ py_int num = Ok n
              /\ (0 < n)%Z
              /\ ddp = "NPROC_PER_NODE=" ++ PyStr.of_int n)
        /\ exists gpus rest,
             cmd = (if win32 env
                    then set_clause (visibility env gpus) ++ set_clause ddp
                    else visibility env gpus ++ " " ++ ddp ++ " ") ++ rest)
  /\ (forall other use_ddp num n,
         sget "use_ddp" other = Some use_ddp -> truthy use_ddp = true ->
         sget "ddp_num" other = Some num -> py_int num = Ok n ->
         (n <= 0)%Z ->
         ddp_prefix other = Err AssertionError
         /\ forall stage params a cmd,
              build_command env stage params a other <> Ok cmd).
Proof.
  split.
  - intros args cmd a other Hok.
    apply train_shape in Hok
      as (r & flags & gpu_id & envs & text & devs & ddp
          & _ & _ & _ & _ & _ & _ & _ & _ & Hd & ->).
    destruct (ddp_prefix_ok _ _ Hd) as (use_ddp & H1 & H2 & H3).
    exists use_ddp, ddp. repeat (split; [assumption|]).
    exists (PyStr.join "," devs). unfold launch_prefix.
    destruct (win32 env); eexists; rewrite !sapp_assoc; reflexivity.
  - intros other use_ddp num n Hu Ht Hn Hi Hle.
    assert (ddp_prefix other = Err AssertionError) as E.
    { unfold ddp_prefix, getitem. rewrite Hu. simpl. rewrite Ht, Hn. simpl.
      rewrite Hi. simpl.
      destruct (0 <? n)%Z eqn:Hlt; [apply Z.ltb_lt in Hlt; lia | reflexivity]. }
    split; [exact E|].
    intros stage params a cmd Hb.
    apply build_command_ok in Hb
      as (_ & _ & _ & _ & ddp & _ & _ & _ & _ & Hd & _).
    congruence.
Qed.

Lemma shard_count_is_positive_witness :
  ddp_prefix [("use_ddp", VBool true); ("ddp_num", VStr "-2")]
  = Err AssertionError.
Proof.
  apply (proj2 (shard_count_is_positive Sample.env)
           [("use_ddp", VBool true); ("ddp_num", VStr "-2")]
           (VBool true) (VStr "-2") (-2)%Z); try reflexivity.
  lia.
Defined.

(** ** The training stage *)

Section Stage.
Variable env : Env.

Lemma step_stage_frame (st st' : state) (key : string) (raw : pyval) :
  step env st (key, raw) = Ok st' -> key <> "train_stage" ->
  train_stage st' = train_stage st.
Proof.
  unfold step. simpl fst. simpl snd. intros H Hk.
  apply String.eqb_neq in Hk.
  apply rbind_ok in H as (value & _ & H).
  apply rbind_ok in H as (st1 & Hb & H).
  apply rbind_ok in H as (st2 & Hp & H).
  rewrite Hk in H. apply Ok_inj in H. subst st'.
  assert (train_stage st1 = train_stage st) as E1.
  { unfold bucket in Hb. destruct (is_override env key value).
    - apply rbind_ok in Hb as (v & _ & Hb). apply Ok_inj in Hb. now subst st1.
    - apply Ok_inj in Hb. now subst st1. }
  unfold parse_more_params in Hp.
  destruct ((key =? "more_params") && truthy value).
  - destruct value; try discriminate.
    destruct (json_loads env s); apply Ok_inj in Hp; subst st2; exact E1.
  - apply Ok_inj in Hp. subst st2. exact E1.
Qed.

Lemma step_stage_own (st st' : state) (raw : pyval) :
  step env st ("train_stage", raw) = Ok st' ->
  exists value, coerce env raw = Ok value /\ train_stage st' = value.
Proof.
  unfold step. simpl fst. simpl snd. intros H.
  apply rbind_ok in H as (value & Hc & H).
  apply rbind_ok in H as (st1 & _ & H).
  apply rbind_ok in H as (st2 & _ & H).
  simpl in H. apply Ok_inj in H. subst st'. exists value. now split.
Qed.

Lemma loop_stage_frame (l : list (string * pyval)) (st st' : state) :
  run_loop env st l = Ok st' -> ~ In "train_stage" (map fst l) ->
  train_stage st' = train_stage st.
Proof.
  revert st. induction l as [|[key raw] l IH]; simpl; intros st H Hk.
  - apply Ok_inj in H. now subst st'.
  - apply rbind_ok in H as (st1 & Hs & H).
    rewrite (IH _ H) by tauto.
    apply (step_stage_frame _ _ _ _ Hs). intros ->. tauto.
Qed.

Lemma loop_stage_own (l : list (string * pyval)) (st st' : state)
  (raw : pyval) :
  run_loop env st l = Ok st' -> NoDup (map fst l) ->
  In ("train_stage", raw) l ->
  exists value, coerce env raw = Ok value /\ train_stage st' = value.
Proof.
  revert st. induction l as [|[key r] l IH]; simpl; intros st H Hn Hin;
    [contradiction|].
  apply rbind_ok in H as (st1 & Hs & H).
  inversion Hn as [|? ? Hk Hn']; subst.
  destruct Hin as [E|Hin].
  - injection E as -> ->.
    destruct (step_stage_own _ _ _ Hs) as (value & Hc & Hv).
    exists value. split; [exact Hc|].
    now rewrite (loop_stage_frame _ _ _ H Hk).
  - exact (IH _ H Hn' Hin).
Qed.
End Stage.

(** X3: the stage that the loop leaves is the coerced value of the
    [train_stage] field when the form has that field, whatever it is, and
    otherwise the default: [rlhf] for the group [llm_grpo], [sft] for any
    other group. *)
Theorem stage_of_the_form (env : Env) (args : list pyval) (st : state) :
  NoDup (valid_element_keys env) ->
  collect env args = Ok st ->
  (forall raw, In ("train_stage", raw) (fields env args) ->
               exists value, coerce env raw = Ok value
                             /\ train_stage st = value)
  /\ (~ In "train_stage" (map fst (fields env args)) ->
      train_stage st
      = VStr (if group env =? "llm_grpo" then "rlhf" else "sft")).
Proof.
  intros Hn Hc. split.
  - intros raw Hin.
    exact (loop_stage_own env _ _ _ raw Hc (fields_nodup env args Hn) Hin).
  - intros Hnot. now rewrite (loop_stage_frame env _ _ _ Hc Hnot).
Qed.

Lemma stage_of_the_form_witness :
  match collect Sample.env
          (Sample.form (VStr "qwen") (VList [VStr "alpaca"]) (VStr "")
             (VList [VStr "0"]) (VBool false)) with
  | Ok st => train_stage st = VStr "sft"
  | Err _ => False
  end.
Proof.
  destruct (collect Sample.env
              (Sample.form (VStr "qwen") (VList [VStr "alpaca"]) (VStr "")
                 (VList [VStr "0"]) (VBool false))) as [st|e] eqn:E.
  - destruct (proj1 (stage_of_the_form Sample.env _ st sample_keys_nodup E)
                (VStr "sft")) as (value & Hc & Hv).
    + simpl. tauto.
    + vm_compute in Hc. injection Hc as <-. exact Hv.
  - vm_compute in E. discriminate E.
Defined.

(** X4: in a command that [train] builds, the launcher stands between the
    environment part and the parameters.  On POSIX it is [nohup swift]
    followed by the stage the loop has left; on Windows it is
    [start /b swift sft], in which the stage of the form has no part. *)
Theorem launcher_and_stage (env : Env) (args : list pyval) (cmd : string)
  (a : sft_args) (other : sdict pyval) :
  snd (train env args) = Ok (cmd, a, other) ->
  exists st r params assignments,
    collect env args = Ok st
    /\ snd (resolve env args) = Ok r
    /\ build_params env (kwargs_is_list st) (r_kwargs r) (r_suffix r) a
       = Ok params
    /\ cmd = assignments
             ++ (if win32 env then "start /b swift sft "
                 else " nohup swift " ++ py_str env (train_stage st) ++ " ")
             ++ params
             ++ " > " ++ path_join env (logging_dir a) "run.log"
             ++ (if win32 env then " 2>&1" else " 2>&1 &").
Proof.
  intros Hok.
  apply train_ok in Hok as (r & params & Hr & Hp & Hb & -> & _).
  destruct (resolve_ok env _ _ Hr)
    as (st & kw & kw1 & Hc & _ & _ & _ & _ & Hst & _).
  rewrite Hst in Hp, Hb.
  apply build_command_ok in Hb
    as (gpu_id & envs & text & devs & ddp & _ & _ & _ & _ & _ & _ & ->).
  exists st, r, params.
  unfold launch_prefix, redirection. destruct (win32 env).
  - exists (set_clause (visibility env (PyStr.join "," devs))
            ++ set_clause ddp ++ set_clauses (PyStr.strip text)).
    split; [exact Hc|]. split; [exact Hr|]. split; [exact Hp|].
    rewrite !sapp_assoc. reflexivity.
  - exists (visibility env (PyStr.join "," devs) ++ " " ++ ddp ++ " "
            ++ PyStr.strip text).
    split; [exact Hc|]. split; [exact Hr|]. split; [exact Hp|].
    rewrite !sapp_assoc. reflexivity.
Qed.

Lemma launcher_and_stage_witness :
  match snd (train Sample.env
               [VStr "qwen"; VList [VStr "alpaca"]; VStr "pt"; VStr "";
                VStr ""; VStr "A=1"; VList [VStr "0"]; VBool false;
                VStr "2"; VBool false]) with
  | Ok (cmd, a, _) =>
      exists st r params assignments,
        collect Sample.env
          [VStr "qwen"; VList [VStr "alpaca"]; VStr "pt"; VStr "";
           VStr ""; VStr "A=1"; VList [VStr "0"]; VBool false;
           VStr "2"; VBool false] = Ok st
        /\ snd (resolve Sample.env
                  [VStr "qwen"; VList [VStr "alpaca"]; VStr "pt"; VStr "";
                   VStr ""; VStr "A=1"; VList [VStr "0"]; VBool false;
                   VStr "2"; VBool false]) = Ok r
        /\ build_params Sample.env (kwargs_is_list st) (r_kwargs r)
             (r_suffix r) a = Ok params
        /\ cmd = assignments
                 ++ (" nohup swift " ++ py_str Sample.env (train_stage st)
                     ++ " ")
                 ++ params
                 ++ " > " ++ path_join Sample.env (logging_dir a) "run.log"
                 ++ " 2>&1 &"
  | Err _ => False
  end.
Proof.
  destruct (snd (train Sample.env
               [VStr "qwen"; VList [VStr "alpaca"]; VStr "pt"; VStr "";
                VStr ""; VStr "A=1"; VList [VStr "0"]; VBool false;
                VStr "2"; VBool false]))
    as [[[cmd a] other]|e] eqn:E.
  - exact (launcher_and_stage Sample.env _ cmd a other E).
  - vm_compute in E. discriminate E.
Defined.

(** ** One flag per override *)

Lemma concat_cons (x : string) (l : list string) :
  String.concat "" (x :: l) = x ++ String.concat "" l.
Proof.
  destruct l as [|y l]; simpl; [now rewrite sapp_nil_r | reflexivity].
Qed.

Section Flags.
Variable env : Env.

(** The loop of lines 346-353 appends one piece per override, in the
    order of the dictionary. *)
Lemma render_all_pieces (il : sdict bool) (kw : kwdict) (p out : string) :
  render_all env il kw p = Ok out ->
  exists pieces,
    Forall2 (fun kv piece => render env il (fst kv) (snd kv) = Ok piece)
      kw pieces
    /\ out = p ++ String.concat "" pieces.
Proof.
  revert p. induction kw as [|[e v] kw IH]; simpl; intros p H.
  - apply Ok_inj in H. subst out. exists []. split; [constructor|].
    simpl. now rewrite sapp_nil_r.
  - apply rbind_ok in H as (piece & Hr & H).
    destruct (IH _ H) as (pieces & Hf & ->).
    exists (piece :: pieces). split; [constructor; assumption|].
    now rewrite concat_cons, sapp_assoc.
Qed.

(** The loop fails with one of two exceptions. *)
Lemma render_all_err (il : sdict bool) (kw : kwdict) (p : string) (e : exn) :
  render_all env il kw p = Err e -> e = TypeError \/ e = AttributeError.
Proof.
  revert p. induction kw as [|[k v] kw IH]; simpl; intros p H.
  - discriminate.
  - destruct (render env il k v) as [piece|e'] eqn:Er; simpl in H.
    + exact (IH _ H).
    + apply (f_equal (fun r => match r with Err x => x | Ok _ => e end)) in H.
      simpl in H. subst e'. unfold render in Er.
      destruct v; simpl in Er;
        repeat match type of Er with
          | context [if ?b then _ else _] => destruct b
          | context [match strs_of ?l with _ => _ end] => destruct (strs_of l)
          end; try discriminate; injection Er as <-; auto.
Qed.
End Flags.

(** X5: the parameters of a command that [train] builds are, in this
    order: the [rlhf_type] flag of the group [llm_grpo] (not on Windows),
    one piece for each override in the order of the dictionary, the
    suffix, and the mandatory flags.  The piece of an override that is
    neither a list nor flagged as a list is the key after two dashes and
    the value between quotes. *)
Theorem flags_follow_the_overrides (env : Env) (args : list pyval)
  (cmd : string) (a : sft_args) (other : sdict pyval) :
  snd (train env args) = Ok (cmd, a, other) ->
  exists r pieces gpus ddp envs,
    snd (resolve env args) = Ok r
    /\ Forall2
         (fun kv piece =>
            render env (kwargs_is_list (r_state r)) (fst kv) (snd kv)
            = Ok piece
            /\ (is_list (snd kv) = false ->
                flagged (kwargs_is_list (r_state r)) (fst kv) = false ->
                piece = "--" ++ py_str env (fst kv) ++ " " ++ quote env
                        ++ py_str env (snd kv) ++ quote env ++ " "))
         (r_kwargs r) pieces
    /\ cmd = launch_prefix env (train_stage (r_state r)) gpus ddp envs
             ++ (((if (group env =? "llm_grpo") && negb (win32 env)
                   then "--rlhf_type " ++ quote env ++ "grpo" ++ quote env
                        ++ " "
                   else "")
                  ++ String.concat "" pieces)
                 ++ (r_suffix r ++ " ") ++ mandatory_flags a)
             ++ redirection env a.
Proof.
  intros Hok.
  apply train_shape in Hok
    as (r & flags & gpu_id & envs & text & devs & ddp
        & Hr & _ & _ & Hf & _ & _ & _ & _ & _ & ->).
  apply render_all_pieces in Hf as (pieces & Hp & ->).
  exists r, pieces, (PyStr.join "," devs), ddp, (PyStr.strip text).
  split; [exact Hr|]. split; [|reflexivity].
  eapply Forall2_impl; [|exact Hp].
  intros [e v] piece Hrender. split; [exact Hrender|].
  simpl in *. intros Hl Hfl. unfold render in Hrender. rewrite Hfl in Hrender.
  destruct v; try discriminate Hl; apply Ok_inj in Hrender; now subst piece.
Qed.

Lemma flags_follow_the_overrides_witness :
  match snd (train Sample.env
               [VStr "qwen"; VList [VStr "alpaca"]; VStr "sft"; VStr "";
                VStr ""; VStr ""; VList [VStr "0"]; VBool false; VStr "2";
                VBool false; VStr ""; VList [VStr "all-linear"]; VStr "7"])
  with
  | Ok (cmd, _, _) =>
      exists r pieces,
        snd (resolve Sample.env
               [VStr "qwen"; VList [VStr "alpaca"]; VStr "sft"; VStr "";
                VStr ""; VStr ""; VList [VStr "0"]; VBool false; VStr "2";
                VBool false; VStr ""; VList [VStr "all-linear"]; VStr "7"])
        = Ok r
        /\ List.length pieces = List.length (r_kwargs r)
        /\ occurs (String.concat "" pieces) cmd
  | Err _ => False
  end.
Proof.
  destruct (snd (train Sample.env
               [VStr "qwen"; VList [VStr "alpaca"]; VStr "sft"; VStr "";
                VStr ""; VStr ""; VList [VStr "0"]; VBool false; VStr "2";
                VBool false; VStr ""; VList [VStr "all-linear"]; VStr "7"]))
    as [[[cmd a] other]|e] eqn:E.
  - destruct (flags_follow_the_overrides Sample.env _ cmd a other E)
      as (r & pieces & gpus & ddp & envs & Hr & Hp & Hcmd).
    exists r, pieces. split; [exact Hr|]. split.
    + symmetry. exact (Forall2_length Hp).
    + rewrite Hcmd. apply occurs_app_l, occurs_app_r, occurs_app_r.
      apply occurs_app_l. exists "", "". simpl. now rewrite sapp_nil_r.
  - vm_compute in E. discriminate E.
Defined.

(** ** A list flag on a value that is no text *)

Lemma Forall2_in_l {A B} (P : A -> B -> Prop) (l : list A) (l' : list B)
  (x : A) :
  Forall2 P l l' -> In x l -> exists y, P x y.
Proof.
  induction 1 as [|a b l l' Hab Hl IH]; simpl; [contradiction|].
  intros [->|Hin]; [now exists b | exact (IH Hin)].
Qed.

(** X6: when the overrides that reach line 346 hold, under a key flagged
    as a list, a value that is neither a list nor a string (a text field
    of a list-valued argument that reads as a number has become one), the
    turn of that key calls [split] on it and raises [AttributeError].  The
    constructor has been called by then, and [train] ends with that
    exception, or with the [TypeError] of an earlier key, and builds no
    command. *)
Theorem list_flag_needs_text (env : Env) (args : list pyval) (r : resolved)
  (e v : pyval) :
  snd (resolve env args) = Ok r ->
  In (e, v) (r_kwargs r) ->
  flagged (kwargs_is_list (r_state r)) e = true ->
  is_list v = false -> is_str v = false ->
  render env (kwargs_is_list (r_state r)) e v = Err AttributeError
  /\ exists x,
       train env args = (fst (resolve env args), Err x)
       /\ (x = AttributeError \/ x = TypeError).
Proof.
  intros Hr Hin Hf Hl Hs.
  assert (render env (kwargs_is_list (r_state r)) e v = Err AttributeError)
    as Hrender.
  { unfold render. rewrite Hf. destruct v; try discriminate; reflexivity. }
  split; [exact Hrender|].
  rewrite train_cases. cbv zeta. rewrite Hr.
  unfold build_params. cbv zeta.
  match goal with
  | |- context [render_all env ?il ?kw ?p] =>
      destruct (render_all env il kw p) as [flags|x] eqn:Ea
  end.
  - exfalso. apply render_all_pieces in Ea as (pieces & Hp & _).
    destruct (Forall2_in_l _ _ _ _ Hp Hin) as (piece & Hpiece).
    simpl in Hpiece. congruence.
  - simpl. exists x. split; [reflexivity|].
    apply render_all_err in Ea. tauto.
Qed.

Lemma list_flag_needs_text_witness :
  train Sample.env
    [VStr "qwen"; VList [VStr "alpaca"]; VStr "sft"; VStr ""; VStr "";
     VStr ""; VList [VStr "0"]; VBool false; VStr "2"; VBool false;
     VStr ""; VStr "8"]
  = ([EvConstruct [("model", VStr "qwen");
                   ("dataset", VList [VStr "alpaca"]);
                   ("target_modules", VInt 8)]],
     Err AttributeError).
Proof.
  destruct (snd (resolve Sample.env
    [VStr "qwen"; VList [VStr "alpaca"]; VStr "sft"; VStr ""; VStr "";
     VStr ""; VList [VStr "0"]; VBool false; VStr "2"; VBool false;
     VStr ""; VStr "8"])) as [r|e] eqn:Er;
    [|vm_compute in Er; discriminate Er].
  destruct (list_flag_needs_text Sample.env _ r (VStr "target_modules")
              (VInt 8) Er) as (_ & x & Ht & _).
  - vm_compute in Er. apply Ok_inj in Er. subst r. simpl. tauto.
  - vm_compute in Er. apply Ok_inj in Er. subst r. reflexivity.
  - reflexivity.
  - reflexivity.
  - vm_compute. reflexivity.
Defined.

(** ** Resuming from a checkpoint *)

(** X7: let the merged overrides give a path as [model].  If the path
    exists and holds [args.json], line 319 moves the path to
    [resume_from_checkpoint]: the overrides have no [model] any more and
    every other key keeps its value.  If the path or the file does not
    exist, the overrides stay as they are.  In both cases the model that
    the cache is written for is the path. *)
Theorem checkpoint_is_resumed (env : Env) (args : list pyval) (kw : kwdict)
  (p : string) :
  merged_overrides env args = Ok kw ->
  kget "model" kw = Some (VStr p) ->
  (path_exists env p = true ->
   path_exists env (path_join env p "args.json") = true ->
   exists kw1,
     detect_checkpoint env kw = Ok kw1
     /\ kget "resume_from_checkpoint" kw1 = Some (VStr p)
     /\ kmem "model" kw1 = false
     /\ forall k, k <> "model" -> k <> "resume_from_checkpoint" ->
                  kget k kw1 = kget k kw)
  /\ (path_exists env p = false
      \/ path_exists env (path_join env p "args.json") = false ->
      detect_checkpoint env kw = Ok kw)
  /\ (forall r, snd (resolve env args) = Ok r -> r_model r = VStr p).
Proof.
  intros Hm Hk.
  assert (get_model kw = VStr p) as Hg by (unfold get_model; now rewrite Hk).
  split; [|split].
  - intros H1 H2.
    exists (kset "resume_from_checkpoint" (VStr p) (kremove "model" kw)).
    split.
    + unfold detect_checkpoint. cbv zeta. rewrite Hg. simpl.
      rewrite H1. simpl. rewrite H2. unfold kpop, PyDict.pop.
      unfold kget in Hk. now rewrite Hk.
    + split; [now rewrite kget_kset|]. split.
      * rewrite kmem_kset. simpl. apply kmem_kremove.
        exact (count_merged env "model" _ _ Hm).
      * intros k Hk1 Hk2. apply String.eqb_neq in Hk1, Hk2.
        now rewrite kget_kset, Hk2, kget_kremove.
  - intros H. unfold detect_checkpoint. cbv zeta. rewrite Hg. simpl.
    destruct (path_exists env p) eqn:E1; simpl; [|reflexivity].
    destruct H as [H|H]; [discriminate|]. now rewrite H.
  - intros r Hr.
    apply resolve_ok in Hr as (st & kw0 & kw1 & Hc & Hu & _ & _ & _ & _ & _ & ->).
    unfold merged_overrides in Hm. rewrite Hc in Hm. simpl in Hm.
    congruence.
Qed.

Lemma checkpoint_is_resumed_witness :
  detect_checkpoint Sample.env
    [(VStr "model", VStr "/ckpt"); (VStr "dataset", VStr "alpaca")]
  = Ok [(VStr "dataset", VStr "alpaca");
        (VStr "resume_from_checkpoint", VStr "/ckpt")].
Proof.
  destruct (proj1 (checkpoint_is_resumed Sample.env
                     (Sample.form (VStr "/ckpt") (VList [VStr "alpaca"])
                        (VStr "") (VList [VStr "0"]) (VBool false))
                     [(VStr "model", VStr "/ckpt");
                      (VStr "dataset", VStr "alpaca")]
                     "/ckpt" eq_refl eq_refl) eq_refl eq_refl)
    as (kw1 & H & _).
  rewrite H. vm_compute in H. symmetry. exact H.
Defined.

(** ** The events of a run *)

Section Trace.
Variable env : Env.

Lemma call_ctor_shape (il : sdict bool) (kw : kwdict) :
  call_ctor env il kw = ([], Err TypeError)
  \/ exists kwa,
       call_ctor env il kw
       = ([EvConstruct kwa],
          match RLHFArguments env kwa with
          | inr a => Ok a
          | inl e => Err (Raised e)
          end).
Proof.
  destruct (keywords (ctor_items il kw)) as [kwa|] eqn:E.
  - right. exists kwa. now apply call_ctor_cases.
  - left. unfold call_ctor. now rewrite E.
Qed.

(** The constructor block calls the constructor, at most twice, and does
    nothing else; when it succeeds it has called it. *)
Lemma construct_trace (il : sdict bool) (kw : kwdict) :
  Forall (fun ev => is_construct ev = true) (fst (construct env il kw))
  /\ (List.length (fst (construct env il kw)) <= 2)%nat
  /\ (forall res, snd (construct env il kw) = Ok res ->
                  (1 <= List.length (fst (construct env il kw)))%nat).
Proof.
  unfold construct.
  destruct (call_ctor_shape il kw) as [E1|[kwa E1]]; rewrite E1; simpl.
  - simpl; repeat split; auto; try discriminate; try lia.
  - destruct (RLHFArguments env kwa) as [e|a]; simpl.
    + destruct (PyStr.contains "Please set --model" (exn_str e)).
      * destruct (kpop "resume_from_checkpoint" kw) as [[v rest]|]; simpl.
        -- unfold bind. simpl.
           destruct (call_ctor_shape il (kset "model" v rest))
             as [E2|[kwb E2]]; rewrite E2; simpl.
           ++ simpl; repeat split; auto; try discriminate; try lia.
           ++ destruct (RLHFArguments env kwb); simpl; repeat split; auto; try lia.
        -- simpl; repeat split; auto; try discriminate; try lia.
      * simpl; repeat split; auto; try discriminate; try lia.
    + simpl; repeat split; auto; try lia.
Qed.

Lemma resolve_trace (args : list pyval) :
  Forall (fun ev => is_construct ev = true) (fst (resolve env args))
  /\ (List.length (fst (resolve env args)) <= 2)%nat
  /\ (forall r, snd (resolve env args) = Ok r ->
                (1 <= List.length (fst (resolve env args)))%nat).
Proof.
  rewrite resolve_cases.
  destruct (collect env args) as [st|];
    [|simpl; repeat split; auto; try discriminate].
  destruct (dict_update (kwargs st) (more_params st)) as [kw|];
    [|simpl; repeat split; auto; try discriminate].
  destruct (check_dataset env kw) as [[]|];
    [|simpl; repeat split; auto; try discriminate].
  destruct (detect_checkpoint env kw) as [kw1|];
    [|simpl; repeat split; auto; try discriminate].
  cbv zeta. simpl.
  destruct (construct_trace (kwargs_is_list st)
              (fst (route_deepspeed env kw1 (more_params_cmd st))))
    as (H1 & H2 & H3).
  split; [exact H1|]. split; [exact H2|].
  intros r Hr.
  destruct (snd (construct env (kwargs_is_list st)
                   (fst (route_deepspeed env kw1 (more_params_cmd st)))))
    as [res|] eqn:Ec; [|discriminate].
  exact (H3 res eq_refl).
Qed.

Lemma remember_trace (model : pyval) (args : list pyval) :
  fst (remember env model args)
  = if truthy model
    then [EvSaveCache model (cache_record env (fields env args))]
    else [].
Proof.
  unfold remember. destruct (truthy model); [|reflexivity].
  unfold bind. simpl.
  now destruct (save_cache env model (cache_record env (fields env args))).
Qed.

(** The events of a run of [train] that succeeds. *)
Lemma train_trace_ok (args : list pyval) (cmd : string) (a : sft_args)
  (other : sdict pyval) :
  snd (train env args) = Ok (cmd, a, other) ->
  exists r,
    snd (resolve env args) = Ok r
    /\ fst (train env args)
       = (fst (resolve env args)
          ++ EvLog ("Run training: " ++ cmd)
             :: (if truthy (r_model r)
                 then [EvSaveCache (r_model r)
                         (cache_record env (fields env args))]
                 else []))%list.
Proof.
  rewrite train_cases. cbv zeta.
  destruct (snd (resolve env args)) as [r|] eqn:Er; [|discriminate].
  destruct (build_params env (kwargs_is_list (r_state r)) (r_kwargs r)
              (r_suffix r) (r_args r)) as [params|]; [|discriminate].
  destruct (build_command env (train_stage (r_state r)) params (r_args r)
              (other_kwargs (r_state r))) as [c|]; [|discriminate].
  simpl.
  destruct (snd (remember env (r_model r) args)) as [[]|]; [|discriminate].
  intros H. apply Ok_inj in H. injection H as <- _ _.
  exists r. split; [reflexivity|]. now rewrite remember_trace.
Qed.

(** No event of [train] starts anything. *)
Lemma train_no_launch (args : list pyval) :
  Forall (fun ev => is_launch ev = false) (fst (train env args)).
Proof.
  assert (Forall (fun ev => is_launch ev = false) (fst (resolve env args)))
    as Hres.
  { destruct (resolve_trace args) as (H & _).
    eapply Forall_impl; [|exact H]. intros [] Hev; try discriminate Hev.
    reflexivity. }
  rewrite train_cases. cbv zeta.
  destruct (snd (resolve env args)) as [r|]; [|exact Hres].
  destruct (build_params env (kwargs_is_list (r_state r)) (r_kwargs r)
              (r_suffix r) (r_args r)) as [params|]; [|exact Hres].
  destruct (build_command env (train_stage (r_state r)) params (r_args r)
              (other_kwargs (r_state r))) as [c|]; [|exact Hres].
  simpl. apply Forall_app. split; [exact Hres|].
  constructor; [reflexivity|]. rewrite remember_trace.
  destruct (truthy (r_model r)); repeat constructor.
Qed.
End Trace.

Lemma train_local_cases (env : Env) (args : list pyval) :
  train_local env args =
  match snd (train env args) with
  | Err e => (fst (train env args), Err e)
  | Ok (run_command, a, other) =>
      match getitem "dry_run" other with
      | Err e => (fst (train env args), Err e)
      | Ok dry =>
          ((fst (train env args)
            ++ (if negb (truthy dry)
                then [EvMakedirs (logging_dir a); EvSystem run_command;
                      EvSleep; EvInfo (locale_value env "submit_alert")]
                else []))%list,
           Ok (run_command, logging_dir a, UiOpen, UiTasks (output_dir a),
               UiChoices (model a)))
      end
  end.
Proof.
  unfold train_local.
  destruct (snd (train env args)) as [[[c a] other]|e] eqn:Et.
  - rewrite (bind_step _ _ _ Et).
    destruct (getitem "dry_run" other) as [dry|e].
    + rewrite bind_lift_ok. destruct (negb (truthy dry)); reflexivity.
    + simpl. now rewrite app_nil_r.
  - now rewrite (bind_err _ _ _ Et).
Qed.

(** X8: [train] itself starts nothing.  [train_studio] spawns the process
    only when [train] has returned the command, [dry_run] is falsy and the
    buffer length is valid, and it spawns that command.  [train_local]
    does so under the same two conditions, and then creates the logging
    directory before it hands the command to the shell. *)
Theorem nothing_starts_before_success (env : Env) (args : list pyval) :
  Forall (fun ev => is_launch ev = false) (fst (train env args))
  /\ (forall c,
         In (EvPopen c) (fst (train_studio env args)) ->
         exists a other dry n,
           snd (train env args) = Ok (c, a, other)
           /\ sget "dry_run" other = Some dry
           /\ truthy dry = false
           /\ max_log_lines env = Ok n)
  /\ (forall ev,
         In ev (fst (train_local env args)) -> is_launch ev = true ->
         exists c a other dry,
           snd (train env args) = Ok (c, a, other)
           /\ sget "dry_run" other = Some dry
           /\ truthy dry = false
           /\ fst (train_local env args)
              = (fst (train env args)
                 ++ [EvMakedirs (logging_dir a); EvSystem c; EvSleep;
                     EvInfo (locale_value env "submit_alert")])%list).
Proof.
  pose proof (train_no_launch env args) as Hno.
  assert (forall ev, In ev (fst (train env args)) -> is_launch ev = true ->
                     False) as Hcontra.
  { intros ev Hin Hl. rewrite Forall_forall in Hno.
    rewrite (Hno ev Hin) in Hl. discriminate. }
  split; [exact Hno|]. split.
  - intros c. unfold train_studio.
    destruct (snd (train env args)) as [[[c' a] other]|e] eqn:Et; simpl.
    + unfold getitem.
      destruct (sget "dry_run" other) as [dry|] eqn:Ed; simpl.
      * destruct (truthy dry) eqn:Etr; simpl.
        -- intros Hin. exfalso. exact (Hcontra _ Hin eq_refl).
        -- destruct (max_log_lines env) as [n|e] eqn:Em; simpl.
           ++ intros Hin. apply in_app_or in Hin as [Hin|[Hin|[]]].
              ** exfalso. exact (Hcontra _ Hin eq_refl).
              ** injection Hin as ->. now exists a, other, dry, n.
           ++ intros Hin. exfalso. exact (Hcontra _ Hin eq_refl).
      * intros Hin. exfalso. exact (Hcontra _ Hin eq_refl).
    + intros Hin. exfalso. exact (Hcontra _ Hin eq_refl).
  - intros ev. rewrite train_local_cases.
    destruct (snd (train env args)) as [[[c a] other]|e] eqn:Et; simpl.
    + unfold getitem.
      destruct (sget "dry_run" other) as [dry|] eqn:Ed; simpl.
      * destruct (truthy dry) eqn:Etr; simpl.
        -- rewrite app_nil_r. intros Hin Hl. exfalso.
           exact (Hcontra _ Hin Hl).
        -- intros _ _. now exists c, a, other, dry.
      * intros Hin Hl. exfalso. exact (Hcontra _ Hin Hl).
    + intros Hin Hl. exfalso. exact (Hcontra _ Hin Hl).
Qed.

Lemma nothing_starts_before_success_witness :
  exists c a other dry,
    snd (train Sample.env
           (Sample.form (VStr "qwen") (VList [VStr "alpaca"]) (VStr "")
              (VList [VStr "0"]) (VBool false))) = Ok (c, a, other)
    /\ sget "dry_run" other = Some dry
    /\ truthy dry = false.
Proof.
  destruct (proj2 (proj2 (nothing_starts_before_success Sample.env
              (Sample.form (VStr "qwen") (VList [VStr "alpaca"]) (VStr "")
                 (VList [VStr "0"]) (VBool false)))) EvSleep)
    as (c & a & other & dry & H1 & H2 & H3 & _).
  - vm_compute. do 5 right. left. reflexivity.
  - reflexivity.
  - exists c, a, other, dry. exact (conj H1 (conj H2 H3)).
Defined.

(** X9: with a truthy [dry_run], a run of [train] that returns a command
    makes [train_studio] yield one update and nothing more: the notice,
    one [None] for each plot of [Runtime.sft_plot], and the command.
    [train_local] returns the command and the logging directory.  Neither
    adds an event to those of [train], which has called the constructor,
    written the log line and, for a truthy model, written the cache. *)
Theorem dry_run_only_shows_the_command (env : Env) (args : list pyval)
  (cmd : string) (a : sft_args) (other : sdict pyval) (dry : pyval) :
  snd (train env args) = Ok (cmd, a, other) ->
  sget "dry_run" other = Some dry ->
  truthy dry = true ->
  train_studio env args
  = (fst (train env args),
     {| yields := [(CStr (dry_run_notice)
                    :: repeat CNone (sft_plot_count env)
                    ++ [CStr cmd])%list];
        failure := None |})
  /\ train_local env args
     = (fst (train env args),
        Ok (cmd, logging_dir a, UiOpen, UiTasks (output_dir a),
            UiChoices (model a)))
  /\ exists r,
       snd (resolve env args) = Ok r
       /\ (1 <= List.length (fst (resolve env args)))%nat
       /\ fst (train env args)
          = (fst (resolve env args)
             ++ EvLog ("Run training: " ++ cmd)
                :: (if truthy (r_model r)
                    then [EvSaveCache (r_model r)
                            (cache_record env (fields env args))]
                    else []))%list.
Proof.
  intros Ht Hd Htr. split; [|split].
  - unfold train_studio, getitem. rewrite Ht, Hd, Htr. reflexivity.
  - rewrite train_local_cases. unfold getitem. rewrite Ht, Hd, Htr.
    simpl. now rewrite app_nil_r.
  - destruct (train_trace_ok env _ _ _ _ Ht) as (r & Hr & Htrace).
    exists r. split; [exact Hr|]. split; [|exact Htrace].
    exact (proj2 (proj2 (resolve_trace env args)) r Hr).
Qed.

Lemma dry_run_only_shows_the_command_witness :
  List.length
    (yields (snd (train_studio Sample.env
                    (Sample.form (VStr "qwen") (VList [VStr "alpaca"])
                       (VStr "") (VList [VStr "0"]) (VBool true)))))
  = 1%nat.
Proof.
  destruct (snd (train Sample.env
                   (Sample.form (VStr "qwen") (VList [VStr "alpaca"])
                      (VStr "") (VList [VStr "0"]) (VBool true))))
    as [[[cmd a] other]|e] eqn:Et; [|vm_compute in Et; discriminate Et].
  rewrite (proj1 (dry_run_only_shows_the_command Sample.env _ cmd a other
                    (VBool true) Et
                    ltac:(vm_compute in Et; apply Ok_inj in Et;
                          injection Et as _ _ <-; reflexivity)
                    eq_refl)).
  reflexivity.
Defined.

Lemma filter_construct_all (l : list event) :
  Forall (fun ev => is_construct ev = true) l -> filter is_construct l = l.
Proof. apply filter_all. Qed.

(** X10: whatever the submission, [train] calls the constructor at most
    twice, and only after the loop, the merge, the dataset check and the
    checkpoint detection have all passed.  In a run that returns a command
    the constructor calls, one or two, are the first events; the log line
    with the command follows, and then the cache of the model, exactly
    when the model is truthy. *)
Theorem constructor_calls_of_a_run (env : Env) (args : list pyval) :
  (List.length (filter is_construct (fst (train env args))) <= 2)%nat
  /\ (forall kwa,
         In (EvConstruct kwa) (fst (train env args)) ->
         exists st kw kw1,
           collect env args = Ok st
           /\ dict_update (kwargs st) (more_params st) = Ok kw
           /\ check_dataset env kw = Ok tt
           /\ detect_checkpoint env kw = Ok kw1)
  /\ (forall cmd a other,
         snd (train env args) = Ok (cmd, a, other) ->
         exists r,
           snd (resolve env args) = Ok r
           /\ Forall (fun ev => is_construct ev = true)
                (fst (resolve env args))
           /\ (1 <= List.length (fst (resolve env args)) <= 2)%nat
           /\ fst (train env args)
              = (fst (resolve env args)
                 ++ EvLog ("Run training: " ++ cmd)
                    :: (if truthy (r_model r)
                        then [EvSaveCache (r_model r)
                                (cache_record env (fields env args))]
                        else []))%list).
Proof.
  destruct (resolve_trace env args) as (Hall & Hlen & Hone).
  split; [|split].
  - rewrite train_cases. cbv zeta.
    assert (List.length (filter is_construct (fst (resolve env args))) <= 2)%nat
      as Hres by (now rewrite filter_construct_all).
    destruct (snd (resolve env args)) as [r|]; [|exact Hres].
    destruct (build_params env (kwargs_is_list (r_state r)) (r_kwargs r)
                (r_suffix r) (r_args r)) as [params|]; [|exact Hres].
    destruct (build_command env (train_stage (r_state r)) params (r_args r)
                (other_kwargs (r_state r))) as [c|]; [|exact Hres].
    simpl. rewrite filter_app. simpl. rewrite remember_trace.
    destruct (truthy (r_model r)); simpl; now rewrite app_nil_r.
  - intros kwa Hin. apply train_constructs in Hin.
    rewrite resolve_cases in Hin.
    destruct (collect env args) as [st|]; [|contradiction].
    destruct (dict_update (kwargs st) (more_params st)) as [kw|] eqn:Eu;
      [|contradiction].
    destruct (check_dataset env kw) as [[]|] eqn:Ed; [|contradiction].
    destruct (detect_checkpoint env kw) as [kw1|] eqn:Ek; [|contradiction].
    exists st, kw, kw1. now repeat split.
  - intros cmd a other Hok.
    destruct (train_trace_ok env _ _ _ _ Hok) as (r & Hr & Htrace).
    exists r. split; [exact Hr|]. split; [exact Hall|].
    split; [|exact Htrace]. split; [exact (Hone r Hr) | exact Hlen].
Qed.

Lemma constructor_calls_of_a_run_witness :
  exists st kw kw1,
    collect Sample.env
      (Sample.form (VStr "/ckpt") (VList [VStr "alpaca"]) (VStr "")
         (VList [VStr "0"]) (VBool false)) = Ok st
    /\ dict_update (kwargs st) (more_params st) = Ok kw
    /\ check_dataset Sample.env kw = Ok tt
    /\ detect_checkpoint Sample.env kw = Ok kw1.
Proof.
  apply (proj1 (proj2 (constructor_calls_of_a_run Sample.env
           (Sample.form (VStr "/ckpt") (VList [VStr "alpaca"]) (VStr "")
              (VList [VStr "0"]) (VBool false))))
           [("dataset", VList [VStr "alpaca"]); ("model", VStr "/ckpt")]).
  vm_compute. right. left. reflexivity.
Defined.

(** ** The stream of updates *)

Lemma window_length (n : nat) (l : list string) :
  (List.length (window n l) <= n)%nat.
Proof. unfold window. rewrite length_skipn. lia. Qed.

Lemma window_zero (l : list string) : window 0 l = [].
Proof.
  unfold window. rewrite Nat.sub_0_r. apply skipn_all.
Qed.

(** X11: in a run that is no dry run, with a valid buffer length and an
    output whose lines all decode, [train_studio] spawns the command and
    yields one update per line of the output, none before and none after;
    the update after the [k]-th line shows the lines read so far, cut to
    the last [maxlen] of them and joined by newlines, so that the text
    never holds more than [maxlen] lines. *)
Theorem one_update_per_line (env : Env) (args : list pyval) (cmd : string)
  (a : sft_args) (other : sdict pyval) (dry : pyval) (maxlen : nat)
  (decoded : list string) :
  snd (train env args) = Ok (cmd, a, other) ->
  sget "dry_run" other = Some dry ->
  truthy dry = false ->
  max_log_lines env = Ok maxlen ->
  Forall2 (fun raw line => utf8_decode env raw = Some line)
    (readlines (process_output env cmd)) decoded ->
  train_studio env args
  = ((fst (train env args) ++ [EvPopen cmd])%list,
     {| yields :=
          map (fun k =>
                 update env cmd
                   (PyStr.join nl (window maxlen (firstn k decoded))))
              (seq 1 (List.length decoded));
        failure := None |})
  /\ List.length (yields (snd (train_studio env args)))
     = List.length (readlines (process_output env cmd))
  /\ forall k, (List.length (window maxlen (firstn k decoded)) <= maxlen)%nat.
Proof.
  intros Ht Hd Htr Hm Hdec.
  assert (train_studio env args
          = ((fst (train env args) ++ [EvPopen cmd])%list,
             {| yields :=
                  map (fun k =>
                         update env cmd
                           (PyStr.join nl (window maxlen (firstn k decoded))))
                      (seq 1 (List.length decoded));
                failure := None |})) as E.
  { unfold train_studio, getitem. rewrite Ht, Hd, Htr. simpl negb. cbv iota.
    rewrite Hm.
    change (@nil string) with (window maxlen []).
    now rewrite (pump_shows_last_lines env cmd maxlen _ _ Hdec []). }
  split; [exact E|]. split.
  - rewrite E. simpl. rewrite length_map, length_seq.
    symmetry. exact (Forall2_length Hdec).
  - intros k. apply window_length.
Qed.

Lemma one_update_per_line_witness :
  List.length
    (yields (snd (train_studio Sample.env
                    (Sample.form (VStr "qwen") (VList [VStr "alpaca"])
                       (VStr "") (VList [VStr "0"]) (VBool false)))))
  = 3%nat.
Proof.
  destruct (snd (train Sample.env
                   (Sample.form (VStr "qwen") (VList [VStr "alpaca"])
                      (VStr "") (VList [VStr "0"]) (VBool false))))
    as [[[cmd a] other]|e] eqn:Et; [|vm_compute in Et; discriminate Et].
  rewrite (proj1 (proj2 (one_update_per_line Sample.env _ cmd a other
                    (VBool false) 2 ["a" ++ nl; "b" ++ nl; "c" ++ nl] Et
                    ltac:(vm_compute in Et; apply Ok_inj in Et;
                          injection Et as _ _ <-; reflexivity)
                    eq_refl eq_refl
                    ltac:(repeat constructor)))).
  reflexivity.
Defined.

Lemma map_const {A B} (x : B) (l : list A) :
  map (fun _ => x) l = repeat x (List.length l).
Proof. induction l as [|y l IH]; simpl; [reflexivity | now rewrite IH]. Qed.

(** X12: the length of the log buffer.  Without [MAX_LOG_LINES] it is 50.
    A value that is no integer, or an integer below zero, raises
    [ValueError]; in a run that is no dry run [train_studio] then ends
    with that exception after [train] and before the process is spawned.
    With the length zero the process is spawned and every update shows an
    empty log.  A length beyond the index type of the machine, on which
    [deque] raises [OverflowError], is outside the model. *)
Theorem log_buffer_length (env : Env) :
  (environ_get env "MAX_LOG_LINES" = None -> max_log_lines env = Ok 50%nat)
  /\ (forall s,
         environ_get env "MAX_LOG_LINES" = Some s ->
         (PyStr.to_int s = None
          \/ exists n, PyStr.to_int s = Some n /\ (n < 0)%Z) ->
         max_log_lines env = Err ValueError)
  /\ (forall args cmd a other dry e,
         snd (train env args) = Ok (cmd, a, other) ->
         sget "dry_run" other = Some dry -> truthy dry = false ->
         max_log_lines env = Err e ->
         train_studio env args
         = (fst (train env args), {| yields := []; failure := Some e |}))
  /\ (forall args cmd a other dry decoded,
         snd (train env args) = Ok (cmd, a, other) ->
         sget "dry_run" other = Some dry -> truthy dry = false ->
         max_log_lines env = Ok 0%nat ->
         Forall2 (fun raw line => utf8_decode env raw = Some line)
           (readlines (process_output env cmd)) decoded ->
         train_studio env args
         = ((fst (train env args) ++ [EvPopen cmd])%list,
            {| yields := repeat (update env cmd "") (List.length decoded);
               failure := None |})).
Proof.
  split; [|split; [|split]].
  - intros H. unfold max_log_lines. now rewrite H.
  - intros s Hs H. unfold max_log_lines. rewrite Hs. simpl.
    destruct H as [->|(n & -> & Hn)]; [reflexivity|]. simpl.
    apply Z.ltb_lt in Hn. now rewrite Hn.
  - intros args cmd a other dry e Ht Hd Htr Hm.
    unfold train_studio, getitem. now rewrite Ht, Hd, Htr, Hm.
  - intros args cmd a other dry decoded Ht Hd Htr Hm Hdec.
    rewrite (proj1 (one_update_per_line env args cmd a other dry 0 decoded
                      Ht Hd Htr Hm Hdec)).
    f_equal. f_equal.
    rewrite <- (length_seq (List.length decoded) 1) at 2.
    rewrite <- map_const. apply map_ext. intros k.
    now rewrite window_zero.
Qed.

Lemma log_buffer_length_witness :
  max_log_lines (Sample.env_of (Some "-1") "") = Err ValueError.
Proof.
  apply (proj1 (proj2 (log_buffer_length (Sample.env_of (Some "-1") "")))
           "-1" eq_refl).
  right. exists (-1)%Z. split; [reflexivity | lia].
Defined.

(** ** A line that does not decode *)

Section Broken.
Variable env : Env.

Lemma pump_stops (run_command : string) (maxlen : nat)
  (good decoded : list string) (bad : string) (rest : list string) :
  Forall2 (fun raw line => utf8_decode env raw = Some line) good decoded ->
  utf8_decode env bad = None ->
  forall seen,
    pump env run_command maxlen (window maxlen seen)
      (good ++ bad :: rest)%list
    = {| yields :=
           map (fun k =>
                  update env run_command
                    (PyStr.join nl
                       (window maxlen (seen ++ firstn k decoded)%list)))
               (seq 1 (List.length decoded));
         failure := Some UnicodeDecodeError |}.
Proof.
  intros Hgood Hbad.
  induction Hgood as [|raw line good decoded Hd Hrest IH]; intros seen.
  - simpl. now rewrite Hbad.
  - simpl pump. rewrite Hd. rewrite deque_append_window.
    rewrite (IH (seen ++ [line])%list). simpl yields. simpl failure.
    simpl List.length. simpl seq. simpl map. f_equal. f_equal.
    rewrite <- (seq_shift (List.length decoded) 1), map_map.
    apply map_ext. intros k.
    now rewrite <- app_assoc.
Qed.
End Broken.

(** X13: when a line of the output does not decode as UTF-8, the stream
    ends there with [UnicodeDecodeError]: the lines before it have each
    given their update, and neither the broken line nor any line after it
    gives one. *)
Theorem broken_line_ends_the_stream (env : Env) (args : list pyval)
  (cmd : string) (a : sft_args) (other : sdict pyval) (dry : pyval)
  (maxlen : nat) (good decoded : list string) (bad : string)
  (rest : list string) :
  snd (train env args) = Ok (cmd, a, other) ->
  sget "dry_run" other = Some dry ->
  truthy dry = false ->
  max_log_lines env = Ok maxlen ->
  readlines (process_output env cmd) = (good ++ bad :: rest)%list ->
  Forall2 (fun raw line => utf8_decode env raw = Some line) good decoded ->
  utf8_decode env bad = None ->
  train_studio env args
  = ((fst (train env args) ++ [EvPopen cmd])%list,
     {| yields :=
          map (fun k =>
                 update env cmd
                   (PyStr.join nl (window maxlen (firstn k decoded))))
              (seq 1 (List.length decoded));
        failure := Some UnicodeDecodeError |}).
Proof.
  intros Ht Hd Htr Hm Hout Hgood Hbad.
  unfold train_studio, getitem. rewrite Ht, Hd, Htr. simpl negb. cbv iota.
  rewrite Hm, Hout.
  change (@nil string) with (window maxlen []).
  now rewrite (pump_stops env cmd maxlen _ _ _ _ Hgood Hbad []).
Qed.

Lemma broken_line_ends_the_stream_witness :
  let run :=
    snd (train_studio
           (Sample.env_of (Some "2")
              ("a" ++ nl ++ Sample.stray_byte ++ nl ++ "c" ++ nl))
           (Sample.form (VStr "qwen") (VList [VStr "alpaca"])
              (VStr "") (VList [VStr "0"]) (VBool false))) in
  List.length (yields run) = 1%nat /\ failure run = Some UnicodeDecodeError.
Proof.
  destruct (snd (train
                   (Sample.env_of (Some "2")
                      ("a" ++ nl ++ Sample.stray_byte ++ nl ++ "c" ++ nl))
                   (Sample.form (VStr "qwen") (VList [VStr "alpaca"])
                      (VStr "") (VList [VStr "0"]) (VBool false))))
    as [[[cmd a] other]|e] eqn:Et; [|vm_compute in Et; discriminate Et].
  cbv zeta.
  rewrite (broken_line_ends_the_stream _ _ cmd a other (VBool false) 2
             ["a" ++ nl] ["a" ++ nl] (Sample.stray_byte ++ nl) ["c" ++ nl] Et
             ltac:(vm_compute in Et; apply Ok_inj in Et;
                   injection Et as _ _ <-; reflexivity)
             eq_refl eq_refl eq_refl
             ltac:(repeat constructor) eq_refl).
  split; reflexivity.
Defined.

(** ** What the cache of a model holds *)

Section Cache.
Variable env : Env.

Let put (record : sdict pyval) (kv : string * pyval) : sdict pyval :=
  if recorded env (fst kv)
  then sset (fst kv) (if truthy (snd kv) then snd kv else VNone) record
  else record.

Lemma cache_fold_skip (k : string) (l : list (string * pyval)) :
  recorded env k = false \/ ~ In k (map fst l) ->
  forall acc, sget k (fold_left put l acc) = sget k acc.
Proof.
  induction l as [|[j w] l IH]; intros H acc; simpl; [reflexivity|].
  rewrite IH.
  - unfold put. simpl. destruct (recorded env j) eqn:Er; [|reflexivity].
    rewrite sget_sset. destruct (k =? j) eqn:Ek; [|reflexivity].
    apply String.eqb_eq in Ek. subst j.
    destruct H as [H|H]; [congruence|]. exfalso. apply H. now left.
  - destruct H as [H|H]; [now left|]. right. intros Hin. apply H. now right.
Qed.

Lemma cache_fold_hit (k : string) (v : pyval) (l : list (string * pyval)) :
  NoDup (map fst l) -> In (k, v) l -> recorded env k = true ->
  forall acc,
    sget k (fold_left put l acc)
    = Some (if truthy v then v else VNone).
Proof.
  induction l as [|[j w] l IH]; intros Hn Hin Hr acc; [destruct Hin|].
  simpl in Hn. inversion Hn as [|? ? Hj Hn']; subst.
  destruct Hin as [E|Hin].
  - inversion E; subst j w. simpl.
    rewrite cache_fold_skip by (now right).
    unfold put. simpl. rewrite Hr, sget_sset, String.eqb_refl. reflexivity.
  - simpl. now apply IH.
Qed.
End Cache.

(** X14: the record that [train] hands to [save_cache] is taken from the
    form as it was submitted, not from the coerced overrides.  With
    distinct keys, a field of the form is in the record exactly when its
    key is a constructor default or one of [more_params], [train_stage],
    [use_ddp], [ddp_num], [gpu_id], [envs]; it is there with the value as
    submitted when that is truthy and with [None] otherwise, whether or
    not it differs from the default.  A key without a field has no
    entry. *)
Theorem cache_holds_the_form (env : Env) (args : list pyval) :
  NoDup (valid_element_keys env) ->
  (forall k v,
      In (k, v) (fields env args) ->
      sget k (cache_record env (fields env args))
      = if recorded env k
        then Some (if truthy v then v else VNone)
        else None)
  /\ (forall k,
         ~ In k (map fst (fields env args)) ->
         sget k (cache_record env (fields env args)) = None).
Proof.
  intros Hn. split.
  - intros k v Hin. unfold cache_record.
    destruct (recorded env k) eqn:Er.
    + apply (cache_fold_hit env k v _ (fields_nodup env args Hn) Hin Er).
    + now rewrite (cache_fold_skip env k _ (or_introl Er)).
  - intros k Hk. unfold cache_record.
    now rewrite (cache_fold_skip env k _ (or_intror Hk)).
Qed.

Lemma cache_holds_the_form_witness :
  let args := Sample.form (VStr "qwen") (VList [VStr "alpaca"])
                (VStr "") (VList [VStr "0"]) (VBool true) in
  sget "seed" (cache_record Sample.env (fields Sample.env args))
  = Some (VStr "42")
  /\ sget "more_params" (cache_record Sample.env (fields Sample.env args))
     = Some VNone
  /\ sget "dry_run" (cache_record Sample.env (fields Sample.env args))
     = None.
Proof.
  pose proof (cache_holds_the_form Sample.env
                (Sample.form (VStr "qwen") (VList [VStr "alpaca"])
                   (VStr "") (VList [VStr "0"]) (VBool true))
                sample_keys_nodup) as [H _].
  cbv zeta. split; [|split].
  - apply (H "seed" (VStr "42")). vm_compute. tauto.
  - apply (H "more_params" (VStr "")). vm_compute. tauto.
  - apply (H "dry_run" (VBool true)). vm_compute. tauto.
Defined.

(** ** A free-form text that is JSON but no object *)

(** X15: let the free-form text be JSON, left a string by the coercion,
    in a form whose loop ends normally.  Line 313 hands whatever the text
    decodes to to [kwargs.update].  A JSON [null], number or boolean
    raises [TypeError] there, and a JSON string that is not empty raises
    [ValueError]: before the dataset check, the constructor and the log,
    in all three entry points.  An empty JSON list and an empty JSON
    string change nothing. *)
Theorem free_form_must_be_a_mapping (env : Env) (args : list pyval)
  (s : string) (j : pyval) (st : state) :
  NoDup (valid_element_keys env) ->
  In ("more_params", VStr s) (fields env args) ->
  s <> "" ->
  coerce env (VStr s) = Ok (VStr s) ->
  json_loads env s = Some j ->
  collect env args = Ok st ->
  (j = VNone \/ (exists b, j = VBool b) \/ (exists n, j = VInt n)
   \/ (exists f, j = VFloat f) ->
   train env args = ([], Err TypeError)
   /\ train_studio env args
      = ([], {| yields := []; failure := Some TypeError |})
   /\ train_local env args = ([], Err TypeError))
  /\ (forall c t,
         j = VStr (String c t) ->
         train env args = ([], Err ValueError)
         /\ train_studio env args
            = ([], {| yields := []; failure := Some ValueError |})
         /\ train_local env args = ([], Err ValueError))
  /\ (j = VStr "" \/ j = VList [] ->
      merged_overrides env args = Ok (kwargs st)).
Proof.
  intros Hn Hin Hs Hc Hj Hst.
  pose proof (loop_more_params env _ _ _ s Hst (fields_nodup env args Hn)
                Hin Hs Hc) as Hm.
  rewrite Hj in Hm. destruct Hm as [Hm _].
  split; [|split].
  - intros H. apply train_of_failed_resolve.
    rewrite resolve_cases, Hst, Hm.
    destruct H as [->|[[b ->]|[[n ->]|[f ->]]]]; reflexivity.
  - intros c t ->. apply train_of_failed_resolve.
    rewrite resolve_cases, Hst, Hm. reflexivity.
  - intros H. unfold merged_overrides. rewrite Hst. simpl. rewrite Hm.
    destruct H as [-> | ->]; reflexivity.
Qed.

Lemma free_form_must_be_a_mapping_witness :
  train Sample.env
    (Sample.form (VStr "qwen") (VList [VStr "alpaca"]) (VStr "null")
       (VList [VStr "0"]) (VBool false))
  = ([], Err TypeError).
Proof.
  destruct (collect Sample.env
              (Sample.form (VStr "qwen") (VList [VStr "alpaca"])
                 (VStr "null") (VList [VStr "0"]) (VBool false)))
    as [st|e] eqn:Est; [|vm_compute in Est; discriminate Est].
  refine (proj1 (proj1 (free_form_must_be_a_mapping Sample.env _ "null"
                          VNone st sample_keys_nodup _ _ eq_refl eq_refl
                          Est) (or_introl eq_refl))).
  - vm_compute. tauto.
  - discriminate.
Defined.

(** ** What the loop lets into the explicit overrides *)

Section Invariant.
Variable env : Env.

Lemma step_shape (st st' : state) (key : string) (raw : pyval) :
  step env st (key, raw) = Ok st' ->
  exists value,
    coerce env raw = Ok value
    /\ ((is_override env key value = true
         /\ exists v,
              stored value = Ok v
              /\ kwargs st' = kset key v (kwargs st)
              /\ kwargs_is_list st'
                 = sset key (is_list value || element_is_list env key)
                     (kwargs_is_list st))
        \/ (is_override env key value = false
            /\ kwargs st' = kwargs st
            /\ kwargs_is_list st' = kwargs_is_list st)).
Proof.
  unfold step. simpl fst. simpl snd. intros H.
  apply rbind_ok in H as (value & Hc & H). exists value. split; trivial.
  apply rbind_ok in H as (st1 & Hb & H).
  apply rbind_ok in H as (st2 & Hp & H).
  apply Ok_inj in H.
  assert (kwargs st' = kwargs st1 /\ kwargs_is_list st' = kwargs_is_list st1)
    as [-> ->].
  { subst st'.
    assert (kwargs st2 = kwargs st1
            /\ kwargs_is_list st2 = kwargs_is_list st1) as [E1 E2].
    { unfold parse_more_params in Hp.
      destruct ((key =? "more_params") && truthy value).
      - destruct value; try discriminate.
        destruct (json_loads env s); apply Ok_inj in Hp; subst st2;
          now split.
      - apply Ok_inj in Hp. subst st2. now split. }
    destruct (key =? "train_stage"); simpl; now rewrite ?E1, ?E2. }
  unfold bucket in Hb. destruct (is_override env key value).
  - left. split; trivial.
    apply rbind_ok in Hb as (v & Hs & Hb). apply Ok_inj in Hb. subst st1.
    exists v. now repeat split.
  - right. apply Ok_inj in Hb. subst st1. now repeat split.
Qed.

Lemma stored_no_list (value v : pyval) :
  stored value = Ok v -> is_list v = false.
Proof.
  destruct value; simpl; intros H; try (apply Ok_inj in H; now subst v).
  destruct (strs_of l); [|discriminate]. apply Ok_inj in H. now subst v.
Qed.

Let kept (keys : list string) (st : state) : Prop :=
  forall k,
    (forall v, kget k (kwargs st) = Some v ->
               In k keys
               /\ smem k (default_args env) = true
               /\ ~ In k ignore_elements
               /\ is_list v = false)
    /\ smem k (kwargs_is_list st) = kmem k (kwargs st).

Lemma step_kept (keys : list string) (st st' : state) (key : string)
  (raw : pyval) :
  step env st (key, raw) = Ok st' -> In key keys ->
  kept keys st -> kept keys st'.
Proof.
  intros Hs Hk Hinv k.
  apply step_shape in Hs as (value & Hc & [(Ho & v & Hv & -> & ->)
                                          |(Ho & -> & ->)]);
    [|apply Hinv].
  destruct (Hinv k) as [H1 H2]. split.
  - intros w. rewrite kget_kset. destruct (k =? key) eqn:Ek; [|apply H1].
    apply String.eqb_eq in Ek. subst k. intros Hw.
    assert (w = v) as -> by congruence. apply is_override_iff in Ho as (Hi & (d & Hd & _) & _).
    repeat split; trivial.
    + unfold smem, PyDict.mem. fold (sget key (default_args env)).
      now rewrite Hd.
    + now apply (stored_no_list value).
  - unfold smem, PyDict.mem.
    fold (sget k (sset key (is_list value || element_is_list env key)
                    (kwargs_is_list st))).
    rewrite sget_sset, kmem_kset. destruct (k =? key); [reflexivity|].
    exact H2.
Qed.

Lemma loop_kept (keys : list string) (l : list (string * pyval))
  (st st' : state) :
  run_loop env st l = Ok st' ->
  (forall k, In k (map fst l) -> In k keys) ->
  kept keys st -> kept keys st'.
Proof.
  revert st. induction l as [|[key raw] l IH]; simpl; intros st H Hk Hinv.
  - apply Ok_inj in H. now subst st'.
  - apply rbind_ok in H as (st1 & Hs & H).
    apply (IH st1 H); [intros k Hin; apply Hk; now right|].
    apply (step_kept keys st st1 key raw Hs); [apply Hk; now left|].
    exact Hinv.
Qed.
End Invariant.

(** X16: after the loop of lines 291-311 the explicit overrides hold
    nothing but fields of the form: the key of every entry is a key of
    the element dictionary and of the constructor defaults and is none of
    [logging_dir], [more_params], [train_stage], [envs]; no entry is a
    list, a list having been joined to a string; and the list flags have
    exactly the keys of the overrides. *)
Theorem overrides_come_from_the_form (env : Env) (args : list pyval)
  (st : state) :
  collect env args = Ok st ->
  forall k,
    (forall v, kget k (kwargs st) = Some v ->
               In k (valid_element_keys env)
               /\ smem k (default_args env) = true
               /\ ~ In k ignore_elements
               /\ is_list v = false)
    /\ smem k (kwargs_is_list st) = kmem k (kwargs st).
Proof.
  intros Hc.
  apply (loop_kept env (valid_element_keys env) (fields env args)
           (init_state env) st Hc).
  - intros k Hin. apply in_map_iff in Hin as ([k' a] & <- & Hin).
    unfold fields in Hin. now apply in_combine_l in Hin.
  - intros k. split; [discriminate | reflexivity].
Qed.

Lemma overrides_come_from_the_form_witness :
  match collect Sample.env
          (Sample.form (VStr "qwen") (VList [VStr "alpaca"; VStr "dolly"])
             (VStr "") (VList [VStr "0"]) (VBool false)) with
  | Ok st =>
      kget "dataset" (kwargs st) = Some (VStr "alpaca dolly")
      /\ smem "dataset" (kwargs_is_list st) = true
  | Err _ => False
  end.
Proof.
  destruct (collect Sample.env
              (Sample.form (VStr "qwen") (VList [VStr "alpaca"; VStr "dolly"])
                 (VStr "") (VList [VStr "0"]) (VBool false)))
    as [st|e] eqn:Est; [|vm_compute in Est; discriminate Est].
  pose proof (proj2 (overrides_come_from_the_form Sample.env _ st Est
                       "dataset")) as H.
  vm_compute in Est. apply Ok_inj in Est. subst st.
  split; [reflexivity | exact H].
Defined.

(** ** The device dropdown *)

Lemma of_int_parses (z : Z) :
  option_map Z.of_int (NilZero.int_of_string (PyStr.of_int z)) = Some z.
Proof.
  unfold PyStr.of_int.
  pose proof (DecimalZ.of_to z) as Hz.
  destruct (Z.to_int z) as [u|u] eqn:E; destruct u;
    try (rewrite NilZero.isi by discriminate; unfold option_map; f_equal;
         exact Hz).
  - rewrite NilZero.isi_posnil. unfold option_map. f_equal. exact Hz.
  - rewrite NilZero.isi_negnil. unfold option_map. f_equal. exact Hz.
Qed.

Lemma of_int_inj (z1 z2 : Z) : PyStr.of_int z1 = PyStr.of_int z2 -> z1 = z2.
Proof.
  intros H. pose proof (of_int_parses z1) as H1. rewrite H in H1.
  rewrite of_int_parses in H1. congruence.
Qed.

Lemma of_int_not_cpu (z : Z) : PyStr.of_int z <> "cpu".
Proof.
  intros H. pose proof (of_int_parses z) as H1. rewrite H in H1.
  discriminate H1.
Qed.

(** X17: the device dropdown that [do_build_ui] builds.  For every device
    count, the preselected device is one of the choices; the choices are
    the indices below the count, each once, followed by [cpu]; and [cpu]
    is preselected exactly when it is the only choice. *)
Theorem device_choices (device_count : Z) :
  In (default_device device_count) (gpu_choices device_count)
  /\ NoDup (gpu_choices device_count)
  /\ List.length (gpu_choices device_count) = S (Z.to_nat device_count)
  /\ (forall c,
         In c (gpu_choices device_count) <->
         c = "cpu"
         \/ exists i, (0 <= i < device_count)%Z /\ c = PyStr.of_int i)
  /\ (default_device device_count = "cpu" <->
      gpu_choices device_count = ["cpu"])
  /\ (exists indices,
         gpu_choices device_count = (indices ++ ["cpu"])%list
         /\ ~ In "cpu" indices).
Proof.
  assert (forall c,
             In c (gpu_choices device_count) <->
             c = "cpu"
             \/ exists i, (0 <= i < device_count)%Z /\ c = PyStr.of_int i)
    as Hin.
  { intros c. unfold gpu_choices. rewrite in_app_iff, in_map_iff. simpl.
    split.
    - intros [(i & <- & Hi)|[<-|[]]]; [right|now left].
      apply in_seq in Hi. exists (Z.of_nat i). split; [lia | reflexivity].
    - intros [->|(i & Hi & ->)]; [right; now left|left].
      exists (Z.to_nat i). split; [f_equal; lia|].
      apply in_seq. lia. }
  split; [|split; [|split; [|split; [|split]]]].
  - apply Hin. unfold default_device.
    destruct (0 <? device_count)%Z eqn:E; [right|now left].
    apply Z.ltb_lt in E. exists 0%Z. split; [lia | reflexivity].
  - unfold gpu_choices. apply NoDup_app.
    + generalize (seq_NoDup (Z.to_nat device_count) 0).
      generalize (seq 0 (Z.to_nat device_count)) as l.
      induction l as [|i l IH]; simpl; intros Hn; constructor;
        inversion Hn as [|? ? Hi Hn']; subst.
      * intros H. apply in_map_iff in H as (j & Hj & Hjl).
        apply of_int_inj in Hj. apply Nat2Z.inj in Hj. now subst j.
      * now apply IH.
    + constructor; [intros [] | constructor].
    + intros c H [<-|[]]. apply in_map_iff in H as (i & Hi & _).
      now apply of_int_not_cpu in Hi.
  - unfold gpu_choices. rewrite length_app, length_map, length_seq. simpl.
    lia.
  - exact Hin.
  - unfold default_device, gpu_choices.
    destruct (0 <? device_count)%Z eqn:E.
    + split; [discriminate|]. apply Z.ltb_lt in E.
      destruct (Z.to_nat device_count) eqn:En; [lia|]. discriminate.
    + split; [|reflexivity]. intros _. apply Z.ltb_ge in E.
      replace (Z.to_nat device_count) with 0%nat by lia. reflexivity.
  - eexists. split; [reflexivity|].
    intros H. apply in_map_iff in H as (i & Hi & _).
    now apply of_int_not_cpu in Hi.
Qed.

(** ** The environment assignments of the form *)

Lemma rstrip_blank_free (t : string) :
  blank_free t = true -> PyStr.rstrip t = t.
Proof.
  induction t as [|c t IH]; simpl; [reflexivity|].
  intros H. apply andb_true_iff in H as [Hc Ht].
  apply negb_true_iff in Hc. rewrite (IH Ht), Hc. now destruct t.
Qed.

Lemma lstrip_blank_free (t : string) :
  blank_free t = true -> PyStr.lstrip t = t.
Proof.
  destruct t as [|c t]; simpl; [reflexivity|].
  intros H. apply andb_true_iff in H as [Hc _].
  apply negb_true_iff in Hc. now rewrite Hc.
Qed.

Lemma strip_blank_free (t : string) :
  blank_free t = true -> PyStr.strip t = t.
Proof.
  intros H. unfold PyStr.strip.
  now rewrite (lstrip_blank_free t H), (rstrip_blank_free t H).
Qed.

Lemma blank_free_space_free (t : string) :
  blank_free t = true -> space_free t = true.
Proof.
  induction t as [|c t IH]; simpl; [reflexivity|].
  intros H. apply andb_true_iff in H as [Hc Ht]. rewrite (IH Ht).
  destruct (Ascii.eqb c " ") eqn:E; [|reflexivity].
  apply Ascii.eqb_eq in E. subst c. discriminate Hc.
Qed.

Lemma assignment_solid (t : string) : assignment t -> solid t.
Proof.
  intros [Hn Hb]. split; [now apply blank_free_space_free|].
  now rewrite (strip_blank_free t Hb).
Qed.

Lemma rstrip_app (a b : string) :
  PyStr.rstrip b = b -> PyStr.nonempty b = true ->
  PyStr.rstrip (a ++ b) = a ++ b.
Proof.
  intros Hb Hn. induction a as [|c a IH]; simpl; [exact Hb|].
  rewrite IH. destruct (a ++ b) eqn:E; [|reflexivity].
  destruct a; simpl in E; [subst b; discriminate Hn | discriminate E].
Qed.

Lemma join_assignments (tokens : list string) :
  Forall assignment tokens -> tokens <> [] ->
  PyStr.nonempty (PyStr.join " " tokens) = true
  /\ PyStr.lstrip (PyStr.join " " tokens) = PyStr.join " " tokens
  /\ PyStr.rstrip (PyStr.join " " tokens) = PyStr.join " " tokens.
Proof.
  unfold PyStr.join.
  induction 1 as [|t l [Hn Hb] Hl IH]; intros Hne; [contradiction|].
  destruct l as [|t' l].
  - simpl. split; [exact Hn|].
    split; [now apply lstrip_blank_free | now apply rstrip_blank_free].
  - change (String.concat " " (t :: t' :: l))
      with (t ++ " " ++ String.concat " " (t' :: l)).
    destruct IH as (In & _ & Ir); [discriminate|].
    split; [|split].
    + destruct t; [discriminate Hn | reflexivity].
    + destruct t as [|c t]; [discriminate Hn|].
      simpl in Hb. apply andb_true_iff in Hb as [Hc _].
      apply negb_true_iff in Hc. simpl. now rewrite Hc.
    + apply rstrip_app; [|reflexivity].
      now apply (rstrip_app " ").
Qed.

Lemma strip_join_assignments (tokens : list string) :
  Forall assignment tokens -> tokens <> [] ->
  PyStr.strip (PyStr.join " " tokens) = PyStr.join " " tokens.
Proof.
  intros H Hne. destruct (join_assignments tokens H Hne) as (_ & Hl & Hr).
  unfold PyStr.strip. now rewrite Hl, Hr.
Qed.

Lemma set_clauses_join (tokens : list string) :
  Forall assignment tokens -> tokens <> [] ->
  set_clauses (PyStr.join " " tokens)
  = String.concat "" (map (fun t => "set " ++ t ++ " && ") tokens).
Proof.
  intros H Hne. unfold set_clauses.
  destruct (join_assignments tokens H Hne) as (-> & _ & _).
  rewrite resplit_join
    by (eapply Forall_impl; [|exact H]; apply assignment_solid).
  f_equal. f_equal.
  induction H as [|t l [_ Hb] Hl IH]; simpl; [reflexivity|].
  rewrite (strip_blank_free t Hb). f_equal.
  destruct l as [|t' l]; [reflexivity|]. apply IH. discriminate.
Qed.

(** X18: let the [envs] field hold assignments, texts without white
    space, separated by single spaces.  In every command that [train]
    builds they stand right before the launcher: on POSIX as the text of
    the field, and on Windows each one in a [set] clause of its own, in
    the order of the field. *)
Theorem environment_assignments (env : Env) (args : list pyval)
  (cmd : string) (a : sft_args) (other : sdict pyval)
  (tokens : list string) :
  snd (train env args) = Ok (cmd, a, other) ->
  sget "envs" other = Some (VStr (PyStr.join " " tokens)) ->
  tokens <> [] ->
  Forall assignment tokens ->
  occurs
    (if win32 env
     then String.concat "" (map (fun t => "set " ++ t ++ " && ") tokens)
          ++ "start /b swift sft "
     else " " ++ PyStr.join " " tokens ++ " nohup swift ")
    cmd.
Proof.
  intros Hok He Hne Hall.
  apply train_shape in Hok
    as (r & flags & gpu_id & envs & text & devs & ddp & _ & _ & _ & _ & _
        & He' & Ht & _ & _ & ->).
  assert (envs = VStr (PyStr.join " " tokens)) as -> by congruence.
  destruct (join_assignments tokens Hall Hne) as (Hn & _ & _).
  simpl truthy in Ht. rewrite Hn in Ht.
  assert (text = PyStr.join " " tokens) as -> by congruence.
  rewrite (strip_join_assignments tokens Hall Hne).
  apply occurs_app_r. unfold launch_prefix.
  destruct (win32 env).
  - rewrite (set_clauses_join tokens Hall Hne).
    exists (set_clause (visibility env (PyStr.join "," devs))
            ++ set_clause ddp), "".
    now rewrite sapp_nil_r, !sapp_assoc.
  - exists (visibility env (PyStr.join "," devs) ++ " " ++ ddp),
      (py_str env (train_stage (r_state r)) ++ " ").
    now rewrite !sapp_assoc.
Qed.

Lemma environment_assignments_witness :
  match snd (train Sample.env
               [VStr "qwen"; VList [VStr "alpaca"]; VStr "sft"; VStr "";
                VStr ""; VStr "A=1 B=2"; VList [VStr "0"]; VBool false;
                VStr "2"; VBool false; VStr "";
                VList [VStr "all-linear"]; VStr "42"]) with
  | Ok (cmd, _, _) => occurs " A=1 B=2 nohup swift " cmd
  | Err _ => False
  end.
Proof.
  destruct (snd (train Sample.env
                   [VStr "qwen"; VList [VStr "alpaca"]; VStr "sft"; VStr "";
                    VStr ""; VStr "A=1 B=2"; VList [VStr "0"]; VBool false;
                    VStr "2"; VBool false; VStr "";
                    VList [VStr "all-linear"]; VStr "42"]))
    as [[[cmd a] other]|e] eqn:E; [|vm_compute in E; discriminate E].
  exact (environment_assignments Sample.env _ cmd a other ["A=1"; "B=2"] E
           ltac:(vm_compute in E; apply Ok_inj in E;
                 injection E as _ _ <-; reflexivity)
           ltac:(discriminate)
           ltac:(repeat constructor)).
Defined.

(** ** A model that is no path *)

(** X19: lines 317-318 hand the coerced model to [os.path.exists], which
    reads an integer as a file descriptor.  With a dataset among the
    merged overrides: a model that the coercion has made a float ends
    [train] with [TypeError]; one made an integer outside the range of a
    C [int] ends it with [OverflowError]; one made the number of an open
    descriptor ends it with the [TypeError] of [os.path.join]; all three
    before any event.  An integer that is no open descriptor passes the
    checkpoint detection unchanged. *)
Theorem numeric_model_is_a_descriptor (env : Env) (args : list pyval)
  (kw : kwdict) (m : pyval) :
  merged_overrides env args = Ok kw ->
  kmem "dataset" kw || kmem "custom_train_dataset_path" kw = true ->
  kget "model" kw = Some m ->
  (forall f, m = VFloat f -> train env args = ([], Err TypeError))
  /\ (forall z,
         m = VInt z -> (z < - 2 ^ 31 \/ 2 ^ 31 <= z)%Z ->
         train env args = ([], Err OverflowError))
  /\ (forall z,
         m = VInt z -> (- 2 ^ 31 <= z < 2 ^ 31)%Z ->
         fd_exists env z = true ->
         train env args = ([], Err TypeError))
  /\ (forall z,
         m = VInt z -> (- 2 ^ 31 <= z < 2 ^ 31)%Z ->
         fd_exists env z = false ->
         detect_checkpoint env kw = Ok kw).
Proof.
  intros Hm Hk Hmodel.
  apply merged_overrides_ok in Hm as (st & Hc & Hu).
  assert (get_model kw = m) as Hg by (unfold get_model; now rewrite Hmodel).
  assert (forall e, detect_checkpoint env kw = Err e ->
                    train env args = ([], Err e)) as Hfail.
  { intros e He. apply train_of_failed_resolve.
    rewrite resolve_cases, Hc, Hu. unfold check_dataset.
    apply orb_true_iff in Hk.
    assert (negb (kmem "dataset" kw)
            && negb (kmem "custom_train_dataset_path" kw) = false) as ->.
    { destruct Hk as [-> | ->]; simpl; trivial. apply andb_false_r. }
    now rewrite He. }
  assert (forall z, (- 2 ^ 31 <= z < 2 ^ 31)%Z ->
                    ((- 2 ^ 31 <=? z) && (z <? 2 ^ 31))%Z = true) as Hin.
  { intros z Hz. apply andb_true_iff. split; [apply Z.leb_le | apply Z.ltb_lt];
      lia. }
  split; [|split; [|split]].
  - intros f ->. apply Hfail. unfold detect_checkpoint. now rewrite Hg.
  - intros z -> Hz. apply Hfail. unfold detect_checkpoint. rewrite Hg.
    unfold os_path_exists.
    assert (((- 2 ^ 31 <=? z) && (z <? 2 ^ 31))%Z = false) as ->;
      [|reflexivity].
    apply andb_false_iff.
    destruct Hz; [left; apply Z.leb_gt | right; apply Z.ltb_ge]; lia.
  - intros z -> Hz Hfd. apply Hfail. unfold detect_checkpoint. rewrite Hg.
    unfold os_path_exists. rewrite (Hin z Hz), Hfd. reflexivity.
  - intros z -> Hz Hfd. unfold detect_checkpoint. rewrite Hg.
    unfold os_path_exists. rewrite (Hin z Hz), Hfd. reflexivity.
Qed.

Lemma numeric_model_is_a_descriptor_witness :
  train Sample.env
    (Sample.form (VStr "4294967296") (VList [VStr "alpaca"]) (VStr "")
       (VList [VStr "0"]) (VBool false))
  = ([], Err OverflowError).
Proof.
  destruct (merged_overrides Sample.env
              (Sample.form (VStr "4294967296") (VList [VStr "alpaca"])
                 (VStr "") (VList [VStr "0"]) (VBool false)))
    as [kw|e] eqn:E; [|vm_compute in E; discriminate E].
  refine (proj1 (proj2 (numeric_model_is_a_descriptor Sample.env _ kw
                          (VInt 4294967296) E _ _))
            4294967296%Z eq_refl (or_intror _)).
  - vm_compute in E. apply Ok_inj in E. subst kw. reflexivity.
  - vm_compute in E. apply Ok_inj in E. subst kw. reflexivity.
  - lia.
Defined.
